(** * The IPFS storage client of the worker nodes (node-client/ipfs_client.py)

    A shallow embedding of the three storage backends of [ipfs_client.py]
    (the hosted pinning service and the self-hosted node, both in class
    [IPFSClient], and the filesystem-backed [MockIPFSClient]) and of the
    factory [get_ipfs_client], followed by the properties of the
    specification that concern them and by further properties of the same
    code.

    Modelling conventions.
    - A Python [str] is a [string] whose characters are the code points
      U+0000..U+00FF; [bytes] is a list of [byte].
    - A method is a function in a state-and-exception monad.  The state
      survives a raised exception, as side effects do in Python, and
      [try_except] is [try: ... except Exception: ...].
    - The network is an oracle in the world: it answers a request, given the
      requests sent before, with a response or with a transport failure, and
      every request that is sent is recorded with its timeout.
    - Paths given by a caller (the file to upload, the file to write a
      download to) name regular files outside the mock's storage directory;
      the storage directory belongs to the store.  Its index file
      [metadata.json] is only ever written by [_save_metadata], so it is
      represented by the dictionary that was dumped into it.  A CID is used
      as one path component.  Failures of the filesystem other than a
      missing file or opening a directory are not modelled.
    - [print] calls are omitted.  JSON numbers are integers; a returned
      value that may be [None] is an [option].
    - The headers of a request are those that the code passes to [httpx];
      a temporary file is a new file under [/tmp], named after a counter. *)

From Stdlib Require Import ZArith NArith List String Ascii Lia.
From Stdlib Require Import DecimalString DecimalPos DecimalN.
From Stdlib.Strings Require Import Byte.
From stdpp Require Import gmap strings list fin_maps.
Import ListNotations.
Local Open Scope string_scope.
#[local] Set Warnings "-register-all".
#[local] Arguments String.append !s1 s2 / : simpl nomatch.

(** ** Python values *)

Definition bytes := list byte.

(** JSON documents, as [json.loads] returns them and [json.dumps] takes
    them; a [dict] keeps its insertion order. *)
Inductive json :=
| JNull
| JBool (b : bool)
| JInt (n : Z)
| JStr (s : string)
| JList (l : list json)
| JDict (d : list (string * json)).

Definition dict := list (string * json).

(** [d.get(k)] *)
Fixpoint dict_get (k : string) (d : dict) : option json :=
  match d with
  | [] => None
  | (k', v) :: r => if String.eqb k k' then Some v else dict_get k r
  end.

(** [d[k] = v]: an existing key keeps its position, a new key goes last. *)
Fixpoint dict_set (k : string) (v : json) (d : dict) : dict :=
  match d with
  | [] => [(k, v)]
  | (k', v') :: r => if String.eqb k k' then (k, v) :: r else (k', v') :: dict_set k v r
  end.

(** Truthiness of an optional string, as in [name or default] and
    [if os.getenv(..)]: [None] and the empty string are false. *)
Definition truthy (o : option string) : bool :=
  match o with
  | Some (String _ _) => true
  | _ => false
  end.

Definition or_else (o : option string) (dflt : string) : string :=
  match o with
  | Some (String c r) => String c r
  | _ => dflt
  end.

(** ** Strings *)

Definition is_space (c : ascii) : bool :=
  let n := nat_of_ascii c in
  (((9 <=? n) && (n <=? 13)) || ((28 <=? n) && (n <=? 32)) || (n =? 133) || (n =? 160))%nat.

Fixpoint lstrip (s : string) : string :=
  match s with
  | String c r => if is_space c then lstrip r else s
  | EmptyString => EmptyString
  end.

Fixpoint rstrip (s : string) : string :=
  match s with
  | EmptyString => EmptyString
  | String c r =>
      match rstrip r with
      | EmptyString => if is_space c then EmptyString else String c EmptyString
      | r' => String c r'
      end
  end.

(** [s.strip()] *)
Definition strip (s : string) : string := rstrip (lstrip s).

(** [s.startswith(p)] *)
Fixpoint starts_with (p s : string) : bool :=
  match p with
  | EmptyString => true
  | String a p' =>
      match s with
      | String b s' => Ascii.eqb a b && starts_with p' s'
      | EmptyString => false
      end
  end.

(** What follows the prefix [p] in [s], when [s] starts with [p]. *)
Fixpoint drop_prefix (p s : string) : option string :=
  match p with
  | EmptyString => Some s
  | String a p' =>
      match s with
      | String b s' => if Ascii.eqb a b then drop_prefix p' s' else None
      | EmptyString => None
      end
  end.

(** [s.replace(old, '')] for a non-empty [old]: occurrences are found from
    the left and do not overlap.  [skip] counts the characters of the
    occurrence being removed that are still to be dropped. *)
Fixpoint remove_from (old : string) (skip : nat) (s : string) : string :=
  match s with
  | EmptyString => EmptyString
  | String c r =>
      match skip with
      | S k => remove_from old k r
      | O => if starts_with old s
             then remove_from old (String.length old - 1) r
             else String c (remove_from old 0 r)
      end
  end.

Definition str_remove (old s : string) : string := remove_from old 0 s.

(** [s[:n]] *)
Fixpoint str_take (n : nat) (s : string) : string :=
  match n, s with
  | S k, String c r => String c (str_take k r)
  | _, _ => EmptyString
  end.

(** The last component of a path, [Path(p).name]; empty and [.] components
    do not count. *)
Definition path_part (cur last : string) : string :=
  match cur with
  | EmptyString => last
  | String "." EmptyString => last
  | _ => cur
  end.

Fixpoint path_name_from (cur last : string) (s : string) : string :=
  match s with
  | EmptyString => path_part cur last
  | String c r =>
      if Ascii.eqb c "/"
      then path_name_from EmptyString (path_part cur last) r
      else path_name_from (cur ++ String c EmptyString) last r
  end.

Definition path_name (p : string) : string := path_name_from "" "" p.

(** [s.encode()]: UTF-8 of the code points below 256. *)
Fixpoint str_encode (s : string) : bytes :=
  match s with
  | EmptyString => []
  | String c r =>
      let n := N_of_ascii c in
      if (n <? 128)%N then byte_of_ascii c :: str_encode r
      else match Byte.of_N (192 + n / 64), Byte.of_N (128 + n mod 64) with
           | Some b1, Some b2 => b1 :: b2 :: str_encode r
           | _, _ => str_encode r
           end
  end.

(** Decoding of UTF-8 text; [None] is [UnicodeDecodeError] or a code point
    that a [string] does not hold. *)
Fixpoint bytes_decode (l : bytes) : option string :=
  match l with
  | [] => Some EmptyString
  | b :: r =>
      let n := Byte.to_N b in
      if (n <? 128)%N then option_map (String (ascii_of_byte b)) (bytes_decode r)
      else if ((n =? 194) || (n =? 195))%N then
        match r with
        | b2 :: r' =>
            let m := Byte.to_N b2 in
            if ((128 <=? m) && (m <? 192))%N
            then option_map (String (ascii_of_N ((n - 192) * 64 + (m - 128)))) (bytes_decode r')
            else None
        | [] => None
        end
      else None
  end.

(** ** SHA-256 (FIPS 180-4), for [hashlib.sha256(data).hexdigest()] *)

Module SHA256.
Local Open Scope N_scope.
Local Open Scope list_scope.

Definition w32 : N := 4294967296.
Definition add32 (a b : N) : N := (a + b) mod w32.
Definition rotr (n x : N) : N := N.lor (N.shiftr x n) (N.shiftl x (32 - n) mod w32).
Definition shr (n x : N) : N := N.shiftr x n.
Definition not32 (x : N) : N := N.lxor x (w32 - 1).

Definition Ch (x y z : N) : N := N.lxor (N.land x y) (N.land (not32 x) z).
Definition Maj (x y z : N) : N := N.lxor (N.lxor (N.land x y) (N.land x z)) (N.land y z).
Definition Sigma0 (x : N) : N := N.lxor (N.lxor (rotr 2 x) (rotr 13 x)) (rotr 22 x).
Definition Sigma1 (x : N) : N := N.lxor (N.lxor (rotr 6 x) (rotr 11 x)) (rotr 25 x).
Definition sigma0 (x : N) : N := N.lxor (N.lxor (rotr 7 x) (rotr 18 x)) (shr 3 x).
Definition sigma1 (x : N) : N := N.lxor (N.lxor (rotr 17 x) (rotr 19 x)) (shr 10 x).

(** The primes below [bound], by trial division. *)
Definition is_prime (n : N) : bool :=
  (1 <? n) && forallb (fun d => negb (n mod d =? 0)) (map N.of_nat (seq 2 (N.to_nat n - 2))).

Definition primes_below (bound : nat) : list N :=
  filter is_prime (map N.of_nat (seq 0 bound)).

(** The integer cube root, found bit by bit from bit [bits] down. *)
Fixpoint cube_root_from (bits : nat) (acc x : N) : N :=
  match bits with
  | O => acc
  | S b =>
      let candidate := acc + 2 ^ N.of_nat b in
      if candidate * candidate * candidate <=? x
      then cube_root_from b candidate x
      else cube_root_from b acc x
  end.

(** The round constants: the first 32 bits of the fractional parts of the
    cube roots of the first 64 primes. *)
Definition K : list N :=
  Eval vm_compute in
    map (fun p => cube_root_from 36 0 (p * 2 ^ 96) mod w32) (primes_below 312).

(** The initial hash value: the first 32 bits of the fractional parts of
    the square roots of the first 8 primes. *)
Definition H0 : list N :=
  Eval vm_compute in
    map (fun p => N.sqrt (p * 2 ^ 64) mod w32) (primes_below 20).

(** Big-endian encoding of [x] on [n] bytes. *)
Fixpoint be_bytes (n : nat) (x : N) : list N :=
  match n with
  | O => []
  | S k => be_bytes k (x / 256) ++ [x mod 256]
  end.

(** The message, a 1 bit, zero bits up to 56 modulo 64 bytes, and the bit
    length on 8 bytes. *)
Definition pad (msg : list N) : list N :=
  let len := N.of_nat (List.length msg) in
  let zeros := N.to_nat ((119 - len mod 64) mod 64) in
  msg ++ [0x80] ++ repeat 0 zeros ++ be_bytes 8 (8 * len).

Fixpoint be_words (fuel : nat) (l : list N) : list N :=
  match fuel, l with
  | S k, a :: b :: c :: d :: r => (((a * 256 + b) * 256 + c) * 256 + d) :: be_words k r
  | _, _ => []
  end.

Fixpoint chunks (fuel : nat) (l : list N) : list (list N) :=
  match fuel with
  | O => []
  | S k => match l with
           | [] => []
           | _ => firstn 16 l :: chunks k (skipn 16 l)
           end
  end.

Definition nthw (i : nat) (w : list N) : N := nth i w 0.

(** One round.  The state is the working variables a..h and the sixteen
    words of the message schedule from the current one on. *)
Definition round (st : list N * list N) (k : N) : list N * list N :=
  let '(v, w) := st in
  match v with
  | [a; b; c; d; e; f; g; h] =>
      let t1 := add32 (add32 (add32 (add32 h (Sigma1 e)) (Ch e f g)) k) (nthw 0 w) in
      let t2 := add32 (Sigma0 a) (Maj a b c) in
      let wn := add32 (add32 (add32 (sigma1 (nthw 14 w)) (nthw 9 w)) (sigma0 (nthw 1 w)))
                      (nthw 0 w) in
      ([add32 t1 t2; a; b; c; add32 d t1; e; f; g], tl w ++ [wn])
  | _ => st
  end.

Definition compress (h : list N) (block : list N) : list N :=
  let '(v, _) := fold_left round K (h, block) in
  map (fun p => add32 (fst p) (snd p)) (combine h v).

Definition digest (msg : list N) : list N :=
  let p := pad msg in
  let ws := be_words (List.length p) p in
  let hs := fold_left compress (chunks (List.length ws) ws) H0 in
  flat_map (be_bytes 4) hs.

End SHA256.

Definition hex_digit (n : N) : ascii :=
  ascii_of_N (if (n <? 10)%N then 48 + n else 87 + n).

Fixpoint hex_of (l : list N) : string :=
  match l with
  | [] => EmptyString
  | b :: r => String (hex_digit ((b / 16) mod 16)) (String (hex_digit (b mod 16)) (hex_of r))
  end.

Definition sha256_hexdigest (data : bytes) : string :=
  hex_of (SHA256.digest (map Byte.to_N data)).

(** ** The [json] module *)

Definition chr (n : nat) : ascii := ascii_of_nat n.
Definition str1 (c : ascii) : string := String c EmptyString.
Definition dquote : string := str1 (chr 34).
Definition backslash : string := str1 (chr 92).
Definition newline : string := str1 (chr 10).

Fixpoint spaces (n : nat) : string :=
  match n with
  | O => EmptyString
  | S k => String " " (spaces k)
  end.

(** [str(n)] for an [int] *)
Definition Z_to_str (z : Z) : string := NilZero.string_of_int (Z.to_int z).

(** One character of a string literal, as [json.dumps] writes it with
    [ensure_ascii=True]. *)
Definition escape_char (c : ascii) : string :=
  let n := nat_of_ascii c in
  if (n =? 34)%nat then backslash ++ dquote
  else if (n =? 92)%nat then backslash ++ backslash
  else if (n =? 10)%nat then backslash ++ "n"
  else if (n =? 13)%nat then backslash ++ "r"
  else if (n =? 9)%nat then backslash ++ "t"
  else if (n =? 8)%nat then backslash ++ "b"
  else if (n =? 12)%nat then backslash ++ "f"
  else if ((32 <=? n) && (n <=? 126))%nat then str1 c
  else backslash ++ "u00" ++ str1 (hex_digit (N.of_nat n / 16)) ++ str1 (hex_digit (N.of_nat n mod 16)).

Fixpoint escape (s : string) : string :=
  match s with
  | EmptyString => EmptyString
  | String c r => escape_char c ++ escape r
  end.

Definition quote (s : string) : string := dquote ++ escape s ++ dquote.

(** [json.dumps(j, indent=ind)] at nesting level [lvl].  Without an indent
    the separators are [", "] and [": "]; with one, items are separated by
    [","] and a line break. *)
Fixpoint dumps_at (ind : option nat) (lvl : nat) (j : json) {struct j} : string :=
  let nl := fun l => match ind with
                     | Some n => newline ++ spaces (n * l)
                     | None => EmptyString
                     end in
  let sep := match ind with
             | Some _ => "," ++ nl (S lvl)
             | None => ", "
             end in
  match j with
  | JNull => "null"
  | JBool true => "true"
  | JBool false => "false"
  | JInt z => Z_to_str z
  | JStr s => quote s
  | JList [] => "[]"
  | JList (x :: xs) =>
      "[" ++ nl (S lvl) ++ dumps_at ind (S lvl) x
      ++ (fix items (l : list json) : string :=
            match l with
            | [] => EmptyString
            | y :: ys => sep ++ dumps_at ind (S lvl) y ++ items ys
            end) xs
      ++ nl lvl ++ "]"
  | JDict [] => "{}"
  | JDict ((k, v) :: kvs) =>
      "{" ++ nl (S lvl) ++ quote k ++ ": " ++ dumps_at ind (S lvl) v
      ++ (fix members (l : list (string * json)) : string :=
            match l with
            | [] => EmptyString
            | (k', v') :: r => sep ++ quote k' ++ ": " ++ dumps_at ind (S lvl) v' ++ members r
            end) kvs
      ++ nl lvl ++ "}"
  end.

(** [json.dumps(j)] *)
Definition json_dumps (j : json) : string := dumps_at None 0 j.

(** [json.dumps(j, indent=2)], the text [json.dump(j, f, indent=2)] writes *)
Definition json_dumps_indent2 (j : json) : string := dumps_at (Some 2%nat) 0 j.

(** *** Parsing *)

Definition is_ws (c : ascii) : bool :=
  let n := nat_of_ascii c in
  ((n =? 32) || (n =? 9) || (n =? 10) || (n =? 13))%nat.

Fixpoint skip_ws (s : string) : string :=
  match s with
  | String c r => if is_ws c then skip_ws r else s
  | EmptyString => EmptyString
  end.

Definition digit_val (c : ascii) : option N :=
  let n := N_of_ascii c in
  if ((48 <=? n) && (n <=? 57))%N then Some (n - 48)%N else None.

Definition hex_val (c : ascii) : option N :=
  let n := N_of_ascii c in
  if ((48 <=? n) && (n <=? 57))%N then Some (n - 48)%N
  else if ((97 <=? n) && (n <=? 102))%N then Some (n - 87)%N
  else if ((65 <=? n) && (n <=? 70))%N then Some (n - 55)%N
  else None.

(** Reads the digits at the front of [s]. *)
Fixpoint parse_digits (acc : N) (s : string) : N * string :=
  match s with
  | String c r =>
      match digit_val c with
      | Some d => parse_digits (acc * 10 + d) r
      | None => (acc, s)
      end
  | EmptyString => (acc, s)
  end.

(** The integer part of a number: [0] or a non-zero digit and more digits. *)
Definition parse_nat (s : string) : option (N * string) :=
  match s with
  | String c r =>
      match digit_val c with
      | Some 0%N => Some (0%N, r)
      | Some d => Some (parse_digits d r)
      | None => None
      end
  | EmptyString => None
  end.

Definition starts_fraction (s : string) : bool :=
  match s with
  | String c _ => let n := nat_of_ascii c in ((n =? 46) || (n =? 101) || (n =? 69))%nat
  | EmptyString => false
  end.

(** A number; a fraction or an exponent makes it a float, which a [json]
    value does not hold. *)
Definition parse_number (s : string) : option (json * string) :=
  let signed := match s with
                | String "-" r => (true, r)
                | _ => (false, s)
                end in
  match parse_nat (snd signed) with
  | Some (n, rest) =>
      if starts_fraction rest then None
      else Some (JInt (if fst signed then - Z.of_N n else Z.of_N n), rest)
  | None => None
  end.

(** The characters of a string literal after its opening quote, up to and
    including the closing quote. *)
Fixpoint parse_chars (s : string) : option (string * string) :=
  match s with
  | EmptyString => None
  | String c r =>
      let n := nat_of_ascii c in
      if (n =? 34)%nat then Some (EmptyString, r)
      else if (n =? 92)%nat then
        match r with
        | String e r1 =>
            let m := nat_of_ascii e in
            let simple := fun (d : nat) =>
              match parse_chars r1 with
              | Some (t, rest) => Some (String (chr d) t, rest)
              | None => None
              end in
            if (m =? 34)%nat then simple 34%nat
            else if (m =? 92)%nat then simple 92%nat
            else if (m =? 47)%nat then simple 47%nat
            else if (m =? 98)%nat then simple 8%nat
            else if (m =? 102)%nat then simple 12%nat
            else if (m =? 110)%nat then simple 10%nat
            else if (m =? 114)%nat then simple 13%nat
            else if (m =? 116)%nat then simple 9%nat
            else if (m =? 117)%nat then
              match r1 with
              | String h1 (String h2 (String h3 (String h4 r2))) =>
                  match hex_val h1, hex_val h2, hex_val h3, hex_val h4 with
                  | Some 0%N, Some 0%N, Some a, Some b =>
                      match parse_chars r2 with
                      | Some (t, rest) => Some (String (ascii_of_N (a * 16 + b)) t, rest)
                      | None => None
                      end
                  | _, _, _, _ => None
                  end
              | _ => None
              end
            else None
        | EmptyString => None
        end
      else if (n <? 32)%nat then None
      else match parse_chars r with
           | Some (t, rest) => Some (String c t, rest)
           | None => None
           end
  end.

(** A value at the front of [s], and what follows it.  [fuel] bounds the
    number of nested calls. *)
Fixpoint parse_value (fuel : nat) (s : string) : option (json * string) :=
  match fuel with
  | O => None
  | S f =>
      match s with
      | EmptyString => None
      | String c r =>
          let n := nat_of_ascii c in
          if (n =? 34)%nat then
            match parse_chars r with
            | Some (t, rest) => Some (JStr t, rest)
            | None => None
            end
          else if (n =? 91)%nat then
            match skip_ws r with
            | String "]" rest => Some (JList [], rest)
            | r' => match parse_elems f r' with
                    | Some (l, rest) => Some (JList l, rest)
                    | None => None
                    end
            end
          else if (n =? 123)%nat then
            match skip_ws r with
            | String "}" rest => Some (JDict [], rest)
            | r' => match parse_members f [] r' with
                    | Some (d, rest) => Some (JDict d, rest)
                    | None => None
                    end
            end
          else match drop_prefix "null" s, drop_prefix "true" s, drop_prefix "false" s with
               | Some rest, _, _ => Some (JNull, rest)
               | _, Some rest, _ => Some (JBool true, rest)
               | _, _, Some rest => Some (JBool false, rest)
               | _, _, _ => parse_number s
               end
      end
  end

(** The elements of an array from the first one on, up to and including
    the closing bracket. *)
with parse_elems (fuel : nat) (s : string) : option (list json * string) :=
  match fuel with
  | O => None
  | S f =>
      match parse_value f s with
      | Some (v, rest) =>
          match skip_ws rest with
          | String "," r =>
              match parse_elems f (skip_ws r) with
              | Some (l, rest') => Some (v :: l, rest')
              | None => None
              end
          | String "]" r => Some ([v], r)
          | _ => None
          end
      | None => None
      end
  end

(** The members of an object from the first key on, up to and including
    the closing brace; [acc] holds the members read so far, and a repeated
    key takes its last value. *)
with parse_members (fuel : nat) (acc : dict) (s : string) : option (dict * string) :=
  match fuel with
  | O => None
  | S f =>
      match s with
      | String c r =>
          if (nat_of_ascii c =? 34)%nat then
            match parse_chars r with
            | Some (k, rest) =>
                match skip_ws rest with
                | String ":" r1 =>
                    match parse_value f (skip_ws r1) with
                    | Some (v, rest1) =>
                        match skip_ws rest1 with
                        | String "," r2 => parse_members f (dict_set k v acc) (skip_ws r2)
                        | String "}" r2 => Some (dict_set k v acc, r2)
                        | _ => None
                        end
                    | None => None
                    end
                | _ => None
                end
            | None => None
            end
          else None
      | EmptyString => None
      end
  end.

(** [json.loads(s)]; [None] is [JSONDecodeError]. *)
Definition json_loads (s : string) : option json :=
  match parse_value (2 * String.length s + 2) (skip_ws s) with
  | Some (v, rest) =>
      match skip_ws rest with
      | EmptyString => Some v
      | _ => None
      end
  | None => None
  end.

(** ** Exceptions *)

Inductive exn :=
| HTTPError (reason : string)       (* httpx: ConnectError, ReadTimeout, ... *)
| JSONDecodeError
| UnicodeDecodeError
| KeyError (k : string)
| TypeError
| FileNotFoundError (p : string)
| IsADirectoryError (p : string)
| AttributeError (attr : string).

Inductive result (A : Type) :=
| Returns (a : A)
| Raises (e : exn).
Arguments Returns {A} a.
Arguments Raises {A} e.

(** ** The method monad: a state, and a value or an exception *)

Definition M (S A : Type) : Type := S -> result A * S.

Definition ret {S A} (a : A) : M S A := fun s => (Returns a, s).

Definition raise {S A} (e : exn) : M S A := fun s => (Raises e, s).

Definition bind {S A B} (m : M S A) (k : A -> M S B) : M S B :=
  fun s => match m s with
           | (Returns a, s') => k a s'
           | (Raises e, s') => (Raises e, s')
           end.

(** [try: m except Exception: h] *)
Definition try_except {S A} (m : M S A) (h : exn -> M S A) : M S A :=
  fun s => match m s with
           | (Raises e, s') => h e s'
           | r => r
           end.

Definition gets {S A} (f : S -> A) : M S A := fun s => (Returns (f s), s).

Definition modify {S} (f : S -> S) : M S unit := fun s => (Returns tt, f s).

(** A pure computation that may raise. *)
Definition lift {S A} (r : result A) : M S A := fun s => (r, s).

Declare Scope monad_scope.
Delimit Scope monad_scope with monad.
Notation "x <- m ;; k" := (bind m (fun x => k))
  (at level 100, m at next level, right associativity) : monad_scope.
Notation "m ;; k" := (bind m (fun _ => k))
  (at level 100, right associativity) : monad_scope.
Local Open Scope monad_scope.

(** ** The world: environment, files and network *)

Inductive http_method := GET | POST.

Inductive body :=
| NoBody
| Multipart (filename : string) (content : bytes) (data : list (string * string))
| JsonBody (j : json).

Record Request := {
  method : http_method;
  url : string;
  headers : list (string * string);
  payload : body;
  timeout : Z;                 (* seconds *)
  follow_redirects : bool
}.

Record Response := {
  status_code : Z;
  content : bytes
}.

Inductive net_result :=
| Answer (r : Response)
| Failure (reason : string).

(** The files of a mock storage directory: the index [metadata.json], by
    the dictionary dumped into it, and the other regular files by name. *)
Record MockDir := {
  index_file : option dict;
  blobs : gmap string bytes
}.

Definition empty_dir : MockDir := {| index_file := None; blobs := ∅ |}.

Record World := {
  environ : gmap string string;                  (* os.environ *)
  files : gmap string bytes;                     (* the caller's files, by path *)
  dirs : gmap string MockDir;                    (* mock storage directories, by path *)
  sent : list Request;                           (* the requests sent so far *)
  remote : list Request -> Request -> net_result; (* what the network answers *)
  tmp_seq : nat                                  (* temporary files created so far *)
}.

Definition set_files (f : gmap string bytes -> gmap string bytes) (w : World) : World :=
  {| environ := environ w; files := f (files w); dirs := dirs w; sent := sent w;
     remote := remote w; tmp_seq := tmp_seq w |}.

Definition set_dirs (f : gmap string MockDir -> gmap string MockDir) (w : World) : World :=
  {| environ := environ w; files := files w; dirs := f (dirs w); sent := sent w;
     remote := remote w; tmp_seq := tmp_seq w |}.

(** [os.getenv(k)] and [os.getenv(k, dflt)] *)
Definition getenv (k : string) : M World (option string) :=
  gets (fun w => environ w !! k).

Definition getenv_default (k dflt : string) : M World string :=
  gets (fun w => default dflt (environ w !! k)).

(** [Path(p).exists()] *)
Definition path_exists (p : string) : M World bool :=
  gets (fun w => bool_decide (is_Some (files w !! p))).

(** [open(p, 'rb').read()] *)
Definition read_file (p : string) : M World bytes :=
  fun w => match files w !! p with
           | Some b => (Returns b, w)
           | None => (Raises (FileNotFoundError p), w)
           end.

(** [open(p, 'wb').write(b)] *)
Definition write_file (p : string) (b : bytes) : M World unit :=
  modify (set_files (fun fs => <[p := b]> fs)).

(** [os.unlink(p)] *)
Definition unlink (p : string) : M World unit :=
  fun w => match files w !! p with
           | Some _ => (Returns tt, set_files (fun fs => delete p fs) w)
           | None => (Raises (FileNotFoundError p), w)
           end.

(** [tempfile.NamedTemporaryFile(mode='w', suffix='.json', delete=False)]:
    a new, empty file. *)
Definition named_temporary_file : M World string :=
  fun w =>
    let p := "/tmp/tmp" ++ Z_to_str (Z.of_nat (tmp_seq w)) ++ ".json" in
    (Returns p,
     {| environ := environ w; files := <[p := []]> (files w); dirs := dirs w; sent := sent w;
        remote := remote w; tmp_seq := S (tmp_seq w) |}).

(** [httpx.Client(timeout=..).get/post(..)]: the request is recorded, and
    the network answers or the transport fails. *)
Definition http_send (r : Request) : M World Response :=
  fun w =>
    let w' := {| environ := environ w; files := files w; dirs := dirs w;
                 sent := sent w ++ [r]; remote := remote w; tmp_seq := tmp_seq w |} in
    match remote w (sent w) r with
    | Answer resp => (Returns resp, w')
    | Failure reason => (Raises (HTTPError reason), w')
    end.

(** [response.json()] and [json.load(f)] on text *)
Definition json_of_bytes (b : bytes) : result json :=
  match bytes_decode b with
  | None => Raises UnicodeDecodeError
  | Some s => match json_loads s with
              | Some j => Returns j
              | None => Raises JSONDecodeError
              end
  end.

(** [j[k]] for a string [k] *)
Definition getitem (j : json) (k : string) : result json :=
  match j with
  | JDict d => match dict_get k d with
               | Some v => Returns v
               | None => Raises (KeyError k)
               end
  | _ => Raises TypeError
  end.

(** A returned value as an [Optional]: [null] is Python's [None]. *)
Definition optional (j : json) : option json :=
  match j with
  | JNull => None
  | _ => Some j
  end.

(** [cid.replace('ipfs://', '').strip()], the cleaning of a CID *)
Definition clean_cid (cid : string) : string := strip (str_remove "ipfs://" cid).

(** ** class IPFSClient: the hosted pinning service and the local node *)

Module IPFSClient.

(** The attributes [__init__] sets: those of the hosted service when
    [use_pinata] holds, those of the local node otherwise. *)
Inductive t :=
| Pinata (pinata_jwt pinata_api_key pinata_secret : option string) (pinata_gateway : string)
| Local (ipfs_api_url ipfs_gateway : string).

Definition use_pinata (self : t) : bool :=
  match self with
  | Pinata _ _ _ _ => true
  | Local _ _ => false
  end.

Definition base_url : string := "https://api.pinata.cloud".

Definition gateway (self : t) : string :=
  match self with
  | Pinata _ _ _ g => g
  | Local _ g => g
  end.

Definition __init__ (use_pinata : bool) : M World t :=
  if use_pinata then
    jwt <- getenv "PINATA_JWT" ;;
    key <- getenv "PINATA_API_KEY" ;;
    secret <- getenv "PINATA_SECRET_KEY" ;;
    gw <- getenv_default "PINATA_GATEWAY" "https://gateway.pinata.cloud" ;;
    ret (Pinata jwt key secret gw)
  else
    api <- getenv_default "IPFS_API_URL" "http://localhost:5001" ;;
    gw <- getenv_default "IPFS_GATEWAY" "http://localhost:8080" ;;
    ret (Local api gw).

(** The bearer token is preferred to the key pair.  The method reads
    attributes that only a hosted client has. *)
Definition _get_headers (self : t) : result (list (string * string)) :=
  match self with
  | Pinata jwt key secret _ =>
      if truthy jwt then Returns [("Authorization", "Bearer " ++ default "" jwt)]
      else if truthy key && truthy secret
           then Returns [("pinata_api_key", default "" key);
                         ("pinata_secret_api_key", default "" secret)]
           else Returns []
  | Local _ _ => Raises (AttributeError "pinata_jwt")
  end.

(** The file is sent as the part [file] of a multipart body, with its name
    as metadata. *)
Definition _upload_to_pinata (self : t) (file_path name : string) : M World (option json) :=
  match self with
  | Pinata _ _ _ _ =>
      f <- read_file file_path ;;
      hs <- lift (_get_headers self) ;;
      response <- http_send {| method := POST;
                               url := base_url ++ "/pinning/pinFileToIPFS";
                               headers := hs;
                               payload := Multipart name f
                                 [("pinataMetadata", json_dumps (JDict [("name", JStr name)]))];
                               timeout := 120;
                               follow_redirects := false |} ;;
      if (status_code response =? 200)%Z then
        result <- lift (json_of_bytes (content response)) ;;
        cid <- lift (getitem result "IpfsHash") ;;
        ret (optional cid)
      else ret None
  | Local _ _ => raise (AttributeError "base_url")
  end.

Definition _upload_to_local_ipfs (self : t) (file_path : string) : M World (option json) :=
  match self with
  | Local api _ =>
      f <- read_file file_path ;;
      response <- http_send {| method := POST;
                               url := api ++ "/api/v0/add";
                               headers := [];
                               payload := Multipart (path_name file_path) f [];
                               timeout := 120;
                               follow_redirects := false |} ;;
      if (status_code response =? 200)%Z then
        result <- lift (json_of_bytes (content response)) ;;
        cid <- lift (getitem result "Hash") ;;
        ret (optional cid)
      else ret None
  | Pinata _ _ _ _ => raise (AttributeError "ipfs_api_url")
  end.

Definition upload_file (self : t) (file_path : string) (name : option string)
  : M World (option json) :=
  found <- path_exists file_path ;;
  if negb found then ret None
  else
    let name := or_else name (path_name file_path) in
    try_except
      (if use_pinata self then _upload_to_pinata self file_path name
       else _upload_to_local_ipfs self file_path)
      (fun _ => ret None).

Definition _upload_json_to_pinata (self : t) (data : json) (name : string)
  : M World (option json) :=
  match self with
  | Pinata _ _ _ _ =>
      hs <- lift (_get_headers self) ;;
      response <- http_send {| method := POST;
                               url := base_url ++ "/pinning/pinJSONToIPFS";
                               headers := hs ++ [("Content-Type", "application/json")];
                               payload := JsonBody
                                 (JDict [("pinataContent", data);
                                         ("pinataMetadata", JDict [("name", JStr name)])]);
                               timeout := 60;
                               follow_redirects := false |} ;;
      if (status_code response =? 200)%Z then
        result <- lift (json_of_bytes (content response)) ;;
        cid <- lift (getitem result "IpfsHash") ;;
        ret (optional cid)
      else ret None
  | Local _ _ => raise (AttributeError "base_url")
  end.

(** On the local node the document goes through a temporary file and the
    file upload. *)
Definition upload_json (self : t) (data : json) (name : string) : M World (option json) :=
  try_except
    (if use_pinata self then _upload_json_to_pinata self data name
     else
       temp_path <- named_temporary_file ;;
       write_file temp_path (str_encode (json_dumps data)) ;;
       result <- _upload_to_local_ipfs self temp_path ;;
       unlink temp_path ;;
       ret result)
    (fun _ => ret None).

(** Creating the directories above the output path changes no file.  The
    answer of the gateway is written to the output path when its status is
    200. *)
Definition download_file (self : t) (cid output_path : string) : M World bool :=
  let cid := clean_cid cid in
  try_except
    (response <- http_send {| method := GET;
                              url := gateway self ++ "/ipfs/" ++ cid;
                              headers := [];
                              payload := NoBody;
                              timeout := 120;
                              follow_redirects := true |} ;;
     if (status_code response =? 200)%Z then
       write_file output_path (content response) ;;
       ret true
     else ret false)
    (fun _ => ret false).

Definition download_json (self : t) (cid : string) : M World (option json) :=
  let cid := clean_cid cid in
  try_except
    (response <- http_send {| method := GET;
                              url := gateway self ++ "/ipfs/" ++ cid;
                              headers := [];
                              payload := NoBody;
                              timeout := 60;
                              follow_redirects := true |} ;;
     if (status_code response =? 200)%Z then
       j <- lift (json_of_bytes (content response)) ;;
       ret (optional j)
     else ret None)
    (fun _ => ret None).

(** No [try] surrounds the requests of [pin_cid]. *)
Definition pin_cid (self : t) (cid : string) (name : option string) : M World bool :=
  match self with
  | Local api _ =>
      response <- http_send {| method := POST;
                               url := api ++ "/api/v0/pin/add?arg=" ++ cid;
                               headers := [];
                               payload := NoBody;
                               timeout := 60;
                               follow_redirects := false |} ;;
      ret (status_code response =? 200)%Z
  | Pinata _ _ _ _ =>
      let payload0 := [("hashToPin", JStr cid)] in
      let payload1 := if truthy name
                      then dict_set "pinataMetadata" (JDict [("name", JStr (default "" name))]) payload0
                      else payload0 in
      hs <- lift (_get_headers self) ;;
      response <- http_send {| method := POST;
                               url := base_url ++ "/pinning/pinByHash";
                               headers := hs ++ [("Content-Type", "application/json")];
                               payload := JsonBody (JDict payload1);
                               timeout := 60;
                               follow_redirects := false |} ;;
      ret (status_code response =? 200)%Z
  end.

Definition get_gateway_url (self : t) (cid : string) : string :=
  let cid := clean_cid cid in
  gateway self ++ "/ipfs/" ++ cid.

Definition test_connection (self : t) : M World bool :=
  try_except
    (match self with
     | Pinata _ _ _ _ =>
         hs <- lift (_get_headers self) ;;
         response <- http_send {| method := GET;
                                  url := base_url ++ "/data/testAuthentication";
                                  headers := hs;
                                  payload := NoBody;
                                  timeout := 10;
                                  follow_redirects := false |} ;;
         ret (status_code response =? 200)%Z
     | Local api _ =>
         response <- http_send {| method := POST;
                                  url := api ++ "/api/v0/id";
                                  headers := [];
                                  payload := NoBody;
                                  timeout := 10;
                                  follow_redirects := false |} ;;
         ret (status_code response =? 200)%Z
     end)
    (fun _ => ret false).

(** The methods the class defines. *)
Definition methods : list string :=
  ["__init__"; "_get_headers"; "upload_file"; "_upload_to_pinata"; "_upload_to_local_ipfs";
   "upload_json"; "_upload_json_to_pinata"; "download_file"; "download_json"; "pin_cid";
   "get_gateway_url"; "test_connection"].

End IPFSClient.

(** ** class MockIPFSClient: a store in a local directory *)

Module MockIPFSClient.

Record t := {
  storage_dir : string;       (* the path of the directory, as [str] prints it *)
  metadata : dict             (* the index, in memory *)
}.

(** [str(Path(p))] for a relative path written with a leading [./] *)
Definition path_str (p : string) : string :=
  match p with
  | String "." (String "/" r) => r
  | _ => p
  end.

Definition the_dir (d : string) (w : World) : MockDir := default empty_dir (dirs w !! d).

(** What [storage_dir / name] is: the directory itself or its parent for an
    empty or dot name, the index, or another file of the directory. *)
Inductive entry :=
| IsDir
| IsFile (b : bytes).

Definition stat (d : MockDir) (name : string) : option entry :=
  if bool_decide (name = "" \/ name = "." \/ name = "..") then Some IsDir
  else if bool_decide (name = "metadata.json")
       then option_map (fun m => IsFile (str_encode (json_dumps_indent2 (JDict m)))) (index_file d)
       else option_map IsFile (blobs d !! name).

(** [str(storage_dir / name)] *)
Definition joined (dir name : string) : string :=
  if bool_decide (name = "" \/ name = ".") then dir else dir ++ "/" ++ name.

Definition _load_metadata (dir : string) : M World dict :=
  gets (fun w => default [] (index_file (the_dir dir w))).

Definition __init__ (storage_dir : string) : M World t :=
  let dir := path_str storage_dir in
  modify (set_dirs (fun ds => <[dir := default empty_dir (ds !! dir)]> ds)) ;;
  m <- _load_metadata dir ;;
  ret {| storage_dir := dir; metadata := m |}.

Definition _save_metadata (self : t) : M World unit :=
  modify (fun w => set_dirs (fun ds =>
    <[storage_dir self := {| index_file := Some (metadata self);
                             blobs := blobs (the_dir (storage_dir self) w) |}]> ds) w).

(** The mock CID: [Qm] and the first 44 characters of the hexadecimal
    SHA-256 digest. *)
Definition _compute_hash (data : bytes) : string :=
  "Qm" ++ str_take 44 (sha256_hexdigest data).

(** Writes the file [storage_dir / cid] for a computed [cid]. *)
Definition store_blob (self : t) (cid : string) (data : bytes) : M World unit :=
  modify (fun w => set_dirs (fun ds =>
    <[storage_dir self := {| index_file := index_file (the_dir (storage_dir self) w);
                             blobs := <[cid := data]> (blobs (the_dir (storage_dir self) w)) |}]> ds) w).

(** The methods that change [self.metadata] return the client as it is
    afterwards. *)
Definition upload_file (self : t) (file_path : string) (name : option string)
  : M World (option string * t) :=
  found <- path_exists file_path ;;
  if negb found then ret (None, self)
  else
    data <- read_file file_path ;;
    let cid := _compute_hash data in
    store_blob self cid data ;;
    let self' := {| storage_dir := storage_dir self;
                    metadata := dict_set cid
                      (JDict [("name", JStr (or_else name (path_name file_path)));
                              ("size", JInt (Z.of_nat (List.length data)));
                              ("type", JStr "file")])
                      (metadata self) |} in
    _save_metadata self' ;;
    ret (Some cid, self').

Definition upload_json (self : t) (data : json) (name : string)
  : M World (option string * t) :=
  let json_bytes := str_encode (json_dumps data) in
  let cid := _compute_hash json_bytes in
  store_blob self cid json_bytes ;;
  let self' := {| storage_dir := storage_dir self;
                  metadata := dict_set cid
                    (JDict [("name", JStr name);
                            ("size", JInt (Z.of_nat (List.length json_bytes)));
                            ("type", JStr "json")])
                    (metadata self) |} in
  _save_metadata self' ;;
  ret (Some cid, self').

(** The test is whether [storage_dir / cid] exists; the stored file is
    opened before the output file is. *)
Definition download_file (self : t) (cid output_path : string) : M World bool :=
  let cid := clean_cid cid in
  e <- gets (fun w => stat (the_dir (storage_dir self) w) cid) ;;
  match e with
  | None => ret false
  | Some IsDir => raise (IsADirectoryError (joined (storage_dir self) cid))
  | Some (IsFile b) => write_file output_path b ;; ret true
  end.

Definition download_json (self : t) (cid : string) : M World (option json) :=
  let cid := clean_cid cid in
  e <- gets (fun w => stat (the_dir (storage_dir self) w) cid) ;;
  match e with
  | None => ret None
  | Some IsDir => raise (IsADirectoryError (joined (storage_dir self) cid))
  | Some (IsFile b) => j <- lift (json_of_bytes b) ;; ret (optional j)
  end.

Definition get_gateway_url (self : t) (cid : string) : string :=
  "file://" ++ storage_dir self ++ "/" ++ cid.

Definition test_connection (self : t) : M World bool := ret true.

(** The methods the class defines. *)
Definition methods : list string :=
  ["__init__"; "_load_metadata"; "_save_metadata"; "_compute_hash"; "upload_file";
   "upload_json"; "download_file"; "download_json"; "get_gateway_url"; "test_connection"].

End MockIPFSClient.

(** ** The factory *)

(** What [get_ipfs_client] returns: an object of one of the two classes. *)
Inductive Client :=
| Hosted (c : IPFSClient.t)
| Mock (c : MockIPFSClient.t).

Definition new_mock : M World Client :=
  m <- MockIPFSClient.__init__ "./ipfs_mock" ;;
  ret (Mock m).

(** [IPFSClient(use_pinata=..)] followed by its connection test. *)
Definition probe (use_pinata : bool) : M World (option Client) :=
  client <- IPFSClient.__init__ use_pinata ;;
  ok <- IPFSClient.test_connection client ;;
  ret (if ok then Some (Hosted client) else None).

Definition get_ipfs_client (use_mock : bool) : M World Client :=
  if use_mock then new_mock
  else
    jwt <- getenv "PINATA_JWT" ;;
    key <- getenv "PINATA_API_KEY" ;;
    hosted <- (if truthy jwt || truthy key then probe true else ret None) ;;
    match hosted with
    | Some client => ret client
    | None =>
        api <- getenv "IPFS_API_URL" ;;
        node <- (if truthy api then probe false else ret None) ;;
        match node with
        | Some client => ret client
        | None => new_mock
        end
    end.

(** ** Calling a method on what the factory returned *)

Definition methods_of (client : Client) : list string :=
  match client with
  | Hosted _ => IPFSClient.methods
  | Mock _ => MockIPFSClient.methods
  end.

(** [getattr(client, name)] for a method: the lookup raises
    [AttributeError] when the class of [client] does not define [name]. *)
Definition getattr {A} (client : Client) (name : string) (call : M World A) : M World A :=
  if existsb (String.eqb name) (methods_of client) then call
  else raise (AttributeError name).

(** [client.pin_cid(cid, name)] *)
Definition pin_cid (client : Client) (cid : string) (name : option string) : M World bool :=
  getattr client "pin_cid"
    match client with
    | Hosted c => IPFSClient.pin_cid c cid name
    | Mock _ => raise (AttributeError "pin_cid")
    end.

(** [client.get_gateway_url(cid)] *)
Definition get_gateway_url (client : Client) (cid : string) : M World string :=
  getattr client "get_gateway_url"
    match client with
    | Hosted c => ret (IPFSClient.get_gateway_url c cid)
    | Mock c => ret (MockIPFSClient.get_gateway_url c cid)
    end.

(** * The vocabulary of the properties *)

(** ** Worlds and clients to evaluate on *)

(** No configuration, no files, and a network that refuses every
    connection. *)
Definition offline_world : World :=
  {| environ := ∅; files := ∅; dirs := ∅; sent := [];
     remote := fun _ _ => Failure "connection refused"; tmp_seq := 0 |}.

(** [w] with a network on which every request fails. *)
Definition unplugged (reason : string) (w : World) : World :=
  {| environ := environ w; files := files w; dirs := dirs w; sent := sent w;
     remote := fun _ _ => Failure reason; tmp_seq := tmp_seq w |}.

(** One file to upload, and a network that refuses every connection. *)
Definition example_world : World :=
  {| environ := ∅; files := {[ "weights.bin" := [x01; x02; x03] ]}; dirs := ∅; sent := [];
     remote := fun _ _ => Failure "connection refused"; tmp_seq := 0 |}.

(** A hosted service that accepts uploads and whose gateway answers 504. *)
Definition gateway_down_world : World :=
  {| environ := ∅; files := {[ "weights.bin" := [x01; x02; x03] ]}; dirs := ∅; sent := [];
     remote := fun _ r =>
       match method r with
       | POST => Answer {| status_code := 200;
                           content := str_encode (json_dumps
                             (JDict [("IpfsHash", JStr "QmT78zSuBmuS4z925WZfrqQ1qHaJ56DQaTfyMUF7F8ff5o");
                                     ("PinSize", JInt 11)])) |}
       | GET => Answer {| status_code := 504; content := [] |}
       end;
     tmp_seq := 0 |}.

(** A gateway that serves three bytes for every CID. *)
Definition serving_world : World :=
  {| environ := ∅; files := ∅; dirs := ∅; sent := [];
     remote := fun _ _ => Answer {| status_code := 200; content := [x01; x02; x03] |};
     tmp_seq := 0 |}.

(** A hosted credential is configured, and the network is down. *)
Definition token_world : World :=
  {| environ := {[ "PINATA_JWT" := "token" ]}; files := ∅; dirs := ∅; sent := [];
     remote := fun _ _ => Failure "connection refused"; tmp_seq := 0 |}.

Definition pinata_client : IPFSClient.t :=
  IPFSClient.Pinata (Some "token") None None "https://gateway.pinata.cloud".

Definition local_client : IPFSClient.t :=
  IPFSClient.Local "http://localhost:5001" "http://localhost:8080".

(** A mock store just created on [ipfs_mock]. *)
Definition fresh_mock : MockIPFSClient.t :=
  {| MockIPFSClient.storage_dir := "ipfs_mock"; MockIPFSClient.metadata := [] |}.

Definition example_doc : json := JDict [("model", JStr "test"); ("epochs", JInt 95)].

(** ** The factory *)


(** ** The characters of a mock CID *)

Fixpoint all_chars (P : ascii -> bool) (s : string) : bool :=
  match s with
  | EmptyString => true
  | String c r => P c && all_chars P r
  end.

Definition hexchar (c : ascii) : bool :=
  let n := nat_of_ascii c in
  (((48 <=? n) && (n <=? 57)) || ((97 <=? n) && (n <=? 102)))%nat.

Definition cid_char (c : ascii) : bool :=
  hexchar c || Ascii.eqb c "Q" || Ascii.eqb c "m".

(** ** The state of a mock store *)

(** The world after [upload_file] or [upload_json] has stored [data] under
    [cid] and saved the index [index]. *)
Definition stored (self : MockIPFSClient.t) (cid : string) (data : bytes) (index : dict)
  (w : World) : World :=
  set_dirs (fun ds =>
    <[MockIPFSClient.storage_dir self :=
        {| index_file := Some index;
           blobs := <[cid := data]> (blobs (MockIPFSClient.the_dir (MockIPFSClient.storage_dir self) w)) |}]> ds) w.

(** The index entry of an upload. *)
Definition file_entry (name : string) (data : bytes) (kind : string) : json :=
  JDict [("name", JStr name); ("size", JInt (Z.of_nat (List.length data))); ("type", JStr kind)].

(** The client after [self.metadata[cid] = entry]. *)
Definition registering (self : MockIPFSClient.t) (cid : string) (entry : json) : MockIPFSClient.t :=
  {| MockIPFSClient.storage_dir := MockIPFSClient.storage_dir self;
     MockIPFSClient.metadata := dict_set cid entry (MockIPFSClient.metadata self) |}.

(** The size recorded in an index entry. *)
Definition entry_size (m : json) : option Z :=
  match m with
  | JDict d => match dict_get "size" d with
               | Some (JInt n) => Some n
               | _ => None
               end
  | _ => None
  end.


(** The invariant of a store: every key of the index is the CID of a file
    of the directory stored under that name, with its size recorded, and
    every such file has a key in the index. *)
Definition store_inv (self : MockIPFSClient.t) (w : World) : Prop :=
  let d := MockIPFSClient.the_dir (MockIPFSClient.storage_dir self) w in
  (forall cid m, dict_get cid (MockIPFSClient.metadata self) = Some m ->
     exists b, blobs d !! cid = Some b
               /\ cid = MockIPFSClient._compute_hash b
               /\ entry_size m = Some (Z.of_nat (List.length b)))
  /\ (forall cid b, blobs d !! cid = Some b ->
        is_Some (dict_get cid (MockIPFSClient.metadata self))).

(** The names that [storage_dir / name] resolves to the directory itself,
    its parent, or the index file. *)
Definition reserved_name (name : string) : Prop :=
  name = "" \/ name = "." \/ name = ".." \/ name = "metadata.json".

(** ** Requests and their timeouts *)

(** The operations of an adapter. *)
Inductive operation :=
| OpUploadFile (file_path : string) (name : option string)
| OpUploadJSON (data : json) (name : string)
| OpDownloadFile (cid output_path : string)
| OpDownloadJSON (cid : string)
| OpPin (cid : string) (name : option string)
| OpProbe.

Definition run (self : IPFSClient.t) (op : operation) : M World unit :=
  match op with
  | OpUploadFile p n => IPFSClient.upload_file self p n ;; ret tt
  | OpUploadJSON d n => IPFSClient.upload_json self d n ;; ret tt
  | OpDownloadFile c o => IPFSClient.download_file self c o ;; ret tt
  | OpDownloadJSON c => IPFSClient.download_json self c ;; ret tt
  | OpPin c n => IPFSClient.pin_cid self c n ;; ret tt
  | OpProbe => IPFSClient.test_connection self ;; ret tt
  end.

(** The timeout classes as the specification gives them: 120 s for binary
    transfers, 60 s for JSON and pin operations, 10 s for the probe. *)
Definition timeout_class (op : operation) : Z :=
  match op with
  | OpUploadFile _ _ | OpDownloadFile _ _ => 120
  | OpUploadJSON _ _ | OpDownloadJSON _ | OpPin _ _ => 60
  | OpProbe => 10
  end.

(** The timeouts of the code: those classes, except that a JSON upload to
    the local node is a file upload. *)
Definition timeout_used (self : IPFSClient.t) (op : operation) : Z :=
  match op, self with
  | OpUploadJSON _ _, IPFSClient.Local _ _ => 120
  | _, _ => timeout_class op
  end.

(** The requests that [m] sends all have the timeout [t]. *)
Definition sends_with {A} (t : Z) (m : M World A) : Prop :=
  forall w, exists new, sent (snd (m w)) = (sent w ++ new)%list
                        /\ Forall (fun r => timeout r = t) new.

(** The request by which [download_file] (with [t = 120]) and
    [download_json] (with [t = 60]) fetch a CID from the gateway. *)
Definition gateway_get (self : IPFSClient.t) (cid : string) (t : Z) : Request :=
  {| method := GET;
     url := IPFSClient.gateway self ++ "/ipfs/" ++ clean_cid cid;
     headers := [];
     payload := NoBody;
     timeout := t;
     follow_redirects := true |}.

(** ** JSON documents and their text *)

(** The keys of every object of [j] are distinct, as those of a Python
    [dict] are. *)
Fixpoint distinct (l : list string) : bool :=
  match l with
  | [] => true
  | k :: r => negb (existsb (String.eqb k) r) && distinct r
  end.

Fixpoint json_wf (j : json) : bool :=
  match j with
  | JList l => forallb json_wf l
  | JDict d => distinct (map fst d) && forallb (fun kv => json_wf (snd kv)) d
  | _ => true
  end.

(** The nested calls that parsing the text of [j] takes. *)
Fixpoint weight (j : json) : nat :=
  match j with
  | JList l => S (list_sum (map (fun x => S (weight x)) l))
  | JDict d => S (list_sum (map (fun kv => S (weight (snd kv))) d))
  | _ => 1
  end.

(** The text of the elements of an array after the first, and of the
    members of an object after the first, as [json.dumps] writes them. *)
Fixpoint items_text (lvl : nat) (l : list json) : string :=
  match l with
  | [] => EmptyString
  | y :: ys => ", " ++ dumps_at None (S lvl) y ++ items_text lvl ys
  end.

Fixpoint members_text (lvl : nat) (l : list (string * json)) : string :=
  match l with
  | [] => EmptyString
  | (k, v) :: r => ", " ++ quote k ++ ": " ++ dumps_at None (S lvl) v ++ members_text lvl r
  end.

(** What a number starts with, and what may follow a number: nothing, or
    a character that is neither a digit nor the start of a fraction or of an
    exponent. *)
Definition starts_number (c : ascii) : bool :=
  match digit_val c with
  | Some _ => true
  | None => Ascii.eqb c "-"
  end.

Definition ends_number (rest : string) : bool :=
  match rest with
  | EmptyString => true
  | String c _ =>
      match digit_val c with
      | Some _ => false
      | None => negb (starts_fraction rest)
      end
  end.

(** What a value can start with: not white space, not a closing bracket. *)
Definition value_start (c : ascii) : bool :=
  negb (is_ws c) && negb (Ascii.eqb c "]") && negb (Ascii.eqb c "}").

(** A value's text is parsed back to the value, whatever follows it. *)
Definition parses_back (j : json) : Prop :=
  forall lvl fuel rest,
    (weight j <= fuel)%nat -> ends_number rest = true ->
    parse_value fuel (dumps_at None lvl j ++ rest) = Some (j, rest).

(** One step of [parse_members]: the member read is set in the object. *)
Definition set_member (acc : dict) (kv : string * json) : dict :=
  dict_set (fst kv) (snd kv) acc.

(** ** Requests, by what is sent and what is answered *)

(** The world once the request [r] has been sent. *)
Definition after_request (r : Request) (w : World) : World :=
  {| environ := environ w; files := files w; dirs := dirs w;
     sent := sent w ++ [r]; remote := remote w; tmp_seq := tmp_seq w |}.

(** Whether the network answers [r] with status 200 in [w]. *)
Definition answers_ok (w : World) (r : Request) : bool :=
  match remote w (sent w) r with
  | Answer resp => (status_code resp =? 200)%Z
  | Failure _ => false
  end.


(** The requests of the connection test: the authentication probe of the
    hosted service, with the headers of the client, and the identity probe of
    a local node. *)
Definition auth_probe (hs : list (string * string)) : Request :=
  {| method := GET;
     url := "https://api.pinata.cloud/data/testAuthentication";
     headers := hs;
     payload := NoBody;
     timeout := 10;
     follow_redirects := false |}.

Definition node_probe (api : string) : Request :=
  {| method := POST;
     url := api ++ "/api/v0/id";
     headers := [];
     payload := NoBody;
     timeout := 10;
     follow_redirects := false |}.

Definition is_probe (r : Request) : Prop :=
  timeout r = 10%Z /\ payload r = NoBody.

(** The request by which the local node is given a file. *)
Definition add_request (api filename : string) (content : bytes) : Request :=
  {| method := POST;
     url := api ++ "/api/v0/add";
     headers := [];
     payload := Multipart filename content [];
     timeout := 120;
     follow_redirects := false |}.

(** The key under which the service names the CID of an upload. *)
Definition hash_key (self : IPFSClient.t) : string :=
  match self with
  | IPFSClient.Pinata _ _ _ _ => "IpfsHash"
  | IPFSClient.Local _ _ => "Hash"
  end.

(** [m] sends at most [n] requests, each of which satisfies [P]. *)
Definition sends_upto {A} (P : Request -> Prop) (n : nat) (m : M World A) : Prop :=
  forall w, exists new, sent (snd (m w)) = (sent w ++ new)%list
                        /\ (List.length new <= n)%nat /\ Forall P new.

(** [m] leaves the component [f] of the world as it is. *)
Definition keeps {X A} (f : World -> X) (m : M World A) : Prop :=
  forall w, f (snd (m w)) = f w.

(** [m] sends no request. *)
Definition quiet {A} (m : M World A) : Prop := keeps sent m.

Definition header_names (r : Request) : list string := map fst (headers r).

(** What holds of every request of the client [self]: headers go to the
    pinning API of a hosted client only, a bearer token excludes the key
    pair, and the key and its secret go together. *)
Definition request_ok (self : IPFSClient.t) (r : Request) : Prop :=
  (headers r <> [] ->
     IPFSClient.use_pinata self = true
     /\ starts_with (IPFSClient.base_url ++ "/") (url r) = true)
  /\ (In "Authorization" (header_names r) ->
        ~ In "pinata_api_key" (header_names r) /\ ~ In "pinata_secret_api_key" (header_names r))
  /\ (In "pinata_api_key" (header_names r) <-> In "pinata_secret_api_key" (header_names r)).

(** ** Files *)

(** The world with the file [p] holding [b], and without the file [p]. *)
Definition with_file (p : string) (b : bytes) (w : World) : World :=
  set_files (fun fs => <[p := b]> fs) w.

Definition without_file (p : string) (w : World) : World :=
  set_files (fun fs => delete p fs) w.

(** The path of the temporary file that would be created next. *)
Definition temp_path (w : World) : string :=
  match fst (named_temporary_file w) with
  | Returns p => p
  | Raises _ => EmptyString
  end.

(** ** More worlds to evaluate on *)

(** A token and a local node are configured, and every request is answered
    with status 200. *)
Definition hosted_up_world : World :=
  {| environ := {[ "PINATA_JWT" := "token"; "IPFS_API_URL" := "http://localhost:5001" ]};
     files := ∅; dirs := ∅; sent := [];
     remote := fun _ _ => Answer {| status_code := 200; content := [] |};
     tmp_seq := 0 |}.

(** The same configuration; the hosted service rejects the token, and the
    local node answers. *)
Definition node_only_world : World :=
  {| environ := {[ "PINATA_JWT" := "token"; "IPFS_API_URL" := "http://localhost:5001" ]};
     files := ∅; dirs := ∅; sent := [];
     remote := fun _ r =>
       match method r with
       | GET => Answer {| status_code := 401; content := [] |}
       | POST => Answer {| status_code := 200; content := [] |}
       end;
     tmp_seq := 0 |}.

(** ** JSON text with an indent *)

(** The line break and indentation before an item at nesting level [l],
    and what follows the comma between two items. *)
Definition nl_at (ind : option nat) (l : nat) : string :=
  match ind with
  | Some n => newline ++ spaces (n * l)
  | None => EmptyString
  end.

Definition gap_at (ind : option nat) (lvl : nat) : string :=
  match ind with
  | Some _ => nl_at ind (S lvl)
  | None => " "
  end.

(** The text of the elements of an array after the first, and of the
    members of an object after the first, with any indent. *)
Fixpoint items_at (ind : option nat) (lvl : nat) (l : list json) : string :=
  match l with
  | [] => EmptyString
  | y :: ys => "," ++ gap_at ind lvl ++ dumps_at ind (S lvl) y ++ items_at ind lvl ys
  end.

Fixpoint members_at (ind : option nat) (lvl : nat) (l : list (string * json)) : string :=
  match l with
  | [] => EmptyString
  | (k, v) :: r =>
      "," ++ gap_at ind lvl ++ quote k ++ ": " ++ dumps_at ind (S lvl) v ++ members_at ind lvl r
  end.

(** A value's text, with the indent [ind], is parsed back to the value. *)
Definition parses_back_at (ind : option nat) (j : json) : Prop :=
  forall lvl fuel rest,
    (weight j <= fuel)%nat -> ends_number rest = true ->
    parse_value fuel (dumps_at ind lvl j ++ rest) = Some (j, rest).

(** * Properties *)

#[local] Arguments MockIPFSClient._compute_hash : simpl never.
#[local] Arguments sha256_hexdigest : simpl never.
#[local] Arguments json_dumps : simpl never.
#[local] Arguments json_dumps_indent2 : simpl never.
#[local] Arguments json_loads : simpl never.
#[local] Arguments clean_cid : simpl never.

(** ** Checks by evaluation *)

Section Checks.

(** SHA-256 on test vectors of FIPS 180-4 and on three bytes. *)
Example sha256_abc :
  sha256_hexdigest (list_byte_of_string "abc")
  = "ba7816bf8f01cfea414140de5dae2223b00361a396177a9cb410ff61f20015ad".
Proof. vm_compute. reflexivity. Qed.

Example sha256_empty :
  sha256_hexdigest []
  = "e3b0c44298fc1c149afbf4c8996fb92427ae41e4649b934ca495991b7852b855".
Proof. vm_compute. reflexivity. Qed.

Example sha256_two_blocks :
  sha256_hexdigest
    (list_byte_of_string "abcdbcdecdefdefgefghfghighijhijkijkljklmklmnlmnomnopnopq")
  = "248d6a61d20638b8e5c026930c3e6039a33ce45964ff2167f6ecedd419db06c1".
Proof. vm_compute. reflexivity. Qed.

Example compute_hash_three_bytes :
  MockIPFSClient._compute_hash [x01; x02; x03]
  = "Qm039058c6f2c0cb492c533b0a4d14ef77cc0f78abccce".
Proof. vm_compute. reflexivity. Qed.

(** [str.replace] and [str.strip] *)
Example clean_cid_all_spellings :
  clean_cid " ipfs://QmX " = "QmX"
  /\ clean_cid "ipfs://ipfs://Qm  ipfs://Y " = "Qm  Y"
  /\ str_remove "ipfs://" "ipfipfs://s://Q" = "ipfs://Q"
  /\ strip (str1 (chr 28) ++ " a" ++ str1 (chr 133) ++ str1 (chr 160)) = "a".
Proof. vm_compute. repeat split; reflexivity. Qed.

(** [Path(p).name] and [str(storage_dir / name)] *)
Example path_names :
  path_name "a/b/c.txt" = "c.txt" /\ path_name "a/b/." = "b" /\ path_name "a//b/" = "b"
  /\ path_name "/" = "" /\ path_name "." = "" /\ path_name ".." = ".."
  /\ MockIPFSClient.path_str "./ipfs_mock" = "ipfs_mock"
  /\ MockIPFSClient.joined "ipfs_mock" "" = "ipfs_mock"
  /\ MockIPFSClient.joined "ipfs_mock" ".." = "ipfs_mock/..".
Proof. vm_compute. repeat split; reflexivity. Qed.

(** [json.dumps], with and without an indent, and [json.loads] *)
Example json_dumps_example_doc :
  json_dumps example_doc
  = "{" ++ dquote ++ "model" ++ dquote ++ ": " ++ dquote ++ "test" ++ dquote
    ++ ", " ++ dquote ++ "epochs" ++ dquote ++ ": 95}".
Proof. vm_compute. reflexivity. Qed.

Example json_dumps_escapes :
  json_dumps (JStr ("x" ++ dquote ++ "y" ++ backslash ++ "z" ++ newline
                    ++ str1 (chr 233) ++ str1 (chr 127)))
  = dquote ++ "x" ++ backslash ++ dquote ++ "y" ++ backslash ++ backslash ++ "z"
    ++ backslash ++ "n" ++ backslash ++ "u00e9" ++ backslash ++ "u007f" ++ dquote.
Proof. vm_compute. reflexivity. Qed.

Example json_dumps_indent2_index :
  json_dumps_indent2 (JDict [("Qm1", file_entry "w.bin" [x01; x02; x03] "file")])
  = "{" ++ newline
    ++ "  " ++ dquote ++ "Qm1" ++ dquote ++ ": {" ++ newline
    ++ "    " ++ dquote ++ "name" ++ dquote ++ ": " ++ dquote ++ "w.bin" ++ dquote ++ "," ++ newline
    ++ "    " ++ dquote ++ "size" ++ dquote ++ ": 3," ++ newline
    ++ "    " ++ dquote ++ "type" ++ dquote ++ ": " ++ dquote ++ "file" ++ dquote ++ newline
    ++ "  }" ++ newline
    ++ "}".
Proof. vm_compute. reflexivity. Qed.

Example json_loads_examples :
  json_loads " [1, -2 , {}, null] " = Some (JList [JInt 1; JInt (-2); JDict []; JNull])
  /\ json_loads "[1, 02]" = None
  /\ json_loads "nulls" = None
  /\ json_loads "1.5" = None
  /\ json_loads (json_dumps_indent2 (JDict [("a", JList [example_doc; JBool true])]))
     = Some (JDict [("a", JList [example_doc; JBool true])]).
Proof. vm_compute. repeat split; reflexivity. Qed.

(** The scenario of the module's self-test, on a mock: a JSON document is
    uploaded, downloaded again, and its gateway URL is formed. *)
Example mock_scenario :
  let uploaded := MockIPFSClient.upload_json fresh_mock example_doc "test_model.json"
                    example_world in
  let cid := "Qm5c3f3fc1c41dcbb4c0c4b287c172e1fcdb6effb96f9b" in
  exists mock',
    fst uploaded = Returns (Some cid, mock')
    /\ fst (MockIPFSClient.download_json mock' cid (snd uploaded)) = Returns (Some example_doc)
    /\ MockIPFSClient.get_gateway_url mock' cid
       = "file://ipfs_mock/Qm5c3f3fc1c41dcbb4c0c4b287c172e1fcdb6effb96f9b".
Proof. eexists. vm_compute. repeat split; reflexivity. Qed.

(** With a token configured and the network down, the factory probes the
    hosted service once, with the 10 s timeout, and returns a mock. *)
Example factory_token_network_down :
  let resolved := get_ipfs_client false token_world in
  fst resolved = Returns (Mock fresh_mock)
  /\ map (fun r => (url r, timeout r)) (sent (snd resolved))
     = [("https://api.pinata.cloud/data/testAuthentication", 10%Z)].
Proof. vm_compute. split; reflexivity. Qed.

End Checks.

(** ** Cleaning a CID *)

Section Strings.

Lemma starts_with_app_char (old s : string) (c : ascii) :
  (forall k, String.get k old <> Some c) ->
  old <> EmptyString ->
  starts_with old (s ++ String c EmptyString) = starts_with old s.
Proof.
  revert s. induction old as [|a old IH]; intros s Hc Hne; [congruence|].
  destruct s as [|b s]; simpl.
  - destruct (Ascii.eqb_spec a c) as [->|Hac]; [|reflexivity].
    exfalso. apply (Hc 0%nat). reflexivity.
  - destruct (Ascii.eqb a b); [|reflexivity]. simpl.
    destruct old as [|a' old']; [reflexivity|].
    apply IH; [|discriminate].
    intros k. apply (Hc (S k)).
Qed.

Lemma starts_with_length (old s : string) :
  starts_with old s = true -> (String.length old <= String.length s)%nat.
Proof.
  revert s. induction old as [|a old IH]; intros [|b s] H; simpl in *; try lia; try discriminate.
  apply andb_true_iff in H as [_ H]. apply IH in H. lia.
Qed.

(** Appending a character that [old] does not contain does not change
    which occurrences of [old] are removed. *)
Lemma remove_from_app_char (old : string) (c : ascii) :
  (forall k, String.get k old <> Some c) ->
  old <> EmptyString ->
  forall s skip, (skip <= String.length s)%nat ->
    remove_from old skip (s ++ String c EmptyString)
    = remove_from old skip s ++ String c EmptyString.
Proof.
  intros Hc Hne s. induction s as [|b s IH]; intros skip Hskip.
  - simpl in Hskip. assert (skip = 0%nat) as -> by lia.
    cbn [String.append remove_from].
    replace (starts_with old (String c EmptyString)) with (starts_with old EmptyString).
    + destruct old; [congruence|reflexivity].
    + symmetry. apply (starts_with_app_char old EmptyString c Hc Hne).
  - destruct skip as [|k].
    + cbn [String.append remove_from].
      change (String b (s ++ String c EmptyString)) with (String b s ++ String c EmptyString).
      rewrite (starts_with_app_char old (String b s) c Hc Hne).
      destruct (starts_with old (String b s)) eqn:Hp.
      * apply IH. apply starts_with_length in Hp. simpl in Hp. lia.
      * cbn [String.append]. f_equal. apply IH. lia.
    + cbn [String.append remove_from]. apply IH. simpl in Hskip. lia.
Qed.

Lemma rstrip_app_space (s : string) : rstrip (s ++ " ") = rstrip s.
Proof.
  induction s as [|c s IH]; [reflexivity|].
  cbn [String.append rstrip]. rewrite IH. reflexivity.
Qed.

Lemma strip_app_space (s : string) : strip (s ++ " ") = strip s.
Proof.
  unfold strip. induction s as [|c s IH]; [reflexivity|].
  cbn [String.append lstrip]. destruct (is_space c); [exact IH|].
  change (String c (s ++ " ")) with (String c s ++ " ").
  apply rstrip_app_space.
Qed.

Lemma ipfs_scheme_has_no_space (k : nat) : String.get k "ipfs://" <> Some " "%char.
Proof. do 8 (destruct k as [|k]; [discriminate|]). discriminate. Qed.

(** The three spellings of a CID are cleaned to the same string. *)
Lemma clean_cid_scheme (x : string) : clean_cid ("ipfs://" ++ x) = clean_cid x.
Proof. reflexivity. Qed.

Lemma clean_cid_spaces (x : string) : clean_cid (" " ++ x ++ " ") = clean_cid x.
Proof.
  unfold clean_cid, str_remove.
  change (" " ++ x ++ " ") with (String " " (x ++ " ")).
  cbn [remove_from starts_with Ascii.eqb Bool.eqb andb].
  change (strip (String " " (remove_from "ipfs://" 0 (x ++ " "))))
    with (strip (remove_from "ipfs://" 0 (x ++ " "))).
  rewrite (remove_from_app_char "ipfs://" " " ipfs_scheme_has_no_space); [|discriminate|lia].
  apply strip_app_space.
Qed.

Lemma str_length_app (a b : string) :
  String.length (a ++ b) = (String.length a + String.length b)%nat.
Proof. induction a as [|c a IH]; simpl; [reflexivity|]. rewrite IH. reflexivity. Qed.

Lemma str_app_inv_head (a b c : string) : a ++ b = a ++ c -> b = c.
Proof. induction a as [|x a IH]; simpl; [tauto|]. intros H. injection H. exact IH. Qed.

Lemma str_app_assoc (a b c : string) : (a ++ b) ++ c = a ++ (b ++ c).
Proof. induction a as [|x a IH]; simpl; [reflexivity|]. rewrite IH. reflexivity. Qed.

Lemma str_app_nil_r (a : string) : a ++ "" = a.
Proof. induction a as [|x a IH]; simpl; [reflexivity|]. rewrite IH. reflexivity. Qed.

End Strings.

(** ** The shape of a mock CID *)

Section MockCid.

Lemma hex_digit_hexchar (n : N) : (n < 16)%N -> hexchar (hex_digit n) = true.
Proof.
  intros H. destruct n as [|p]; [reflexivity|].
  do 4 (destruct p as [p|p|]; try reflexivity); lia.
Qed.

Lemma hex_of_hexchars (l : list N) : all_chars hexchar (hex_of l) = true.
Proof.
  induction l as [|b l IH]; [reflexivity|].
  cbn [hex_of all_chars].
  rewrite !hex_digit_hexchar, IH by (apply N.mod_lt; discriminate).
  reflexivity.
Qed.

Lemma all_chars_take (P : ascii -> bool) (n : nat) (s : string) :
  all_chars P s = true -> all_chars P (str_take n s) = true.
Proof.
  revert s. induction n as [|n IH]; intros [|c s] H; try reflexivity.
  simpl in *. apply andb_true_iff in H as [-> H]. simpl. auto.
Qed.

Lemma all_chars_weaken (P Q : ascii -> bool) (s : string) :
  (forall c, P c = true -> Q c = true) -> all_chars P s = true -> all_chars Q s = true.
Proof.
  intros HPQ. induction s as [|c s IH]; [reflexivity|]. simpl.
  intros H. apply andb_true_iff in H as [Hc Hs]. rewrite (HPQ _ Hc), (IH Hs). reflexivity.
Qed.

Lemma compute_hash_chars (data : bytes) :
  all_chars cid_char (MockIPFSClient._compute_hash data) = true.
Proof.
  unfold MockIPFSClient._compute_hash, sha256_hexdigest.
  change (all_chars cid_char (String "Q" (String "m"
            (str_take 44 (hex_of (SHA256.digest (map Byte.to_N data)))))) = true).
  cbn [all_chars]. change (cid_char "Q") with true. change (cid_char "m") with true.
  cbn [andb].
  apply (all_chars_weaken hexchar).
  - intros c Hc. unfold cid_char. rewrite Hc. reflexivity.
  - apply all_chars_take, hex_of_hexchars.
Qed.

Lemma cid_char_not_space (c : ascii) : cid_char c = true -> is_space c = false.
Proof.
  destruct c as [[] [] [] [] [] [] [] []]; vm_compute; congruence.
Qed.

Lemma cid_char_not_i (c : ascii) : cid_char c = true -> Ascii.eqb "i" c = false.
Proof.
  destruct c as [[] [] [] [] [] [] [] []]; vm_compute; congruence.
Qed.

Lemma remove_from_absent (s : string) :
  all_chars cid_char s = true -> remove_from "ipfs://" 0 s = s.
Proof.
  induction s as [|c s IH]; [reflexivity|].
  intros H. simpl in H. apply andb_true_iff in H as [Hc Hs].
  cbn [remove_from starts_with]. rewrite (cid_char_not_i c Hc). simpl.
  rewrite (IH Hs). reflexivity.
Qed.

Lemma rstrip_no_space (s : string) :
  all_chars cid_char s = true -> rstrip s = s.
Proof.
  induction s as [|c s IH]; [reflexivity|].
  intros H. simpl in H. apply andb_true_iff in H as [Hc Hs].
  cbn [rstrip]. rewrite (IH Hs), (cid_char_not_space c Hc).
  destruct s; reflexivity.
Qed.

Lemma strip_no_space (s : string) :
  all_chars cid_char s = true -> strip s = s.
Proof.
  intros H. unfold strip.
  assert (lstrip s = s) as ->; [|apply rstrip_no_space, H].
  destruct s as [|c s]; [reflexivity|].
  simpl in H. apply andb_true_iff in H as [Hc _].
  simpl. rewrite (cid_char_not_space c Hc). reflexivity.
Qed.

(** Cleaning leaves a computed CID as it is. *)
Lemma clean_cid_compute_hash (data : bytes) :
  clean_cid (MockIPFSClient._compute_hash data) = MockIPFSClient._compute_hash data.
Proof.
  unfold clean_cid, str_remove.
  rewrite remove_from_absent by apply compute_hash_chars.
  apply strip_no_space, compute_hash_chars.
Qed.

Lemma compute_hash_starts (data : bytes) :
  exists r, MockIPFSClient._compute_hash data = String "Q" (String "m" r).
Proof. eexists. reflexivity. Qed.

(** A computed CID names a file of the directory other than the index. *)
Lemma stat_compute_hash (d : MockDir) (data : bytes) :
  MockIPFSClient.stat d (MockIPFSClient._compute_hash data)
  = option_map MockIPFSClient.IsFile (blobs d !! MockIPFSClient._compute_hash data).
Proof.
  destruct (compute_hash_starts data) as [r Hr].
  unfold MockIPFSClient.stat. rewrite Hr.
  rewrite !bool_decide_eq_false_2; [reflexivity|discriminate|].
  intros [H|[H|H]]; discriminate.
Qed.

End MockCid.

(** ** Running a method *)

Ltac monad_simpl :=
  cbv beta iota zeta delta [bind ret raise try_except gets modify lift
    getenv getenv_default path_exists read_file write_file].

(** ** Uploading a file that does not exist *)

Lemma upload_file_missing_run
  (hosted : IPFSClient.t) (mock : MockIPFSClient.t) (w : World)
  (file_path : string) (name : option string) :
  files w !! file_path = None ->
  IPFSClient.upload_file hosted file_path name w = (Returns None, w)
  /\ MockIPFSClient.upload_file mock file_path name w = (Returns (None, mock), w).
Proof.
  intros Hmissing.
  unfold IPFSClient.upload_file, MockIPFSClient.upload_file. monad_simpl.
  rewrite Hmissing.
  case_bool_decide as Hsome; [destruct Hsome; discriminate|].
  cbn [negb]. split; reflexivity.
Qed.

(** C9. On the hosted or self-hosted client and on the mock store,
    [upload_file] with a path at which no file exists returns [None] without
    raising; no request is sent, and neither the world (with the mock's
    directory) nor the mock's index in memory changes. *)
Theorem upload_file_missing_is_absent
  (hosted : IPFSClient.t) (mock : MockIPFSClient.t) (w : World)
  (file_path : string) (name : option string) :
  files w !! file_path = None ->
  IPFSClient.upload_file hosted file_path name w = (Returns None, w)
  /\ MockIPFSClient.upload_file mock file_path name w = (Returns (None, mock), w).
Proof. apply upload_file_missing_run. Qed.

(** C9 at a path of the empty file system. *)
Lemma upload_file_missing_is_absent_witness :
  files offline_world !! "weights.bin" = None
  /\ IPFSClient.upload_file (IPFSClient.Local "http://localhost:5001" "http://localhost:8080")
       "weights.bin" None offline_world = (Returns None, offline_world)
  /\ MockIPFSClient.upload_file {| MockIPFSClient.storage_dir := "ipfs_mock";
                                   MockIPFSClient.metadata := [] |}
       "weights.bin" None offline_world
     = (Returns (None, {| MockIPFSClient.storage_dir := "ipfs_mock";
                          MockIPFSClient.metadata := [] |}), offline_world).
Proof.
  split; [reflexivity|].
  apply (upload_file_missing_is_absent _ _ offline_world "weights.bin" None).
  reflexivity.
Defined.

(** ** Pinning *)

(** C3. Class [MockIPFSClient] defines no [pin_cid], which class
    [IPFSClient] does define: on a mock, a call of [pin_cid] raises
    [AttributeError] and reports nothing, on the first call as on any later
    one, whatever the CID. *)
Theorem mock_pin_cid_raises (mock : MockIPFSClient.t) (cid : string) (name : option string)
  (w : World) :
  In "pin_cid" IPFSClient.methods
  /\ ~ In "pin_cid" MockIPFSClient.methods
  /\ pin_cid (Mock mock) cid name w = (Raises (AttributeError "pin_cid"), w)
  /\ (pin_cid (Mock mock) cid name ;; pin_cid (Mock mock) cid name) w
     = (Raises (AttributeError "pin_cid"), w).
Proof.
  split; [cbn; tauto|]. split; [|split; reflexivity].
  cbn. intros H. repeat (destruct H as [H|H]; [discriminate H|]). exact H.
Qed.

(** C1. [IPFSClient.pin_cid] sends its request outside any [try]: when the
    transport fails, the exception leaves the method, on the hosted client
    and on the self-hosted one. *)
Theorem pin_cid_lets_transport_failure_escape
  (self : IPFSClient.t) (cid : string) (name : option string) (reason : string) (w : World) :
  fst (IPFSClient.pin_cid self cid name (unplugged reason w)) = Raises (HTTPError reason).
Proof.
  destruct self as [jwt key secret gw|api gw]; unfold IPFSClient.pin_cid.
  - unfold IPFSClient._get_headers.
    destruct (truthy jwt); [reflexivity|].
    destruct (truthy key && truthy secret); reflexivity.
  - reflexivity.
Qed.



(** ** Gateway URLs *)

(** C6. The mock's [get_gateway_url] puts the CID into the URL as it is
    given: the URL for [ipfs://X] differs from the URL for [X], for every
    [X]. *)
Theorem mock_gateway_url_keeps_the_scheme (mock : MockIPFSClient.t) (x : string) :
  MockIPFSClient.get_gateway_url mock ("ipfs://" ++ x)
  <> MockIPFSClient.get_gateway_url mock x.
Proof.
  unfold MockIPFSClient.get_gateway_url. intros H.
  apply str_app_inv_head, str_app_inv_head, str_app_inv_head in H.
  apply (f_equal String.length) in H. rewrite str_length_app in H. simpl in H. lia.
Qed.

(** The other read paths clean the CID first, so the three spellings of a
    CID give the same request, the same file and the same URL. *)
Lemma read_paths_that_clean_the_cid (x : string) :
  (forall self out,
      IPFSClient.download_file self ("ipfs://" ++ x) out = IPFSClient.download_file self x out
      /\ IPFSClient.download_file self (" " ++ x ++ " ") out = IPFSClient.download_file self x out)
  /\ (forall self,
      IPFSClient.download_json self ("ipfs://" ++ x) = IPFSClient.download_json self x
      /\ IPFSClient.download_json self (" " ++ x ++ " ") = IPFSClient.download_json self x)
  /\ (forall self,
      IPFSClient.get_gateway_url self ("ipfs://" ++ x) = IPFSClient.get_gateway_url self x
      /\ IPFSClient.get_gateway_url self (" " ++ x ++ " ") = IPFSClient.get_gateway_url self x)
  /\ (forall mock out,
      MockIPFSClient.download_file mock ("ipfs://" ++ x) out = MockIPFSClient.download_file mock x out
      /\ MockIPFSClient.download_file mock (" " ++ x ++ " ") out = MockIPFSClient.download_file mock x out)
  /\ (forall mock,
      MockIPFSClient.download_json mock ("ipfs://" ++ x) = MockIPFSClient.download_json mock x
      /\ MockIPFSClient.download_json mock (" " ++ x ++ " ") = MockIPFSClient.download_json mock x).
Proof.
  unfold IPFSClient.download_file, IPFSClient.download_json, IPFSClient.get_gateway_url,
    MockIPFSClient.download_file, MockIPFSClient.download_json.
  repeat split; rewrite ?clean_cid_scheme, ?clean_cid_spaces; reflexivity.
Qed.

(** ** The factory *)






(** ** The mock store: what an upload does *)

Lemma dict_get_set_eq (k : string) (v : json) (d : dict) :
  dict_get k (dict_set k v d) = Some v.
Proof.
  induction d as [|[k' v'] d IH]; simpl.
  - rewrite String.eqb_refl. reflexivity.
  - destruct (String.eqb k k') eqn:E; simpl.
    + rewrite String.eqb_refl. reflexivity.
    + rewrite E. exact IH.
Qed.

Lemma dict_get_set_ne (k k' : string) (v : json) (d : dict) :
  k <> k' -> dict_get k' (dict_set k v d) = dict_get k' d.
Proof.
  intros Hne. induction d as [|[k0 v0] d IH]; simpl.
  - destruct (String.eqb_spec k' k); congruence.
  - destruct (String.eqb_spec k k0) as [->|Hk]; simpl.
    + destruct (String.eqb_spec k' k0); congruence.
    + destruct (String.eqb k' k0); [reflexivity|exact IH].
Qed.

Lemma store_then_save (self : MockIPFSClient.t) (cid : string) (data : bytes) (index : dict)
  (w : World) :
  let self' := {| MockIPFSClient.storage_dir := MockIPFSClient.storage_dir self;
                  MockIPFSClient.metadata := index |} in
  (MockIPFSClient.store_blob self cid data ;; MockIPFSClient._save_metadata self') w
  = (Returns tt, stored self cid data index w).
Proof.
  unfold MockIPFSClient.store_blob, MockIPFSClient._save_metadata, stored. monad_simpl.
  unfold set_dirs, MockIPFSClient.the_dir. cbn [dirs environ files sent remote tmp_seq
    MockIPFSClient.storage_dir MockIPFSClient.metadata].
  rewrite lookup_insert_eq. cbn [default blobs index_file].
  rewrite insert_insert_eq. reflexivity.
Qed.

Lemma mock_upload_file_run (self : MockIPFSClient.t) (w : World) (file_path : string)
  (name : option string) (data : bytes) :
  files w !! file_path = Some data ->
  let cid := MockIPFSClient._compute_hash data in
  let entry := file_entry (or_else name (path_name file_path)) data "file" in
  MockIPFSClient.upload_file self file_path name w
  = (Returns (Some cid, registering self cid entry),
     stored self cid data (dict_set cid entry (MockIPFSClient.metadata self)) w).
Proof.
  intros Hfile cid entry.
  unfold MockIPFSClient.upload_file.
  unfold bind at 1. unfold path_exists, gets. rewrite Hfile.
  rewrite bool_decide_eq_true_2 by eauto. cbn [negb].
  unfold bind at 1. unfold read_file. rewrite Hfile.
  pose proof (store_then_save self cid data (dict_set cid entry (MockIPFSClient.metadata self)) w)
    as Hrun.
  cbv zeta in Hrun. unfold bind in Hrun |- *.
  fold cid. fold (file_entry (or_else name (path_name file_path)) data "file"). fold entry.
  destruct (MockIPFSClient.store_blob self cid data w) as [[[]|e] w1]; [|discriminate].
  destruct (MockIPFSClient._save_metadata _ w1) as [[[]|e] w2]; [|discriminate].
  injection Hrun as ->. reflexivity.
Qed.

Lemma mock_upload_json_run (self : MockIPFSClient.t) (w : World) (doc : json) (name : string) :
  let data := str_encode (json_dumps doc) in
  let cid := MockIPFSClient._compute_hash data in
  let entry := file_entry name data "json" in
  MockIPFSClient.upload_json self doc name w
  = (Returns (Some cid, registering self cid entry),
     stored self cid data (dict_set cid entry (MockIPFSClient.metadata self)) w).
Proof.
  intros data cid entry.
  unfold MockIPFSClient.upload_json.
  pose proof (store_then_save self cid data (dict_set cid entry (MockIPFSClient.metadata self)) w)
    as Hrun.
  cbv zeta in Hrun. unfold bind in Hrun |- *.
  fold data. fold cid. fold (file_entry name data "json"). fold entry.
  destruct (MockIPFSClient.store_blob self cid data w) as [[[]|e] w1]; [|discriminate].
  destruct (MockIPFSClient._save_metadata _ w1) as [[[]|e] w2]; [|discriminate].
  injection Hrun as ->. reflexivity.
Qed.

Lemma stored_files (self : MockIPFSClient.t) cid data index (w : World) :
  files (stored self cid data index w) = files w.
Proof. reflexivity. Qed.

Lemma stored_the_dir (self : MockIPFSClient.t) cid data index (w : World) :
  MockIPFSClient.the_dir (MockIPFSClient.storage_dir self) (stored self cid data index w)
  = {| index_file := Some index;
       blobs := <[cid := data]> (blobs (MockIPFSClient.the_dir (MockIPFSClient.storage_dir self) w)) |}.
Proof.
  unfold MockIPFSClient.the_dir at 1, stored, set_dirs. cbn [dirs].
  rewrite lookup_insert_eq. reflexivity.
Qed.

(** ** Identical bytes, identical CID *)

(** C4. An upload of the bytes [data] through the mock returns the CID
    [_compute_hash data], whatever the store, the world, the path and the
    name; so uploading a file twice returns the same CID both times, and so
    does uploading a JSON document twice. *)
Theorem mock_upload_twice_same_cid
  (data : bytes) (self : MockIPFSClient.t) (w : World) (file_path : string)
  (name name' : option string) (doc : json) (jname jname' : string) :
  files w !! file_path = Some data ->
  (exists self1 w1 self2 w2,
      MockIPFSClient.upload_file self file_path name w
      = (Returns (Some (MockIPFSClient._compute_hash data), self1), w1)
      /\ MockIPFSClient.upload_file self1 file_path name' w1
         = (Returns (Some (MockIPFSClient._compute_hash data), self2), w2))
  /\ (exists self1 w1 self2 w2,
      MockIPFSClient.upload_json self doc jname w
      = (Returns (Some (MockIPFSClient._compute_hash (str_encode (json_dumps doc))), self1), w1)
      /\ MockIPFSClient.upload_json self1 doc jname' w1
         = (Returns (Some (MockIPFSClient._compute_hash (str_encode (json_dumps doc))), self2), w2))
  /\ (forall other w0 path0 name0,
      files w0 !! path0 = Some data ->
      exists other' w0',
        MockIPFSClient.upload_file other path0 name0 w0
        = (Returns (Some (MockIPFSClient._compute_hash data), other'), w0')).
Proof.
  intros Hfile. repeat split.
  - eexists _, _, _, _. split.
    + apply mock_upload_file_run, Hfile.
    + apply mock_upload_file_run. rewrite stored_files. exact Hfile.
  - eexists _, _, _, _. split; apply mock_upload_json_run.
  - intros other w0 path0 name0 H0. eexists _, _. apply mock_upload_file_run, H0.
Qed.

(** C4 on a file of three bytes. *)
Lemma mock_upload_twice_same_cid_witness :
  files example_world !! "weights.bin" = Some [x01; x02; x03]
  /\ (exists self1 w1 self2 w2,
      MockIPFSClient.upload_file fresh_mock "weights.bin" None example_world
      = (Returns (Some (MockIPFSClient._compute_hash [x01; x02; x03]), self1), w1)
      /\ MockIPFSClient.upload_file self1 "weights.bin" (Some "again") w1
         = (Returns (Some (MockIPFSClient._compute_hash [x01; x02; x03]), self2), w2)).
Proof.
  split; [reflexivity|].
  apply (mock_upload_twice_same_cid [x01; x02; x03] fresh_mock example_world "weights.bin"
           None (Some "again") JNull "a.json" "b.json").
  reflexivity.
Defined.

(** ** The index and the directory agree *)


Lemma store_inv_fresh (dir : string) (w : World) :
  dirs w !! MockIPFSClient.path_str dir = None ->
  exists self w', MockIPFSClient.__init__ dir w = (Returns self, w') /\ store_inv self w'.
Proof.
  intros Hnone. unfold MockIPFSClient.__init__, MockIPFSClient._load_metadata. monad_simpl.
  eexists _, _. split; [reflexivity|].
  unfold store_inv, MockIPFSClient.the_dir, set_dirs.
  cbn [MockIPFSClient.storage_dir MockIPFSClient.metadata dirs].
  rewrite lookup_insert_eq, Hnone. simpl.
  split; [discriminate|]. intros cid b H. rewrite lookup_empty in H. discriminate.
Qed.









(** ** Downloading what was never uploaded *)




(** ** Timeouts *)

Section SendsWith.
Context {A B : Type} (t : Z).

Lemma sends_quiet (m : M World A) :
  (forall w, sent (snd (m w)) = sent w) -> sends_with t m.
Proof.
  intros H w. exists []. rewrite H, app_nil_r. split; [reflexivity|constructor].
Qed.

Lemma sends_bind (m : M World A) (k : A -> M World B) :
  sends_with t m -> (forall a, sends_with t (k a)) -> sends_with t (bind m k).
Proof.
  intros Hm Hk w. unfold bind.
  destruct (Hm w) as (new & Hsent & Hnew).
  destruct (m w) as [[a|e] w1]; simpl in Hsent.
  - destruct (Hk a w1) as (new' & Hsent' & Hnew').
    exists (new ++ new')%list. rewrite Hsent', Hsent, app_assoc.
    split; [reflexivity|]. apply Forall_app; auto.
  - exists new. auto.
Qed.

Lemma sends_try (m : M World A) (h : exn -> M World A) :
  sends_with t m -> (forall e, sends_with t (h e)) -> sends_with t (try_except m h).
Proof.
  intros Hm Hh w. unfold try_except.
  destruct (Hm w) as (new & Hsent & Hnew).
  destruct (m w) as [[a|e] w1]; simpl in Hsent.
  - exists new. auto.
  - destruct (Hh e w1) as (new' & Hsent' & Hnew').
    exists (new ++ new')%list. rewrite Hsent', Hsent, app_assoc.
    split; [reflexivity|]. apply Forall_app; auto.
Qed.

Lemma sends_http (r : Request) : timeout r = t -> sends_with t (http_send r).
Proof.
  intros Ht w. exists [r]. unfold http_send.
  destruct (remote w (sent w) r); simpl; auto.
Qed.

End SendsWith.

Ltac sends :=
  repeat first
    [ apply sends_bind; [|intros ?]
    | apply sends_try; [|intros ?]
    | apply sends_http; reflexivity
    | apply sends_quiet; intros ?; unfold ret, raise, lift, gets, modify, path_exists,
        read_file, write_file, unlink, named_temporary_file; simpl;
        repeat match goal with |- context [match ?x with _ => _ end] => destruct x end;
        reflexivity
    | match goal with
      | |- sends_with _ (if ?b then _ else _) => destruct b
      | |- sends_with _ (match ?x with _ => _ end) => destruct x
      end ].

(** Against C8 as stated. On the local node a JSON upload sends its request
    with 120 s, not with the 60 s of the JSON class. *)
Lemma local_json_upload_uses_the_binary_timeout :
  map timeout
    (sent (snd (run (IPFSClient.Local "http://localhost:5001" "http://localhost:8080")
                    (OpUploadJSON JNull "data.json") offline_world)))
  = [120%Z]
  /\ timeout_class (OpUploadJSON JNull "data.json") = 60%Z.
Proof. split; vm_compute; reflexivity. Qed.

(** C8, amended. Every request of an adapter operation carries the timeout
    of the operation's class, 120 s for a file upload or download, 60 s for
    a JSON download, a pin and a JSON upload to the hosted service, and 10 s
    for the connection test, on both backends; a JSON upload to the local
    node is sent as a file upload, with 120 s. *)
Theorem adapter_requests_use_their_timeout (self : IPFSClient.t) (op : operation) (w : World) :
  exists new, sent (snd (run self op w)) = (sent w ++ new)%list
              /\ Forall (fun r => timeout r = timeout_used self op) new.
Proof.
  revert w. change (sends_with (timeout_used self op) (run self op)).
  destruct op, self; unfold run, timeout_used, timeout_class,
    IPFSClient.upload_file, IPFSClient.upload_json, IPFSClient.download_file,
    IPFSClient.download_json, IPFSClient.pin_cid, IPFSClient.test_connection,
    IPFSClient._upload_to_pinata, IPFSClient._upload_to_local_ipfs,
    IPFSClient._upload_json_to_pinata, IPFSClient.use_pinata;
  cbv iota; sends.
Qed.

(** ** [json.loads] after [json.dumps] *)

Section JsonRoundTrip.

(** Evaluates [digit_val] at the digit in the goal. *)
Ltac eval_digit :=
  match goal with
  | |- context [digit_val ?c] =>
      let v := eval vm_compute in (digit_val c) in
      change (digit_val c) with v; cbv iota
  end.

Lemma parse_digits_uint (d : Decimal.uint) (acc : positive) (rest : string) :
  ends_number rest = true ->
  parse_digits (Npos acc) (NilEmpty.string_of_uint d ++ rest)
  = (Npos (Pos.of_uint_acc d acc), rest).
Proof.
  intros Hrest. revert acc.
  induction d as [|d IH|d IH|d IH|d IH|d IH|d IH|d IH|d IH|d IH|d IH]; intros acc;
    cbn [NilEmpty.string_of_uint String.append Pos.of_uint_acc];
    [|cbn [parse_digits]; eval_digit; rewrite <- IH; f_equal; lia ..].
  destruct rest as [|c r]; [reflexivity|].
  cbn [parse_digits]. cbn [ends_number] in Hrest.
  destruct (digit_val c); [discriminate|reflexivity].
Qed.

Lemma nzhead_not_D0 (d u : Decimal.uint) : Decimal.nzhead d <> Decimal.D0 u.
Proof. induction d; simpl; try discriminate. exact IHd. Qed.

Lemma to_uint_not_D0 (p : positive) (u : Decimal.uint) : Pos.to_uint p <> Decimal.D0 u.
Proof.
  intros H.
  pose proof (DecimalN.Unsigned.to_of (Pos.to_uint p)) as Hnorm.
  change (N.of_uint (Pos.to_uint p)) with (Pos.of_uint (Pos.to_uint p)) in Hnorm.
  rewrite DecimalPos.Unsigned.of_to in Hnorm.
  change (N.to_uint (Npos p)) with (Pos.to_uint p) in Hnorm.
  rewrite H in Hnorm. unfold Decimal.unorm in Hnorm. cbn [Decimal.nzhead] in Hnorm.
  destruct (Decimal.nzhead u) eqn:E; try discriminate.
  - injection Hnorm as ->. apply (DecimalPos.Unsigned.to_uint_nonzero p). exact H.
  - apply (nzhead_not_D0 u u). congruence.
Qed.

Lemma parse_nat_pos (p : positive) (rest : string) :
  ends_number rest = true ->
  parse_nat (NilEmpty.string_of_uint (Pos.to_uint p) ++ rest) = Some (Npos p, rest).
Proof.
  intros Hrest.
  pose proof (DecimalPos.Unsigned.of_to p) as Hval.
  destruct (Pos.to_uint p) as [|u|u|u|u|u|u|u|u|u|u] eqn:E;
    [exfalso; apply (DecimalPos.Unsigned.to_uint_nonnil p E)
    |exfalso; apply (to_uint_not_D0 p u E)
    |cbn [NilEmpty.string_of_uint String.append parse_nat]; eval_digit;
     rewrite parse_digits_uint by exact Hrest; simpl in Hval; congruence ..].
Qed.

Lemma parse_value_number (fuel : nat) (c : ascii) (r : string) :
  starts_number c = true ->
  parse_value (S fuel) (String c r) = parse_number (String c r).
Proof.
  destruct c as [[] [] [] [] [] [] [] []]; intros H; try discriminate H; reflexivity.
Qed.

Lemma uint_string_head (p : positive) :
  exists c r, NilEmpty.string_of_uint (Pos.to_uint p) = String c r
              /\ starts_number c = true /\ Ascii.eqb c "-" = false.
Proof.
  destruct (Pos.to_uint p) eqn:E;
    [exfalso; apply (DecimalPos.Unsigned.to_uint_nonnil p E)|..];
    eexists _, _; (split; [reflexivity|]); split; reflexivity.
Qed.

Lemma Z_to_str_pos (p : positive) :
  Z_to_str (Zpos p) = NilEmpty.string_of_uint (Pos.to_uint p).
Proof.
  unfold Z_to_str. cbn [Z.to_int NilZero.string_of_int NilZero.string_of_uint].
  destruct (Pos.to_uint p) eqn:E; try reflexivity.
  exfalso. apply (DecimalPos.Unsigned.to_uint_nonnil p E).
Qed.

Lemma Z_to_str_neg (p : positive) :
  Z_to_str (Zneg p) = String "-" (NilEmpty.string_of_uint (Pos.to_uint p)).
Proof.
  unfold Z_to_str. cbn [Z.to_int NilZero.string_of_int NilZero.string_of_uint].
  destruct (Pos.to_uint p) eqn:E; try reflexivity.
  exfalso. apply (DecimalPos.Unsigned.to_uint_nonnil p E).
Qed.

(** The first character of a printed number. *)
Lemma Z_to_str_head (z : Z) :
  exists c r, Z_to_str z = String c r /\ starts_number c = true.
Proof.
  destruct z as [|p|p].
  - eexists _, _. split; reflexivity.
  - rewrite Z_to_str_pos. destruct (uint_string_head p) as (c & r & -> & Hc & _). eauto.
  - rewrite Z_to_str_neg. eexists _, _. split; reflexivity.
Qed.

Lemma starts_fraction_false (rest : string) :
  ends_number rest = true -> starts_fraction rest = false.
Proof.
  destruct rest as [|c r]; [reflexivity|]. cbn [ends_number].
  destruct (digit_val c) eqn:E; [discriminate|].
  intros H. apply negb_true_iff in H. exact H.
Qed.

Lemma parse_number_Z (z : Z) (rest : string) :
  ends_number rest = true ->
  parse_number (Z_to_str z ++ rest) = Some (JInt z, rest).
Proof.
  intros Hrest. destruct z as [|p|p].
  - change (Z_to_str 0 ++ rest) with (String "0" rest).
    change (parse_number (String "0" rest))
      with (if starts_fraction rest then None else Some (JInt 0, rest)).
    rewrite (starts_fraction_false rest Hrest). reflexivity.
  - rewrite Z_to_str_pos.
    destruct (uint_string_head p) as (c & r & Hs & _ & Hminus).
    unfold parse_number.
    assert (Hsigned : (match NilEmpty.string_of_uint (Pos.to_uint p) ++ rest with
                       | String "-" r0 => (true, r0)
                       | _ => (false, NilEmpty.string_of_uint (Pos.to_uint p) ++ rest)
                       end)
                      = (false, NilEmpty.string_of_uint (Pos.to_uint p) ++ rest)).
    { rewrite Hs. cbn [String.append].
      destruct c as [[] [] [] [] [] [] [] []]; try reflexivity; discriminate Hminus. }
    rewrite Hsigned. cbn [fst snd].
    rewrite parse_nat_pos by exact Hrest.
    rewrite (starts_fraction_false rest Hrest). reflexivity.
  - rewrite Z_to_str_neg. unfold parse_number. cbn [String.append fst snd].
    rewrite parse_nat_pos by exact Hrest.
    rewrite (starts_fraction_false rest Hrest). reflexivity.
Qed.

(** *** String literals *)

Lemma parse_chars_escape_char (c : ascii) (t : string) :
  parse_chars (escape_char c ++ t)
  = match parse_chars t with
    | Some (s, rest) => Some (String c s, rest)
    | None => None
    end.
Proof. destruct c as [[] [] [] [] [] [] [] []]; reflexivity. Qed.

Lemma parse_chars_escape (s rest : string) :
  parse_chars (escape s ++ dquote ++ rest) = Some (s, rest).
Proof.
  induction s as [|c s IH]; [reflexivity|].
  cbn [escape]. rewrite str_app_assoc, parse_chars_escape_char, IH. reflexivity.
Qed.

Lemma parse_value_string (fuel : nat) (s rest : string) :
  parse_value (S fuel) (quote s ++ rest) = Some (JStr s, rest).
Proof.
  unfold quote. rewrite !str_app_assoc.
  change (dquote ++ escape s ++ dquote ++ rest)
    with (String (chr 34) (escape s ++ dquote ++ rest)).
  cbn [parse_value]. change (nat_of_ascii (chr 34) =? 34)%nat with true. cbv iota.
  rewrite parse_chars_escape. reflexivity.
Qed.

(** *** Arrays and objects *)

Lemma json_induction (P : json -> Prop) :
  P JNull -> (forall b, P (JBool b)) -> (forall n, P (JInt n)) -> (forall s, P (JStr s)) ->
  (forall l, Forall P l -> P (JList l)) ->
  (forall d, Forall (fun kv => P (snd kv)) d -> P (JDict d)) ->
  forall j, P j.
Proof.
  intros Hnull Hbool Hint Hstr Hlist Hdict. fix IH 1. intros [|b|n|s|l|d].
  - exact Hnull.
  - apply Hbool.
  - apply Hint.
  - apply Hstr.
  - apply Hlist. induction l as [|x l IHl]; constructor; [apply IH|exact IHl].
  - apply Hdict. induction d as [|[k v] d IHd]; constructor; [apply IH|exact IHd].
Qed.

Lemma dumps_list (lvl : nat) (x : json) (xs : list json) :
  dumps_at None lvl (JList (x :: xs))
  = "[" ++ dumps_at None (S lvl) x ++ items_text lvl xs ++ "]".
Proof.
  cbn [dumps_at].
  match goal with
  | |- context [?f xs] =>
      is_fix f; assert (Hitems : forall l, f l = items_text lvl l)
  end.
  { induction l as [|y ys IH]; [reflexivity|]. cbn [items_text]. rewrite <- IH. reflexivity. }
  rewrite Hitems. reflexivity.
Qed.

Lemma dumps_dict (lvl : nat) (k : string) (v : json) (kvs : list (string * json)) :
  dumps_at None lvl (JDict ((k, v) :: kvs))
  = "{" ++ quote k ++ ": " ++ dumps_at None (S lvl) v ++ members_text lvl kvs ++ "}".
Proof.
  cbn [dumps_at].
  match goal with
  | |- context [?f kvs] =>
      is_fix f; assert (Hmembers : forall l, f l = members_text lvl l)
  end.
  { induction l as [|[k' v'] r IH]; [reflexivity|].
    cbn [members_text]. rewrite <- IH. reflexivity. }
  rewrite Hmembers. reflexivity.
Qed.

Lemma starts_number_value_start (c : ascii) : starts_number c = true -> value_start c = true.
Proof. destruct c as [[] [] [] [] [] [] [] []]; intros H; try discriminate H; reflexivity. Qed.

Lemma dumps_head (lvl : nat) (j : json) :
  exists c r, dumps_at None lvl j = String c r /\ value_start c = true.
Proof.
  destruct j as [|[]|n|s|[|x xs]|[|[k v] kvs]];
    rewrite ?dumps_list, ?dumps_dict; try (eexists _, _; split; reflexivity).
  cbn [dumps_at]. destruct (Z_to_str_head n) as (c & r & -> & Hc).
  eauto using starts_number_value_start.
Qed.

Lemma skip_ws_value (c : ascii) (r : string) :
  value_start c = true -> skip_ws (String c r) = String c r.
Proof.
  unfold value_start. intros H. cbn [skip_ws].
  destruct (is_ws c); [discriminate|reflexivity].
Qed.

Lemma skip_ws_dumps (lvl : nat) (j : json) (rest : string) :
  skip_ws (dumps_at None lvl j ++ rest) = dumps_at None lvl j ++ rest.
Proof.
  destruct (dumps_head lvl j) as (c & r & -> & Hc). apply skip_ws_value, Hc.
Qed.

Lemma skip_ws_space (s : string) : skip_ws (String " " s) = skip_ws s.
Proof. reflexivity. Qed.

Lemma parse_value_list (fuel : nat) (c : ascii) (r : string) :
  value_start c = true ->
  parse_value (S fuel) (String "[" (String c r))
  = match parse_elems fuel (String c r) with
    | Some (l, rest) => Some (JList l, rest)
    | None => None
    end.
Proof. destruct c as [[] [] [] [] [] [] [] []]; intros H; try discriminate H; reflexivity. Qed.

Lemma parse_value_list_dumps (fuel lvl : nat) (x : json) (t : string) :
  parse_value (S fuel) (String "[" (dumps_at None lvl x ++ t))
  = match parse_elems fuel (dumps_at None lvl x ++ t) with
    | Some (l, rest) => Some (JList l, rest)
    | None => None
    end.
Proof.
  destruct (dumps_head lvl x) as (c & r & -> & Hc). cbn [String.append].
  apply parse_value_list, Hc.
Qed.

Lemma parse_value_dict (fuel : nat) (r : string) :
  parse_value (S fuel) (String "{" (dquote ++ r))
  = match parse_members fuel [] (dquote ++ r) with
    | Some (d, rest) => Some (JDict d, rest)
    | None => None
    end.
Proof. reflexivity. Qed.

Lemma ends_number_comma (r : string) : ends_number (", " ++ r) = true.
Proof. reflexivity. Qed.

Lemma ends_number_bracket (r : string) : ends_number ("]" ++ r) = true.
Proof. reflexivity. Qed.

Lemma ends_number_brace (r : string) : ends_number ("}" ++ r) = true.
Proof. reflexivity. Qed.

Lemma parse_elems_items (lvl : nat) (xs : list json) :
  Forall parses_back xs ->
  forall x fuel rest,
    parses_back x ->
    (list_sum (map (fun y => S (weight y)) (x :: xs)) <= fuel)%nat ->
    parse_elems fuel (dumps_at None (S lvl) x ++ items_text lvl xs ++ "]" ++ rest)
    = Some (x :: xs, rest).
Proof.
  induction 1 as [|y ys Hy Hys IH]; intros x fuel rest Hx Hfuel;
    cbn [map list_sum fold_right] in Hfuel; (destruct fuel as [|f]; [lia|]); cbn [parse_elems].
  - cbn [items_text String.append].
    rewrite (Hx (S lvl) f (String "]" rest)) by (reflexivity || lia). reflexivity.
  - cbn [items_text]. rewrite !str_app_assoc. cbn [String.append].
    rewrite (Hx (S lvl) f) by (reflexivity || lia).
    rewrite (skip_ws_value ","), skip_ws_space, skip_ws_dumps by reflexivity.
    change (String "]" rest) with ("]" ++ rest).
    rewrite IH; [reflexivity|exact Hy|]. cbn [map list_sum fold_right]. lia.
Qed.

Lemma quote_app (k t : string) : quote k ++ t = dquote ++ escape k ++ dquote ++ t.
Proof. unfold quote. rewrite !str_app_assoc. reflexivity. Qed.

Lemma parse_members_text (lvl : nat) (kvs : list (string * json)) :
  Forall (fun kv => parses_back (snd kv)) kvs ->
  forall k v acc fuel rest,
    parses_back v ->
    (list_sum (map (fun kv => S (weight (snd kv))) ((k, v) :: kvs)) <= fuel)%nat ->
    parse_members fuel acc
      (quote k ++ ": " ++ dumps_at None (S lvl) v ++ members_text lvl kvs ++ "}" ++ rest)
    = Some (fold_left set_member ((k, v) :: kvs) acc, rest).
Proof.
  induction 1 as [|[k' v'] r Hv' Hr IH]; intros k v acc fuel rest Hv Hfuel;
    cbn [map list_sum fold_right snd] in Hfuel; (destruct fuel as [|f]; [lia|]);
    rewrite quote_app;
    change (dquote ++ ?x) with (String (chr 34) x);
    cbn [parse_members]; change (nat_of_ascii (chr 34) =? 34)%nat with true; cbv iota;
    rewrite parse_chars_escape;
    cbn [String.append]; rewrite (skip_ws_value ":"), skip_ws_space, skip_ws_dumps by reflexivity.
  - cbn [members_text String.append].
    rewrite (Hv (S lvl) f (String "}" rest)) by (reflexivity || lia). reflexivity.
  - cbn [members_text]. rewrite !str_app_assoc. cbn [String.append].
    rewrite (Hv (S lvl) f) by (reflexivity || lia).
    rewrite (skip_ws_value ","), skip_ws_space by reflexivity.
    rewrite quote_app.
    change (dquote ++ ?x) with (String (chr 34) x) at 1.
    rewrite (skip_ws_value (chr 34)) by reflexivity.
    change (String (chr 34) ?x) with (dquote ++ x).
    rewrite <- quote_app.
    change (String "}" rest) with ("}" ++ rest).
    change (String ":" (String " " ?x)) with (": " ++ x).
    rewrite IH; [reflexivity|exact Hv'|]. cbn [map list_sum fold_right snd]. lia.
Qed.

Lemma dict_set_new (k : string) (v : json) (acc : dict) :
  existsb (String.eqb k) (map fst acc) = false -> dict_set k v acc = (acc ++ [(k, v)])%list.
Proof.
  induction acc as [|[k' v'] acc IH]; [reflexivity|].
  cbn [map fst existsb dict_set]. intros H. apply orb_false_iff in H as [-> H].
  rewrite (IH H). reflexivity.
Qed.

Lemma existsb_app_false (k : string) (a b : list string) :
  existsb (String.eqb k) (a ++ b)%list = false ->
  existsb (String.eqb k) a = false /\ existsb (String.eqb k) b = false.
Proof. rewrite existsb_app. apply orb_false_iff. Qed.

Lemma distinct_app_cons (a : list string) (k : string) (b : list string) :
  distinct (a ++ k :: b)%list = true ->
  existsb (String.eqb k) a = false /\ distinct ((a ++ [k]) ++ b)%list = true.
Proof.
  induction a as [|x a IH]; cbn [app distinct existsb].
  - intros H. split; [reflexivity|exact H].
  - intros H. apply andb_true_iff in H as [Hx Ha]. destruct (IH Ha) as [Hk Hd].
    rewrite Hd, andb_true_r.
    apply negb_true_iff in Hx. destruct (existsb_app_false _ _ _ Hx) as [Hxa Hxb].
    cbn [existsb] in Hxb. apply orb_false_iff in Hxb as [Hxk Hxb].
    split.
    + rewrite String.eqb_sym, Hxk. exact Hk.
    + apply negb_true_iff. rewrite <- app_assoc, existsb_app. cbn [app existsb].
      rewrite Hxa, Hxk, Hxb. reflexivity.
Qed.

Lemma fold_set_member_distinct (kvs acc : dict) :
  distinct (map fst (acc ++ kvs)%list) = true ->
  fold_left set_member kvs acc = (acc ++ kvs)%list.
Proof.
  revert acc. induction kvs as [|[k v] kvs IH]; intros acc Hd.
  - rewrite app_nil_r. reflexivity.
  - cbn [fold_left]. unfold set_member at 2. cbn [fst snd].
    rewrite map_app in Hd. cbn [map fst] in Hd.
    destruct (distinct_app_cons _ _ _ Hd) as [Hk Hd'].
    rewrite (dict_set_new k v acc Hk).
    rewrite IH; [rewrite <- app_assoc; reflexivity|].
    rewrite !map_app. exact Hd'.
Qed.

(** Every document with distinct keys is parsed back from its text. *)
Lemma parse_value_dumps (j : json) : json_wf j = true -> parses_back j.
Proof.
  induction j as [|b|n|s|l IH|d IH] using json_induction; intros Hwf lvl fuel rest Hfuel Hrest;
    (destruct fuel as [|f]; [cbn in Hfuel; lia|]).
  - reflexivity.
  - destruct b; reflexivity.
  - cbn [dumps_at]. destruct (Z_to_str_head n) as (c & r & Hs & Hc).
    pose proof (parse_number_Z n rest Hrest) as Hnum.
    rewrite Hs in Hnum |- *. cbn [String.append] in Hnum |- *.
    rewrite parse_value_number by exact Hc. exact Hnum.
  - apply parse_value_string.
  - destruct l as [|x xs]; [reflexivity|].
    rewrite dumps_list. cbn [String.append]. rewrite !str_app_assoc.
    rewrite parse_value_list_dumps.
    cbn [json_wf forallb] in Hwf. apply andb_true_iff in Hwf as [Hwx Hwxs].
    inversion IH as [|? ? Hpx Hpxs]; subst.
    rewrite parse_elems_items; [reflexivity| |exact (Hpx Hwx)|cbn [weight] in Hfuel; lia].
    clear -Hpxs Hwxs. induction Hpxs as [|y ys Hy _ IHys]; constructor.
    + cbn [forallb] in Hwxs. apply andb_true_iff in Hwxs as [Hwy _]. exact (Hy Hwy).
    + cbn [forallb] in Hwxs. apply andb_true_iff in Hwxs as [_ Hwys]. exact (IHys Hwys).
  - destruct d as [|[k v] kvs]; [reflexivity|].
    rewrite dumps_dict. cbn [String.append]. rewrite !str_app_assoc, quote_app.
    rewrite parse_value_dict, <- quote_app.
    cbn [json_wf forallb snd] in Hwf. apply andb_true_iff in Hwf as [Hkeys Hwf].
    apply andb_true_iff in Hwf as [Hwv Hwkvs].
    inversion IH as [|? ? Hpv Hpkvs]; subst. cbn [snd] in Hpv.
    cbn [String.append]. rewrite !str_app_assoc.
    change (String ":" (String " " ?x)) with (": " ++ x).
    rewrite (parse_members_text lvl kvs); [| |exact (Hpv Hwv)|cbn [weight] in Hfuel; lia].
    + rewrite fold_set_member_distinct by exact Hkeys. reflexivity.
    + clear -Hpkvs Hwkvs. induction Hpkvs as [|[k' v'] r Hv' _ IHr]; constructor.
      * cbn [forallb snd] in Hwkvs. apply andb_true_iff in Hwkvs as [Hw _]. exact (Hv' Hw).
      * cbn [forallb] in Hwkvs. apply andb_true_iff in Hwkvs as [_ Hw]. exact (IHr Hw).
Qed.

Lemma weight_le_length (j : json) :
  forall lvl, (weight j <= String.length (dumps_at None lvl j))%nat.
Proof.
  induction j as [|b|n|s|l IH|d IH] using json_induction; intros lvl.
  - cbn. lia.
  - destruct b; cbn; lia.
  - cbn [dumps_at weight]. destruct (Z_to_str_head n) as (c & r & -> & _). cbn. lia.
  - cbn [dumps_at weight]. unfold quote. cbn. lia.
  - destruct l as [|x xs]; [cbn; lia|].
    rewrite dumps_list. cbn [weight map list_sum fold_right]. inversion IH as [|? ? Hx Hxs]; subst.
    rewrite !str_length_app. cbn [String.length]. specialize (Hx (S lvl)).
    assert (list_sum (map (fun y => S (weight y)) xs) <= String.length (items_text lvl xs))%nat.
    { clear -Hxs. induction Hxs as [|y ys Hy _ IHys]; [cbn; lia|].
      cbn [map list_sum fold_right items_text]. rewrite !str_length_app. cbn [String.length].
      specialize (Hy (S lvl)). fold (list_sum (map (fun y => S (weight y)) ys)). lia. }
    fold (list_sum (map (fun y => S (weight y)) xs)). lia.
  - destruct d as [|[k v] kvs]; [cbn; lia|].
    rewrite dumps_dict. cbn [weight map list_sum fold_right snd].
    inversion IH as [|? ? Hv Hkvs]; subst. cbn [snd] in Hv.
    rewrite !str_length_app. cbn [String.length]. specialize (Hv (S lvl)).
    assert (list_sum (map (fun kv => S (weight (snd kv))) kvs)
            <= String.length (members_text lvl kvs))%nat.
    { clear -Hkvs. induction Hkvs as [|[k' v'] r Hv' _ IHr]; [cbn; lia|].
      cbn [map list_sum fold_right members_text snd]. rewrite !str_length_app.
      cbn [String.length]. cbn [snd] in Hv'. specialize (Hv' (S lvl)).
      fold (list_sum (map (fun kv => S (weight (snd kv))) r)). lia. }
    fold (list_sum (map (fun kv => S (weight (snd kv))) kvs)). lia.
Qed.

(** [json.loads(json.dumps(j))] is [j], for every document whose objects
    have distinct keys. *)
Lemma json_loads_dumps (j : json) : json_wf j = true -> json_loads (json_dumps j) = Some j.
Proof.
  intros Hwf. unfold json_loads, json_dumps.
  rewrite <- (str_app_nil_r (dumps_at None 0 j)) at 2.
  rewrite skip_ws_dumps.
  rewrite (parse_value_dumps j Hwf 0); [reflexivity| |reflexivity].
  pose proof (weight_le_length j 0). lia.
Qed.

End JsonRoundTrip.

(** ** Round trips *)

Lemma decode_encode_char (c : ascii) (r : string) :
  bytes_decode (str_encode (String c r)) = option_map (String c) (bytes_decode (str_encode r)).
Proof. destruct c as [[] [] [] [] [] [] [] []]; reflexivity. Qed.

Lemma decode_encode (s : string) : bytes_decode (str_encode s) = Some s.
Proof.
  induction s as [|c s IH]; [reflexivity|].
  rewrite decode_encode_char, IH. reflexivity.
Qed.




(** * Further properties of the client

    Properties of the same code beyond the specification's own: what the
    adapters send and to whom, what they do with the answers, the order in
    which the factory tries the backends, and what the mock store keeps. *)

(** ** What a computation sends and what it leaves alone *)

Section SendsUpto.
Context {A B : Type} (P : Request -> Prop).

Lemma upto_quiet (n : nat) (m : M World A) : quiet m -> sends_upto P n m.
Proof.
  intros H w. exists []. rewrite H, app_nil_r. split; [reflexivity|].
  split; [simpl; lia|constructor].
Qed.

Lemma upto_http (n : nat) (r : Request) : P r -> sends_upto P (S n) (http_send r).
Proof.
  intros Hr w. exists [r]. unfold http_send.
  destruct (remote w (sent w) r); simpl; (split; [reflexivity|]); (split; [lia|auto]).
Qed.

Lemma upto_bind (a b : nat) (m : M World A) (k : A -> M World B) :
  sends_upto P a m -> (forall x, sends_upto P b (k x)) -> sends_upto P (a + b) (bind m k).
Proof.
  intros Hm Hk w. unfold bind.
  destruct (Hm w) as (new & Hsent & Hlen & Hnew).
  destruct (m w) as [[x|e] w1]; simpl in Hsent.
  - destruct (Hk x w1) as (new' & Hsent' & Hlen' & Hnew').
    exists (new ++ new')%list. rewrite Hsent', Hsent, app_assoc, length_app.
    split; [reflexivity|]. split; [lia|]. apply Forall_app; auto.
  - exists new. split; [exact Hsent|]. split; [lia|exact Hnew].
Qed.

Lemma upto_try (a b : nat) (m : M World A) (h : exn -> M World A) :
  sends_upto P a m -> (forall e, sends_upto P b (h e)) -> sends_upto P (a + b) (try_except m h).
Proof.
  intros Hm Hh w. unfold try_except.
  destruct (Hm w) as (new & Hsent & Hlen & Hnew).
  destruct (m w) as [[x|e] w1]; simpl in Hsent.
  - exists new. split; [exact Hsent|]. split; [lia|exact Hnew].
  - destruct (Hh e w1) as (new' & Hsent' & Hlen' & Hnew').
    exists (new ++ new')%list. rewrite Hsent', Hsent, app_assoc, length_app.
    split; [reflexivity|]. split; [lia|]. apply Forall_app; auto.
Qed.

End SendsUpto.

Lemma bind_lift_returns {S A B} (a : A) (k : A -> M S B) :
  bind (lift (Returns a)) k = k a.
Proof. reflexivity. Qed.

Section Keeps.
Context {X A B : Type} (f : World -> X).

Lemma keeps_bind (m : M World A) (k : A -> M World B) :
  keeps f m -> (forall x, keeps f (k x)) -> keeps f (bind m k).
Proof.
  intros Hm Hk w. unfold bind. specialize (Hm w).
  destruct (m w) as [[x|e] w1]; simpl in Hm; [|exact Hm].
  rewrite (Hk x w1). exact Hm.
Qed.

Lemma keeps_try (m : M World A) (h : exn -> M World A) :
  keeps f m -> (forall e, keeps f (h e)) -> keeps f (try_except m h).
Proof.
  intros Hm Hh w. unfold try_except. specialize (Hm w).
  destruct (m w) as [[x|e] w1]; simpl in Hm; [exact Hm|].
  rewrite (Hh e w1). exact Hm.
Qed.

Lemma keeps_ret (a : A) : keeps f (ret a).
Proof. intros w. reflexivity. Qed.

Lemma keeps_raise (e : exn) : keeps f (@raise World A e).
Proof. intros w. reflexivity. Qed.

Lemma keeps_lift (r : result A) : keeps f (lift r).
Proof. intros w. reflexivity. Qed.

Lemma keeps_gets (g : World -> A) : keeps f (gets g).
Proof. intros w. reflexivity. Qed.

End Keeps.

Lemma quiet_read_file (p : string) : quiet (read_file p).
Proof. intros w. unfold read_file. destruct (files w !! p); reflexivity. Qed.

Lemma quiet_write_file (p : string) (b : bytes) : quiet (write_file p b).
Proof. intros w. reflexivity. Qed.

Lemma quiet_unlink (p : string) : quiet (unlink p).
Proof. intros w. unfold unlink. destruct (files w !! p); reflexivity. Qed.

Lemma quiet_named_temporary_file : quiet named_temporary_file.
Proof. intros w. reflexivity. Qed.

Lemma quiet_set_dirs (g : gmap string MockDir -> gmap string MockDir) :
  quiet (modify (set_dirs g)).
Proof. intros w. reflexivity. Qed.

Lemma keeps_files_http (r : Request) : keeps files (http_send r).
Proof. intros w. unfold http_send. destruct (remote w (sent w) r); reflexivity. Qed.

Lemma keeps_files_set_dirs (g : gmap string MockDir -> gmap string MockDir) :
  keeps files (modify (set_dirs g)).
Proof. intros w. reflexivity. Qed.

(** Proves that a computation leaves a component of the world alone. *)
Ltac quiet_tac :=
  repeat first
    [ apply keeps_bind; [|intros ?]
    | apply keeps_try; [|intros ?]
    | apply keeps_ret | apply keeps_raise | apply keeps_lift | apply keeps_gets
    | apply quiet_read_file | apply quiet_write_file | apply quiet_unlink
    | apply quiet_named_temporary_file | apply quiet_set_dirs
    | apply keeps_files_http | apply keeps_files_set_dirs
    | match goal with
      | |- keeps _ (if ?b then _ else _) => destruct b
      | |- keeps _ (match ?x with _ => _ end) => destruct x
      | |- quiet (if ?b then _ else _) => destruct b
      | |- quiet (match ?x with _ => _ end) => destruct x
      end ].

(** Proves [sends_upto P 1 m] for a computation with one request on each
    of its paths, leaving [P] to be shown of each request. *)
Ltac upto :=
  lazymatch goal with
  | |- sends_upto _ _ (bind (lift (Returns _)) _) =>
      rewrite bind_lift_returns; cbv beta; upto
  | |- sends_upto _ _ (bind _ _) =>
      first [ apply (upto_bind _ 0 1); [apply upto_quiet; solve [quiet_tac]|intros ?; upto]
            | apply (upto_bind _ 1 0); [upto|intros ?; apply upto_quiet; solve [quiet_tac]] ]
  | |- sends_upto _ _ (try_except _ _) =>
      apply (upto_try _ 1 0); [upto|intros ?; apply upto_quiet; solve [quiet_tac]]
  | |- sends_upto _ _ (http_send _) => apply upto_http
  | |- sends_upto _ _ (if ?b then _ else _) => destruct b; upto
  | |- sends_upto _ _ (match ?x with _ => _ end) => destruct x; upto
  | |- _ => apply upto_quiet; solve [quiet_tac]
  end.

(** The three shapes of the headers of a request, each in order. *)
Lemma bearer_ok (self : IPFSClient.t) (r : Request) (jwt : string) (more : list (string * string)) :
  IPFSClient.use_pinata self = true ->
  starts_with (IPFSClient.base_url ++ "/") (url r) = true ->
  headers r = ("Authorization", jwt) :: more ->
  (more = [] \/ more = [("Content-Type", "application/json")]) ->
  request_ok self r.
Proof.
  intros Hp Hu Hh Hmore. unfold request_ok, header_names. rewrite Hh.
  split; [auto|].
  destruct Hmore as [-> | ->]; simpl; split.
  - intros _. split; intros [H|[]]; discriminate.
  - split; intros [H|[]]; discriminate.
  - intros _. split; intros [H|[H|[]]]; discriminate.
  - split; intros [H|[H|[]]]; discriminate.
Qed.

Lemma key_pair_ok (self : IPFSClient.t) (r : Request) (key secret : string)
  (more : list (string * string)) :
  IPFSClient.use_pinata self = true ->
  starts_with (IPFSClient.base_url ++ "/") (url r) = true ->
  headers r = ("pinata_api_key", key) :: ("pinata_secret_api_key", secret) :: more ->
  (more = [] \/ more = [("Content-Type", "application/json")]) ->
  request_ok self r.
Proof.
  intros Hp Hu Hh Hmore. unfold request_ok, header_names. rewrite Hh.
  split; [auto|].
  destruct Hmore as [-> | ->]; simpl; split.
  - intros [H|[H|[]]]; discriminate.
  - tauto.
  - intros [H|[H|[H|[]]]]; discriminate.
  - tauto.
Qed.

Lemma plain_ok (self : IPFSClient.t) (r : Request) :
  (headers r = []
   \/ (headers r = [("Content-Type", "application/json")]
       /\ IPFSClient.use_pinata self = true
       /\ starts_with (IPFSClient.base_url ++ "/") (url r) = true)) ->
  request_ok self r.
Proof.
  unfold request_ok, header_names. intros [Hh|(Hh & Hp & Hu)]; rewrite Hh; simpl.
  - split; [congruence|]. split; [tauto|tauto].
  - split; [auto|]. split.
    + intros [H|[]]; discriminate.
    + split; intros [H|[]]; discriminate.
Qed.

(** Each operation sends at most one request, and it is in order. *)
Lemma run_sends (self : IPFSClient.t) (op : operation) :
  sends_upto (request_ok self) 1 (run self op).
Proof.
  destruct self as [jwt key secret gw|api gw].
  - assert (Hh : exists hs, IPFSClient._get_headers (IPFSClient.Pinata jwt key secret gw) = Returns hs
               /\ forall r more,
                   starts_with (IPFSClient.base_url ++ "/") (url r) = true ->
                   headers r = (hs ++ more)%list ->
                   (more = [] \/ more = [("Content-Type", "application/json")]) ->
                   request_ok (IPFSClient.Pinata jwt key secret gw) r).
    { unfold IPFSClient._get_headers.
      destruct (truthy jwt); [|destruct (truthy key && truthy secret)];
        eexists; (split; [reflexivity|]); intros r more Hu Hhs Hmore.
      - eapply bearer_ok; [reflexivity|exact Hu|exact Hhs|exact Hmore].
      - eapply key_pair_ok; [reflexivity|exact Hu|exact Hhs|exact Hmore].
      - apply plain_ok. simpl in Hhs. destruct Hmore as [-> | ->]; auto. }
    destruct Hh as (hs & Hhs & Hok).
    destruct op; unfold run,
      IPFSClient.upload_file, IPFSClient.upload_json, IPFSClient.download_file,
      IPFSClient.download_json, IPFSClient.pin_cid, IPFSClient.test_connection,
      IPFSClient._upload_to_pinata, IPFSClient._upload_to_local_ipfs,
      IPFSClient._upload_json_to_pinata, IPFSClient.use_pinata;
      cbv iota; rewrite ?Hhs; upto;
      try (apply plain_ok; left; reflexivity);
      try (apply (Hok _ []); [reflexivity|simpl; rewrite ?app_nil_r; reflexivity|auto]);
      try (eapply Hok; [reflexivity|simpl; reflexivity|auto]).
  - destruct op; unfold run,
      IPFSClient.upload_file, IPFSClient.upload_json, IPFSClient.download_file,
      IPFSClient.download_json, IPFSClient.pin_cid, IPFSClient.test_connection,
      IPFSClient._upload_to_pinata, IPFSClient._upload_to_local_ipfs,
      IPFSClient._upload_json_to_pinata, IPFSClient.use_pinata;
      cbv iota; upto; apply plain_ok; left; reflexivity.
Qed.

(** ** Running the pieces of an operation *)

Lemma bind_returns {A B : Type} (m : M World A) (k : A -> M World B) (w w1 : World) (a : A) :
  m w = (Returns a, w1) -> bind m k w = k a w1.
Proof. intros H. unfold bind. rewrite H. reflexivity. Qed.

Lemma bind_raises {A B : Type} (m : M World A) (k : A -> M World B) (w w1 : World) (e : exn) :
  m w = (Raises e, w1) -> bind m k w = (Raises e, w1).
Proof. intros H. unfold bind. rewrite H. reflexivity. Qed.

Lemma try_except_bind_returns {A B : Type} (m : M World A) (k : A -> M World B)
  (h : exn -> M World B) (w : World) (a : A) :
  m w = (Returns a, w) -> try_except (bind m k) h w = try_except (k a) h w.
Proof. intros H. unfold try_except, bind. rewrite H. reflexivity. Qed.

Lemma read_file_run (p : string) (data : bytes) (w : World) :
  files w !! p = Some data -> read_file p w = (Returns data, w).
Proof. intros H. unfold read_file. rewrite H. reflexivity. Qed.


Lemma get_headers_hosted (jwt key secret : option string) (gw : string) :
  exists hs, IPFSClient._get_headers (IPFSClient.Pinata jwt key secret gw) = Returns hs.
Proof.
  unfold IPFSClient._get_headers.
  destruct (truthy jwt); [|destruct (truthy key && truthy secret)]; eauto.
Qed.

Lemma test_connection_hosted_run (jwt key secret : option string) (gw : string)
  (hs : list (string * string)) (w : World) :
  IPFSClient._get_headers (IPFSClient.Pinata jwt key secret gw) = Returns hs ->
  IPFSClient.test_connection (IPFSClient.Pinata jwt key secret gw) w
  = (Returns (answers_ok w (auth_probe hs)), after_request (auth_probe hs) w).
Proof.
  intros Hhs. unfold IPFSClient.test_connection. rewrite Hhs.
  change (IPFSClient.base_url ++ "/data/testAuthentication")
    with "https://api.pinata.cloud/data/testAuthentication".
  unfold try_except, bind, lift, ret, answers_ok, http_send, auth_probe, after_request.
  destruct (remote w (sent w) _); reflexivity.
Qed.

Lemma test_connection_local_run (api gw : string) (w : World) :
  IPFSClient.test_connection (IPFSClient.Local api gw) w
  = (Returns (answers_ok w (node_probe api)), after_request (node_probe api) w).
Proof.
  unfold IPFSClient.test_connection.
  unfold try_except, bind, lift, ret, answers_ok, http_send, node_probe, after_request.
  destruct (remote w (sent w) _); reflexivity.
Qed.

(** Sending an upload and reading the CID out of the answer. *)
Lemma post_and_read_the_cid (r : Request) (key : string) (w : World) (v : json) :
  fst (try_except
         (response <- http_send r ;;
          if (status_code response =? 200)%Z then
            result <- lift (json_of_bytes (content response)) ;;
            cid <- lift (getitem result key) ;;
            ret (optional cid)
          else ret None)
         (fun _ => ret None) w) = Returns (Some v) ->
  exists response d,
    remote w (sent w) r = Answer response
    /\ status_code response = 200%Z
    /\ json_of_bytes (content response) = Returns (JDict d)
    /\ dict_get key d = Some v
    /\ v <> JNull.
Proof.
  unfold try_except, bind, http_send, lift, ret.
  destruct (remote w (sent w) r) as [response|reason] eqn:Hr; [|discriminate].
  destruct (status_code response =? 200)%Z eqn:Hstatus; [|discriminate].
  destruct (json_of_bytes (content response)) as [j|e] eqn:Hjson; [|discriminate].
  destruct j as [| | | | |d]; try discriminate. cbn [getitem].
  destruct (dict_get key d) as [v0|] eqn:Hget; [|discriminate].
  cbn [fst]. intros Hv. exists response, d.
  split; [reflexivity|]. split; [apply Z.eqb_eq, Hstatus|]. split; [exact Hjson|].
  destruct v0; try discriminate Hv; injection Hv as <-; split; congruence.
Qed.

Lemma post_and_read_sends (r : Request) (key : string) (w : World) :
  sent (snd (try_except
         (response <- http_send r ;;
          if (status_code response =? 200)%Z then
            result <- lift (json_of_bytes (content response)) ;;
            cid <- lift (getitem result key) ;;
            ret (optional cid)
          else ret None)
         (fun _ => ret None) w)) = (sent w ++ [r])%list.
Proof.
  unfold try_except, bind, http_send, lift, ret.
  destruct (remote w (sent w) r) as [response|reason]; [|reflexivity].
  destruct (status_code response =? 200)%Z; [|reflexivity].
  destruct (json_of_bytes (content response)) as [j|e]; [|reflexivity].
  destruct (getitem j key); reflexivity.
Qed.

Lemma upload_file_found (self : IPFSClient.t) (file_path : string) (name : option string)
  (w : World) (data : bytes) :
  files w !! file_path = Some data ->
  IPFSClient.upload_file self file_path name w
  = try_except
      (if IPFSClient.use_pinata self
       then IPFSClient._upload_to_pinata self file_path (or_else name (path_name file_path))
       else IPFSClient._upload_to_local_ipfs self file_path)
      (fun _ => ret None) w.
Proof.
  intros Hfile. unfold IPFSClient.upload_file. unfold bind at 1. unfold path_exists, gets.
  rewrite Hfile, bool_decide_eq_true_2 by eauto. reflexivity.
Qed.


(** The file upload to the local node, by what the node answers. *)
Lemma upload_to_local_cases (api gw file_path : string) (data : bytes) (w : World) :
  files w !! file_path = Some data ->
  let r := add_request api (path_name file_path) data in
  let run := IPFSClient._upload_to_local_ipfs (IPFSClient.Local api gw) file_path w in
  snd run = after_request r w
  /\ match remote w (sent w) r with
     | Failure reason => fst run = Raises (HTTPError reason)
     | Answer response =>
         if (status_code response =? 200)%Z
         then match json_of_bytes (content response) with
              | Returns j => match getitem j "Hash" with
                             | Returns v => fst run = Returns (optional v)
                             | Raises e => fst run = Raises e
                             end
              | Raises e => fst run = Raises e
              end
         else fst run = Returns None
     end.
Proof.
  intros Hfile r run. unfold run, IPFSClient._upload_to_local_ipfs.
  rewrite (bind_returns _ _ w w data (read_file_run _ _ _ Hfile)).
  fold (add_request api (path_name file_path) data). fold r.
  unfold bind, http_send, lift, ret. fold (after_request r w).
  destruct (remote w (sent w) r) as [response|reason]; [|split; reflexivity].
  destruct (status_code response =? 200)%Z; [|split; reflexivity].
  destruct (json_of_bytes (content response)) as [j|e]; [|split; reflexivity].
  destruct (getitem j "Hash"); split; reflexivity.
Qed.

(** The world in which [upload_json] calls the file upload of the local
    node: the temporary file holds the text of the document. *)
Lemma local_upload_json_run (api gw : string) (data : json) (name : string) (w : World) :
  let tmp := temp_path w in
  let text := str_encode (json_dumps data) in
  let w2 := with_file tmp text (snd (named_temporary_file w)) in
  let uploaded := IPFSClient._upload_to_local_ipfs (IPFSClient.Local api gw) tmp w2 in
  IPFSClient.upload_json (IPFSClient.Local api gw) data name w
  = match fst uploaded with
    | Returns v => (Returns v, without_file tmp (snd uploaded))
    | Raises _ => (Returns None, snd uploaded)
    end.
Proof.
  intros tmp text w2 uploaded.
  assert (Hfile : files w2 !! tmp = Some text) by apply lookup_insert_eq.
  destruct (upload_to_local_cases api gw tmp text w2 Hfile) as [Hworld _].
  unfold IPFSClient.upload_json, IPFSClient.use_pinata. cbv iota.
  unfold try_except.
  rewrite (bind_returns named_temporary_file _ w (snd (named_temporary_file w)) tmp eq_refl).
  rewrite (bind_returns (write_file tmp text) _ (snd (named_temporary_file w)) w2 tt eq_refl).
  fold uploaded in Hworld.
  destruct uploaded as [[v|e] w3] eqn:Hup; unfold uploaded in Hup.
  - rewrite (bind_returns _ _ _ _ _ Hup).
    cbn [fst snd] in *. subst w3.
    assert (Hthere : files (after_request (add_request api (path_name tmp) text) w2) !! tmp
                     = Some text) by exact Hfile.
    unfold bind, unlink. rewrite Hthere. reflexivity.
  - rewrite (bind_raises _ _ _ _ _ Hup). reflexivity.
Qed.

Lemma upload_json_sends (self : IPFSClient.t) (data : json) (name : string) (w : World) :
  exists r,
    sent (snd (IPFSClient.upload_json self data name w)) = (sent w ++ [r])%list
    /\ match self with
       | IPFSClient.Pinata _ _ _ _ =>
           payload r = JsonBody (JDict [("pinataContent", data);
                                        ("pinataMetadata", JDict [("name", JStr name)])])
       | IPFSClient.Local api _ =>
           r = add_request api (path_name (temp_path w)) (str_encode (json_dumps data))
       end.
Proof.
  destruct self as [jwt key secret gw|api gw].
  - unfold IPFSClient.upload_json, IPFSClient.use_pinata; cbv iota.
    unfold IPFSClient._upload_json_to_pinata.
    destruct (get_headers_hosted jwt key secret gw) as [hs ->].
    rewrite (try_except_bind_returns _ _ _ w hs eq_refl).
    eexists. split; [apply post_and_read_sends|reflexivity].
  - eexists. split; [|reflexivity].
    rewrite local_upload_json_run. cbv zeta.
    destruct (upload_to_local_cases api gw (temp_path w) (str_encode (json_dumps data))
                (with_file (temp_path w) (str_encode (json_dumps data))
                   (snd (named_temporary_file w)))
                (lookup_insert_eq _ _ _)) as [Hworld _].
    destruct (IPFSClient._upload_to_local_ipfs _ _ _) as [[v|e] w3];
      cbn [fst snd] in *; subst w3; reflexivity.
Qed.

Lemma download_file_sends (self : IPFSClient.t) (cid out : string) (w : World) :
  sent (snd (IPFSClient.download_file self cid out w))
  = (sent w ++ [gateway_get self cid 120])%list.
Proof.
  unfold IPFSClient.download_file. fold (gateway_get self cid 120).
  unfold try_except, bind, http_send, write_file, modify, ret.
  destruct (remote w (sent w) (gateway_get self cid 120)) as [response|reason];
    [destruct (status_code response =? 200)%Z|]; reflexivity.
Qed.

Lemma download_json_sends (self : IPFSClient.t) (cid : string) (w : World) :
  sent (snd (IPFSClient.download_json self cid w))
  = (sent w ++ [gateway_get self cid 60])%list.
Proof.
  unfold IPFSClient.download_json. fold (gateway_get self cid 60).
  unfold try_except, bind, http_send, lift, ret.
  destruct (remote w (sent w) (gateway_get self cid 60)) as [response|reason];
    [destruct (status_code response =? 200)%Z;
     [destruct (json_of_bytes (content response))|]|]; reflexivity.
Qed.

Lemma pin_cid_sends (self : IPFSClient.t) (cid : string) (name : option string) (w : World) :
  exists r, sent (snd (IPFSClient.pin_cid self cid name w)) = (sent w ++ [r])%list
            /\ match self with
               | IPFSClient.Local api _ => url r = api ++ "/api/v0/pin/add?arg=" ++ cid
               | IPFSClient.Pinata _ _ _ _ =>
                   exists d, payload r = JsonBody (JDict d)
                             /\ dict_get "hashToPin" d = Some (JStr cid)
               end.
Proof.
  destruct self as [jwt key secret gw|api gw]; unfold IPFSClient.pin_cid.
  - destruct (get_headers_hosted jwt key secret gw) as [hs ->].
    unfold bind, lift, http_send, ret. eexists. split.
    + destruct (remote w (sent w) _); reflexivity.
    + cbn [payload]. eexists. split; [reflexivity|]. destruct (truthy name); reflexivity.
  - unfold bind, http_send, ret. eexists. split.
    + destruct (remote w (sent w) _); reflexivity.
    + reflexivity.
Qed.

(** ** The requests of the adapters *)



(** X2. A request to which the client gives any header goes to the pinning
    API, and is sent by a hosted client: the gateway and the local node are
    never sent a credential.  No request carries both the bearer token and
    the key pair, and none carries the key without the secret. *)
Theorem adapter_headers_go_to_the_pinning_api
  (self : IPFSClient.t) (op : operation) (w : World) :
  exists new, sent (snd (run self op w)) = (sent w ++ new)%list
              /\ Forall (request_ok self) new.
Proof.
  destruct (run_sends self op w) as (new & Hsent & _ & Hok). eauto.
Qed.

(** X3. [upload_file] returns a CID only when the file exists, its bytes
    were posted in one multipart request, and the service answered that
    request with status 200 and a JSON object that names the CID under
    [IpfsHash] (hosted) or [Hash] (local node). *)
Theorem upload_file_returns_what_the_service_named
  (self : IPFSClient.t) (file_path : string) (name : option string) (w : World) (v : json) :
  fst (IPFSClient.upload_file self file_path name w) = Returns (Some v) ->
  exists data r response d,
    files w !! file_path = Some data
    /\ sent (snd (IPFSClient.upload_file self file_path name w)) = (sent w ++ [r])%list
    /\ method r = POST
    /\ (exists filename fields, payload r = Multipart filename data fields)
    /\ remote w (sent w) r = Answer response
    /\ status_code response = 200%Z
    /\ json_of_bytes (content response) = Returns (JDict d)
    /\ dict_get (hash_key self) d = Some v
    /\ v <> JNull.
Proof.
  destruct (files w !! file_path) as [data|] eqn:Hfile.
  2:{ destruct (upload_file_missing_run self fresh_mock w file_path name Hfile) as [-> _].
      discriminate. }
  rewrite (upload_file_found self file_path name w data Hfile).
  destruct self as [jwt key secret gw|api gw];
    unfold IPFSClient.use_pinata, IPFSClient._upload_to_pinata, IPFSClient._upload_to_local_ipfs;
    cbv iota.
  - destruct (get_headers_hosted jwt key secret gw) as [hs Hhs]. rewrite Hhs.
    rewrite (try_except_bind_returns _ _ _ w data (read_file_run _ _ _ Hfile)).
    rewrite (try_except_bind_returns _ _ _ w hs eq_refl).
    intros Hv. exists data. eexists.
    destruct (post_and_read_the_cid _ _ _ _ Hv) as (response & d & Hr & Hrest).
    exists response, d. split; [reflexivity|]. split; [apply post_and_read_sends|].
    split; [reflexivity|]. split; [cbn [payload]; eauto|]. split; [exact Hr|exact Hrest].
  - rewrite (try_except_bind_returns _ _ _ w data (read_file_run _ _ _ Hfile)).
    intros Hv. exists data. eexists.
    destruct (post_and_read_the_cid _ _ _ _ Hv) as (response & d & Hr & Hrest).
    exists response, d. split; [reflexivity|]. split; [apply post_and_read_sends|].
    split; [reflexivity|]. split; [cbn [payload]; eauto|]. split; [exact Hr|exact Hrest].
Qed.

(** X3 on a hosted service that accepts the upload. *)
Lemma upload_file_returns_what_the_service_named_witness :
  fst (IPFSClient.upload_file pinata_client "weights.bin" None gateway_down_world)
  = Returns (Some (JStr "QmT78zSuBmuS4z925WZfrqQ1qHaJ56DQaTfyMUF7F8ff5o"))
  /\ exists data r response d,
       files gateway_down_world !! "weights.bin" = Some data
       /\ sent (snd (IPFSClient.upload_file pinata_client "weights.bin" None gateway_down_world))
          = (sent gateway_down_world ++ [r])%list
       /\ method r = POST
       /\ (exists filename fields, payload r = Multipart filename data fields)
       /\ remote gateway_down_world (sent gateway_down_world) r = Answer response
       /\ status_code response = 200%Z
       /\ json_of_bytes (content response) = Returns (JDict d)
       /\ dict_get (hash_key pinata_client) d
          = Some (JStr "QmT78zSuBmuS4z925WZfrqQ1qHaJ56DQaTfyMUF7F8ff5o")
       /\ JStr "QmT78zSuBmuS4z925WZfrqQ1qHaJ56DQaTfyMUF7F8ff5o" <> JNull.
Proof.
  assert (Hcid : fst (IPFSClient.upload_file pinata_client "weights.bin" None gateway_down_world)
                 = Returns (Some (JStr "QmT78zSuBmuS4z925WZfrqQ1qHaJ56DQaTfyMUF7F8ff5o")))
    by (vm_compute; reflexivity).
  split; [exact Hcid|].
  exact (upload_file_returns_what_the_service_named pinata_client "weights.bin" None
           gateway_down_world _ Hcid).
Defined.

(** X4. [upload_json] sends the document in its one request.  To the hosted
    service it is the [pinataContent] of a JSON body, beside the name.  To
    the local node it is the file part of an [add] request: the text that
    [json.dumps] gives, which parses back to the document, under the name of
    the temporary file; the [name] given to [upload_json] is not sent. *)
Theorem upload_json_sends_the_document
  (self : IPFSClient.t) (data : json) (name : string) (w : World) :
  json_wf data = true ->
  exists r,
    sent (snd (IPFSClient.upload_json self data name w)) = (sent w ++ [r])%list
    /\ match self with
       | IPFSClient.Pinata _ _ _ _ =>
           payload r = JsonBody (JDict [("pinataContent", data);
                                        ("pinataMetadata", JDict [("name", JStr name)])])
       | IPFSClient.Local api _ =>
           r = add_request api (path_name (temp_path w)) (str_encode (json_dumps data))
           /\ json_of_bytes (str_encode (json_dumps data)) = Returns data
       end.
Proof.
  intros Hwf. destruct (upload_json_sends self data name w) as (r & Hsent & Hr).
  exists r. split; [exact Hsent|].
  destruct self as [jwt key secret gw|api gw]; [exact Hr|]. split; [exact Hr|].
  unfold json_of_bytes. rewrite decode_encode, (json_loads_dumps data Hwf). reflexivity.
Qed.

(** X4 on a document, sent to the local node. *)
Lemma upload_json_sends_the_document_witness :
  json_wf example_doc = true
  /\ exists r,
       sent (snd (IPFSClient.upload_json local_client example_doc "test_model.json"
                    offline_world))
       = (sent offline_world ++ [r])%list
       /\ r = add_request "http://localhost:5001" (path_name (temp_path offline_world))
                (str_encode (json_dumps example_doc))
       /\ json_of_bytes (str_encode (json_dumps example_doc)) = Returns example_doc.
Proof.
  split; [reflexivity|].
  exact (upload_json_sends_the_document local_client example_doc "test_model.json"
           offline_world eq_refl).
Defined.

(** X5. A JSON upload to the local node goes through a temporary file, and
    touches no other file.  The temporary file is removed when the node
    answers with a status other than 200, or with status 200 and an object
    that names the CID.  It is left behind, holding the text of the document,
    when the request fails in transport or when the answer with status 200
    is not JSON: the exception passes over the [os.unlink]. *)
Theorem local_upload_json_temporary_file
  (api gw : string) (data : json) (name : string) (w : World) :
  let tmp := temp_path w in
  let text := str_encode (json_dumps data) in
  let r := add_request api (path_name tmp) text in
  let run := IPFSClient.upload_json (IPFSClient.Local api gw) data name w in
  (forall p, p <> tmp -> files (snd run) !! p = files w !! p)
  /\ (forall reason,
        remote w (sent w) r = Failure reason ->
        fst run = Returns None /\ files (snd run) !! tmp = Some text)
  /\ (forall response,
        remote w (sent w) r = Answer response ->
        status_code response <> 200%Z ->
        fst run = Returns None /\ files (snd run) !! tmp = None)
  /\ (forall response d v,
        remote w (sent w) r = Answer response ->
        status_code response = 200%Z ->
        json_of_bytes (content response) = Returns (JDict d) ->
        dict_get "Hash" d = Some v ->
        fst run = Returns (optional v) /\ files (snd run) !! tmp = None)
  /\ (forall response e,
        remote w (sent w) r = Answer response ->
        status_code response = 200%Z ->
        json_of_bytes (content response) = Raises e ->
        fst run = Returns None /\ files (snd run) !! tmp = Some text).
Proof.
  intros tmp text r run. unfold run. rewrite local_upload_json_run. cbv zeta.
  fold tmp. fold text.
  set (w2 := with_file tmp text (snd (named_temporary_file w))).
  assert (Hfile : files w2 !! tmp = Some text) by apply lookup_insert_eq.
  destruct (upload_to_local_cases api gw tmp text w2 Hfile) as [Hworld Hcases].
  fold r in Hworld, Hcases.
  change (remote w2 (sent w2) r) with (remote w (sent w) r) in Hcases.
  assert (Hothers : forall p, p <> tmp -> files w2 !! p = files w !! p).
  { intros p Hp. unfold w2, with_file, set_files, named_temporary_file. cbn [files snd].
    rewrite !lookup_insert_ne by (intros E; apply Hp; symmetry; exact E). reflexivity. }
  destruct (IPFSClient._upload_to_local_ipfs _ tmp w2) as [res w3].
  cbn [fst snd] in *. subst w3.
  split; [|split; [|split; [|split]]].
  - intros p Hp. destruct res; cbn [snd].
    + unfold without_file, set_files, after_request. cbn [files].
      rewrite lookup_delete_ne by congruence. apply Hothers, Hp.
    + apply Hothers, Hp.
  - intros reason Hr. rewrite Hr in Hcases. rewrite Hcases. split; [reflexivity|exact Hfile].
  - intros response Hr Hstatus. rewrite Hr in Hcases.
    apply Z.eqb_neq in Hstatus. rewrite Hstatus in Hcases. rewrite Hcases.
    split; [reflexivity|]. apply lookup_delete_eq.
  - intros response d v Hr Hstatus Hjson Hget. rewrite Hr in Hcases.
    apply Z.eqb_eq in Hstatus. rewrite Hstatus, Hjson in Hcases.
    cbn [getitem] in Hcases. rewrite Hget in Hcases. rewrite Hcases.
    split; [reflexivity|]. apply lookup_delete_eq.
  - intros response e Hr Hstatus Hjson. rewrite Hr in Hcases.
    apply Z.eqb_eq in Hstatus. rewrite Hstatus, Hjson in Hcases. rewrite Hcases.
    split; [reflexivity|exact Hfile].
Qed.


(** X7. The URL that [get_gateway_url] returns for a CID is the URL that
    [download_file] and [download_json] fetch for it, with a GET without
    headers that follows redirects. *)
Theorem downloads_fetch_the_gateway_url (self : IPFSClient.t) (cid out : string) (w : World) :
  exists r r',
    sent (snd (IPFSClient.download_file self cid out w)) = (sent w ++ [r])%list
    /\ sent (snd (IPFSClient.download_json self cid w)) = (sent w ++ [r'])%list
    /\ url r = IPFSClient.get_gateway_url self cid
    /\ url r' = IPFSClient.get_gateway_url self cid
    /\ method r = GET /\ method r' = GET
    /\ headers r = [] /\ headers r' = []
    /\ follow_redirects r = true /\ follow_redirects r' = true.
Proof.
  exists (gateway_get self cid 120), (gateway_get self cid 60).
  split; [apply download_file_sends|]. split; [apply download_json_sends|].
  repeat split.
Qed.

(** X8. [pin_cid] names the CID to the service as it is given, without the
    cleaning that the read paths apply: two different spellings of a CID,
    such as [ipfs://X] and [X], give two different pin requests. *)
Theorem pin_cid_sends_the_cid_as_given
  (self : IPFSClient.t) (cid cid' : string) (name : option string) (w : World) :
  cid <> cid' ->
  sent (snd (IPFSClient.pin_cid self cid name w))
  <> sent (snd (IPFSClient.pin_cid self cid' name w)).
Proof.
  intros Hne Hsent.
  destruct (pin_cid_sends self cid name w) as (r & Hr & Hcid).
  destruct (pin_cid_sends self cid' name w) as (r' & Hr' & Hcid').
  rewrite Hr, Hr' in Hsent. apply app_inv_head in Hsent. injection Hsent as <-.
  destruct self as [jwt key secret gw|api gw].
  - destruct Hcid as (d & Hd & Hget), Hcid' as (d' & Hd' & Hget').
    rewrite Hd in Hd'. injection Hd' as <-. congruence.
  - rewrite Hcid in Hcid'. apply str_app_inv_head, str_app_inv_head in Hcid'. congruence.
Qed.

(** X8 on a CID with and without its scheme. *)
Lemma pin_cid_sends_the_cid_as_given_witness :
  "ipfs://QmX" <> "QmX"
  /\ sent (snd (IPFSClient.pin_cid local_client "ipfs://QmX" None offline_world))
     <> sent (snd (IPFSClient.pin_cid local_client "QmX" None offline_world)).
Proof.
  assert (Hne : "ipfs://QmX" <> "QmX") by discriminate.
  split; [exact Hne|].
  exact (pin_cid_sends_the_cid_as_given local_client "ipfs://QmX" "QmX" None offline_world Hne).
Defined.

(** X9. When the service answers the pin request, [pin_cid] returns whether
    the status is 200: an error status gives [False], not an exception.
    (Only a transport failure raises, by C1.) *)
Theorem pin_cid_reports_the_status
  (self : IPFSClient.t) (cid : string) (name : option string) (w : World) :
  exists r,
    sent (snd (IPFSClient.pin_cid self cid name w)) = (sent w ++ [r])%list
    /\ forall response,
         remote w (sent w) r = Answer response ->
         fst (IPFSClient.pin_cid self cid name w) = Returns (status_code response =? 200)%Z.
Proof.
  destruct self as [jwt key secret gw|api gw]; unfold IPFSClient.pin_cid.
  - destruct (get_headers_hosted jwt key secret gw) as [hs ->].
    unfold bind, lift, http_send, ret. eexists. split.
    + destruct (remote w (sent w) _); reflexivity.
    + intros response ->. reflexivity.
  - unfold bind, http_send, ret. eexists. split.
    + destruct (remote w (sent w) _); reflexivity.
    + intros response ->. reflexivity.
Qed.



(** X23. The name of an upload is the [name] given or, when that is
    [None] or empty, the last component of the path.  The hosted service is
    sent it twice, as the name of the file part and, as JSON text, in
    [pinataMetadata]; the mock records it in the index entry of the CID.  The
    local node is sent the last component of the path, whatever [name] is. *)
Theorem upload_file_names_the_file
  (self : IPFSClient.t) (mock : MockIPFSClient.t) (file_path : string) (name : option string)
  (w : World) (data : bytes) :
  files w !! file_path = Some data ->
  let given := or_else name (path_name file_path) in
  (exists r,
      sent (snd (IPFSClient.upload_file self file_path name w)) = (sent w ++ [r])%list
      /\ match self with
         | IPFSClient.Pinata _ _ _ _ =>
             exists meta, payload r = Multipart given data [("pinataMetadata", meta)]
                          /\ json_loads meta = Some (JDict [("name", JStr given)])
         | IPFSClient.Local _ _ => payload r = Multipart (path_name file_path) data []
         end)
  /\ (exists cid mock' w',
        MockIPFSClient.upload_file mock file_path name w = (Returns (Some cid, mock'), w')
        /\ dict_get cid (MockIPFSClient.metadata mock') = Some (file_entry given data "file"))
  /\ (name = None \/ name = Some "" -> given = path_name file_path)
  /\ (forall s, name = Some s -> s <> "" -> given = s).
Proof.
  intros Hfile given. split; [|split; [|split]].
  - rewrite (upload_file_found self file_path name w data Hfile).
    destruct self as [jwt key secret gw|api gw];
      unfold IPFSClient.use_pinata, IPFSClient._upload_to_pinata,
        IPFSClient._upload_to_local_ipfs; cbv iota.
    + destruct (get_headers_hosted jwt key secret gw) as [hs Hhs]. rewrite Hhs.
      rewrite (try_except_bind_returns _ _ _ w data (read_file_run _ _ _ Hfile)).
      rewrite (try_except_bind_returns _ _ _ w hs eq_refl).
      eexists. split; [apply post_and_read_sends|].
      eexists. split; [reflexivity|]. apply json_loads_dumps. reflexivity.
    + rewrite (try_except_bind_returns _ _ _ w data (read_file_run _ _ _ Hfile)).
      eexists. split; [apply post_and_read_sends|reflexivity].
  - eexists _, _, _. split; [apply mock_upload_file_run, Hfile|].
    apply dict_get_set_eq.
  - unfold given. intros [-> | ->]; reflexivity.
  - unfold given. intros s -> Hs. destruct s; [congruence|reflexivity].
Qed.

(** X23 on an upload with an empty name. *)
Lemma upload_file_names_the_file_witness :
  files example_world !! "weights.bin" = Some [x01; x02; x03]
  /\ exists r,
       sent (snd (IPFSClient.upload_file pinata_client "weights.bin" (Some "") example_world))
       = (sent example_world ++ [r])%list
       /\ exists meta,
            payload r = Multipart "weights.bin" [x01; x02; x03] [("pinataMetadata", meta)]
            /\ json_loads meta = Some (JDict [("name", JStr "weights.bin")]).
Proof.
  split; [reflexivity|].
  exact (proj1 (upload_file_names_the_file pinata_client fresh_mock "weights.bin" (Some "")
                  example_world [x01; x02; x03] eq_refl)).
Defined.

(** ** White space around a CID *)

Section Whitespace.

Lemma space_not_in_scheme (c : ascii) (k : nat) :
  is_space c = true -> String.get k "ipfs://" <> Some c.
Proof.
  intros Hc. do 8 (destruct k as [|k]; [intros [= <-]; discriminate Hc|]). discriminate.
Qed.

Lemma remove_from_space_prefix (pre s : string) :
  all_chars is_space pre = true ->
  remove_from "ipfs://" 0 (pre ++ s) = pre ++ remove_from "ipfs://" 0 s.
Proof.
  induction pre as [|c pre IH]; [reflexivity|].
  cbn [all_chars]. intros H. apply andb_true_iff in H as [Hc Hpre].
  cbn [String.append remove_from starts_with].
  assert (Ascii.eqb "i" c = false) as ->.
  { destruct (Ascii.eqb_spec "i" c) as [<-|]; [discriminate Hc|reflexivity]. }
  cbn [andb]. rewrite (IH Hpre). reflexivity.
Qed.

Lemma remove_from_space_suffix (post : string) :
  all_chars is_space post = true ->
  forall s, remove_from "ipfs://" 0 (s ++ post) = remove_from "ipfs://" 0 s ++ post.
Proof.
  induction post as [|c post IH]; intros H s.
  - rewrite !str_app_nil_r. reflexivity.
  - cbn [all_chars] in H. apply andb_true_iff in H as [Hc Hpost].
    change (String c post) with (String c EmptyString ++ post).
    rewrite <- !str_app_assoc, (IH Hpost).
    rewrite (remove_from_app_char "ipfs://" c); [reflexivity| |discriminate|lia].
    intros k. apply space_not_in_scheme, Hc.
Qed.

Lemma lstrip_space_prefix (pre s : string) :
  all_chars is_space pre = true -> lstrip (pre ++ s) = lstrip s.
Proof.
  induction pre as [|c pre IH]; [reflexivity|].
  cbn [all_chars]. intros H. apply andb_true_iff in H as [Hc Hpre].
  cbn [String.append lstrip]. rewrite Hc. exact (IH Hpre).
Qed.

Lemma rstrip_app_space_char (c : ascii) (s : string) :
  is_space c = true -> rstrip (s ++ String c EmptyString) = rstrip s.
Proof.
  intros Hc. induction s as [|a s IH].
  - cbn [String.append rstrip]. rewrite Hc. reflexivity.
  - cbn [String.append rstrip]. rewrite IH. reflexivity.
Qed.

Lemma strip_app_space_char (c : ascii) (s : string) :
  is_space c = true -> strip (s ++ String c EmptyString) = strip s.
Proof.
  intros Hc. unfold strip. induction s as [|a s IH].
  - cbn [String.append lstrip rstrip]. rewrite Hc. reflexivity.
  - cbn [String.append lstrip]. destruct (is_space a); [exact IH|].
    change (String a (s ++ String c EmptyString)) with (String a s ++ String c EmptyString).
    apply rstrip_app_space_char, Hc.
Qed.

Lemma strip_space_suffix (post : string) :
  all_chars is_space post = true -> forall s, strip (s ++ post) = strip s.
Proof.
  induction post as [|c post IH]; intros H s.
  - rewrite str_app_nil_r. reflexivity.
  - cbn [all_chars] in H. apply andb_true_iff in H as [Hc Hpost].
    change (String c post) with (String c EmptyString ++ post).
    rewrite <- str_app_assoc, (IH Hpost). apply strip_app_space_char, Hc.
Qed.

Lemma clean_cid_wrapped (pre post x : string) :
  all_chars is_space pre = true -> all_chars is_space post = true ->
  clean_cid (pre ++ x ++ post) = clean_cid x
  /\ clean_cid (pre ++ "ipfs://" ++ x ++ post) = clean_cid x.
Proof.
  intros Hpre Hpost.
  assert (Hplain : forall y, clean_cid (pre ++ y ++ post) = clean_cid y).
  { intros y. unfold clean_cid, str_remove.
    rewrite remove_from_space_prefix, remove_from_space_suffix by assumption.
    unfold strip at 1. rewrite lstrip_space_prefix by assumption.
    apply (strip_space_suffix post Hpost). }
  split; [apply Hplain|].
  rewrite <- (clean_cid_scheme x).
  change ("ipfs://" ++ x ++ post) with (("ipfs://" ++ x) ++ post). apply Hplain.
Qed.

End Whitespace.

(** X10. The read paths of both classes take a CID wrapped in white space
    of any kind and length (spaces, tabs, line breaks), with or without the
    [ipfs://] scheme after the leading white space, for the bare CID. *)
Theorem read_paths_ignore_scheme_and_white_space (pre post x spelled : string) :
  all_chars is_space pre = true ->
  all_chars is_space post = true ->
  spelled = pre ++ "ipfs://" ++ x ++ post \/ spelled = pre ++ x ++ post ->
  (forall self out, IPFSClient.download_file self spelled out = IPFSClient.download_file self x out)
  /\ (forall self, IPFSClient.download_json self spelled = IPFSClient.download_json self x)
  /\ (forall self, IPFSClient.get_gateway_url self spelled = IPFSClient.get_gateway_url self x)
  /\ (forall mock out,
        MockIPFSClient.download_file mock spelled out = MockIPFSClient.download_file mock x out)
  /\ (forall mock, MockIPFSClient.download_json mock spelled = MockIPFSClient.download_json mock x).
Proof.
  intros Hpre Hpost Hspelled.
  destruct (clean_cid_wrapped pre post x Hpre Hpost) as [Hplain Hscheme].
  assert (Hclean : clean_cid spelled = clean_cid x) by (destruct Hspelled; subst; assumption).
  unfold IPFSClient.download_file, IPFSClient.download_json, IPFSClient.get_gateway_url,
    MockIPFSClient.download_file, MockIPFSClient.download_json.
  rewrite Hclean. repeat split; reflexivity.
Qed.

(** X10 on a CID read from a line of text, with a tab before it and a line
    break after it. *)
Lemma read_paths_ignore_scheme_and_white_space_witness :
  all_chars is_space (str1 (chr 9)) = true
  /\ all_chars is_space newline = true
  /\ IPFSClient.get_gateway_url pinata_client (str1 (chr 9) ++ "ipfs://" ++ "QmX" ++ newline)
     = IPFSClient.get_gateway_url pinata_client "QmX"
  /\ MockIPFSClient.download_json fresh_mock (str1 (chr 9) ++ "QmX" ++ newline)
     = MockIPFSClient.download_json fresh_mock "QmX".
Proof.
  split; [reflexivity|]. split; [reflexivity|]. split.
  - destruct (read_paths_ignore_scheme_and_white_space (str1 (chr 9)) newline "QmX"
                (str1 (chr 9) ++ "ipfs://" ++ "QmX" ++ newline) eq_refl eq_refl
                (or_introl eq_refl)) as (_ & _ & Hurl & _).
    exact (Hurl pinata_client).
  - destruct (read_paths_ignore_scheme_and_white_space (str1 (chr 9)) newline "QmX"
                (str1 (chr 9) ++ "QmX" ++ newline) eq_refl eq_refl
                (or_intror eq_refl)) as (_ & _ & _ & _ & Hjson).
    exact (Hjson fresh_mock).
Defined.

(** ** The order of the factory *)


(** X11. The hosted service comes first.  When [PINATA_JWT] or
    [PINATA_API_KEY] is set and the service answers the authentication probe
    of the client with status 200, the factory returns that client, built
    from the environment, after this one request: [IPFS_API_URL] is not
    looked at and the local node is not contacted. *)
Theorem factory_prefers_the_hosted_service
  (w : World) (c : IPFSClient.t) (hs : list (string * string)) :
  truthy (environ w !! "PINATA_JWT") || truthy (environ w !! "PINATA_API_KEY") = true ->
  fst (IPFSClient.__init__ true w) = Returns c ->
  IPFSClient._get_headers c = Returns hs ->
  answers_ok w (auth_probe hs) = true ->
  get_ipfs_client false w = (Returns (Hosted c), after_request (auth_probe hs) w).
Proof.
  intros Hcred Hc Hhs Hok.
  unfold IPFSClient.__init__ in Hc. monad_simpl. cbn [fst] in Hc. injection Hc as <-.
  unfold get_ipfs_client. monad_simpl. rewrite Hcred.
  unfold probe, IPFSClient.__init__. monad_simpl.
  rewrite (test_connection_hosted_run _ _ _ _ hs w Hhs), Hok. reflexivity.
Qed.

(** X11 with a token and a local node configured. *)
Lemma factory_prefers_the_hosted_service_witness :
  answers_ok hosted_up_world (auth_probe [("Authorization", "Bearer token")]) = true
  /\ get_ipfs_client false hosted_up_world
     = (Returns (Hosted pinata_client),
        after_request (auth_probe [("Authorization", "Bearer token")]) hosted_up_world).
Proof.
  split; [reflexivity|].
  apply (factory_prefers_the_hosted_service hosted_up_world pinata_client
           [("Authorization", "Bearer token")]); reflexivity.
Defined.

(** X12. A failed probe of the hosted service is not fatal.  When the
    hosted service never answers its probe with status 200, whether or not
    its credentials are set, and [IPFS_API_URL] is set and the node answers
    its probe with status 200, the factory returns the local client for that
    URL, with the gateway of [IPFS_GATEWAY] or the default one; it creates
    no directory and writes no file. *)
Theorem factory_falls_through_to_the_local_node (w : World) (api : string) :
  (forall history hs resp,
      remote w history (auth_probe hs) = Answer resp -> status_code resp <> 200%Z) ->
  environ w !! "IPFS_API_URL" = Some api ->
  api <> "" ->
  (forall history, exists resp,
      remote w history (node_probe api) = Answer resp /\ status_code resp = 200%Z) ->
  exists w',
    get_ipfs_client false w
    = (Returns (Hosted (IPFSClient.Local api
                          (default "http://localhost:8080" (environ w !! "IPFS_GATEWAY")))), w')
    /\ files w' = files w /\ dirs w' = dirs w.
Proof.
  intros Hhosted Hapi Hne Hnode.
  assert (Htruthy : truthy (Some api) = true) by (destruct api; [congruence|reflexivity]).
  assert (Hlocal : forall w1, environ w1 = environ w -> remote w1 = remote w ->
            exists w2, probe false w1
              = (Returns (Some (Hosted (IPFSClient.Local api
                   (default "http://localhost:8080" (environ w !! "IPFS_GATEWAY"))))), w2)
              /\ files w2 = files w1 /\ dirs w2 = dirs w1).
  { intros w1 Henv Hrem. unfold probe, IPFSClient.__init__. monad_simpl.
    rewrite Henv, Hapi. cbn [from_option id].
    rewrite test_connection_local_run.
    unfold answers_ok. rewrite Hrem.
    destruct (Hnode (sent w1)) as (resp & -> & ->). eexists. split; [reflexivity|].
    split; reflexivity. }
  unfold get_ipfs_client. monad_simpl.
  destruct (truthy (environ w !! "PINATA_JWT") || truthy (environ w !! "PINATA_API_KEY")).
  - unfold probe at 1, IPFSClient.__init__. monad_simpl.
    destruct (get_headers_hosted (environ w !! "PINATA_JWT") (environ w !! "PINATA_API_KEY")
                (environ w !! "PINATA_SECRET_KEY")
                (default "https://gateway.pinata.cloud" (environ w !! "PINATA_GATEWAY")))
      as [hs Hhs].
    rewrite (test_connection_hosted_run _ _ _ _ hs w Hhs).
    assert (answers_ok w (auth_probe hs) = false) as ->.
    { unfold answers_ok. destruct (remote w (sent w) (auth_probe hs)) as [resp|] eqn:Hr;
        [|reflexivity]. apply Z.eqb_neq. exact (Hhosted _ _ _ Hr). }
    cbn [environ after_request]. rewrite Hapi, Htruthy.
    destruct (Hlocal (after_request (auth_probe hs) w) eq_refl eq_refl) as (w2 & -> & Hf & Hd).
    exists w2. split; [reflexivity|]. split; assumption.
  - rewrite Hapi, Htruthy.
    destruct (Hlocal w eq_refl eq_refl) as (w2 & -> & Hf & Hd).
    exists w2. split; [reflexivity|]. split; assumption.
Qed.

(** X12 with a token that the hosted service rejects. *)
Lemma factory_falls_through_to_the_local_node_witness :
  environ node_only_world !! "IPFS_API_URL" = Some "http://localhost:5001"
  /\ exists w',
       get_ipfs_client false node_only_world = (Returns (Hosted local_client), w')
       /\ files w' = files node_only_world /\ dirs w' = dirs node_only_world.
Proof.
  split; [reflexivity|].
  apply (factory_falls_through_to_the_local_node node_only_world "http://localhost:5001").
  - intros history hs resp [= <-]. discriminate.
  - reflexivity.
  - discriminate.
  - intros history. eexists. split; reflexivity.
Defined.



Lemma probe_sends (use_pinata : bool) : sends_upto is_probe 1 (probe use_pinata).
Proof.
  unfold probe, IPFSClient.__init__, IPFSClient.test_connection.
  apply (upto_bind _ 0 1); [apply upto_quiet; destruct use_pinata; solve [quiet_tac]|].
  intros client.
  apply (upto_bind _ 1 0); [|intros ?; apply upto_quiet; solve [quiet_tac]].
  destruct client; upto; split; reflexivity.
Qed.

Lemma new_mock_quiet : quiet new_mock /\ keeps files new_mock.
Proof.
  unfold new_mock, MockIPFSClient.__init__, MockIPFSClient._load_metadata.
  split; quiet_tac.
Qed.

Lemma probe_keeps_files (use_pinata : bool) : keeps files (probe use_pinata).
Proof.
  unfold probe, IPFSClient.__init__, IPFSClient.test_connection.
  destruct use_pinata; quiet_tac.
Qed.

(** X14. The factory sends at most two requests, each a connection probe
    (10 s timeout, no body), and none when the mock is asked for; it writes no
    file of the caller. *)
Theorem factory_sends_probes_only (use_mock : bool) (w : World) :
  exists new,
    sent (snd (get_ipfs_client use_mock w)) = (sent w ++ new)%list
    /\ (List.length new <= 2)%nat
    /\ Forall is_probe new
    /\ (use_mock = true -> new = [])
    /\ files (snd (get_ipfs_client use_mock w)) = files w.
Proof.
  assert (Hfiles : keeps files (get_ipfs_client use_mock)).
  { unfold get_ipfs_client. destruct use_mock; [apply new_mock_quiet|].
    repeat first
      [ match goal with
        | |- keeps _ (probe _) => apply probe_keeps_files
        | |- keeps _ new_mock => apply new_mock_quiet
        | |- keeps _ (if ?b then _ else _) => destruct b
        | |- keeps _ (match ?x with _ => _ end) => destruct x
        end
      | apply keeps_bind; [|intros ?] | apply keeps_gets | apply keeps_ret ]. }
  destruct use_mock.
  - exists []. rewrite app_nil_r. unfold get_ipfs_client.
    split; [apply new_mock_quiet|]. split; [simpl; lia|]. split; [constructor|].
    split; [reflexivity|apply Hfiles].
  - assert (Hsends : sends_upto is_probe 2 (get_ipfs_client false)).
    { unfold get_ipfs_client.
      apply (upto_bind _ 0 2); [apply upto_quiet; solve [quiet_tac]|intros jwt].
      apply (upto_bind _ 0 2); [apply upto_quiet; solve [quiet_tac]|intros key].
      apply (upto_bind _ 1 1).
      { destruct (truthy jwt || truthy key); [apply probe_sends|].
        apply upto_quiet. solve [quiet_tac]. }
      intros [client|]; [apply upto_quiet; solve [quiet_tac]|].
      apply (upto_bind _ 0 1); [apply upto_quiet; solve [quiet_tac]|intros api].
      apply (upto_bind _ 1 0).
      { destruct (truthy api); [apply probe_sends|]. apply upto_quiet. solve [quiet_tac]. }
      intros [client|]; apply upto_quiet; [solve [quiet_tac]|apply new_mock_quiet]. }
    destruct (Hsends w) as (new & Hsent & Hlen & Hprobe).
    exists new. split; [exact Hsent|]. split; [exact Hlen|]. split; [exact Hprobe|].
    split; [discriminate|apply Hfiles].
Qed.


(** What the factory sends after the hosted stage. *)
Lemma after_hosted_probe_sends (hosted : option Client) :
  sends_upto is_probe 1
    (match hosted with
     | Some client => ret client
     | None =>
         api <- getenv "IPFS_API_URL" ;;
         node <- (if truthy api then probe false else ret None) ;;
         match node with
         | Some client => ret client
         | None => new_mock
         end
     end).
Proof.
  destruct hosted as [client|]; [apply upto_quiet; solve [quiet_tac]|].
  apply (upto_bind _ 0 1); [apply upto_quiet; solve [quiet_tac]|intros api].
  apply (upto_bind _ 1 0).
  { destruct (truthy api); [apply probe_sends|]. apply upto_quiet. solve [quiet_tac]. }
  intros [client|]; apply upto_quiet; [solve [quiet_tac]|apply new_mock_quiet].
Qed.

(** X15. The first request of the factory, when a hosted credential is
    set, is the authentication probe, and it carries the preferred
    credential of the environment: the bearer token when [PINATA_JWT] is
    set, whatever the key pair; the key and the secret when there is no
    token and both are set; and no header at all when the key is set without
    its secret. *)
Theorem factory_probe_carries_the_preferred_credential (w : World) :
  let jwt := environ w !! "PINATA_JWT" in
  let key := environ w !! "PINATA_API_KEY" in
  let secret := environ w !! "PINATA_SECRET_KEY" in
  truthy jwt || truthy key = true ->
  exists hs rest,
    sent (snd (get_ipfs_client false w)) = (sent w ++ auth_probe hs :: rest)%list
    /\ (forall token, jwt = Some token -> token <> "" ->
          hs = [("Authorization", "Bearer " ++ token)])
    /\ (forall k s, truthy jwt = false -> key = Some k -> secret = Some s ->
          k <> "" -> s <> "" ->
          hs = [("pinata_api_key", k); ("pinata_secret_api_key", s)])
    /\ (truthy jwt = false -> truthy secret = false -> hs = []).
Proof.
  intros jwt key secret Hcred.
  destruct (get_headers_hosted jwt key secret
              (default "https://gateway.pinata.cloud" (environ w !! "PINATA_GATEWAY")))
    as [hs Hhs].
  exists hs.
  assert (Hrun : exists rest,
            sent (snd (get_ipfs_client false w)) = (sent w ++ auth_probe hs :: rest)%list).
  { assert (Hprobe : probe true w
              = (Returns (if answers_ok w (auth_probe hs)
                          then Some (Hosted (IPFSClient.Pinata jwt key secret
                                 (default "https://gateway.pinata.cloud"
                                    (environ w !! "PINATA_GATEWAY"))))
                          else None),
                 after_request (auth_probe hs) w)).
    { unfold probe, IPFSClient.__init__. monad_simpl. fold jwt key secret.
      rewrite (test_connection_hosted_run _ _ _ _ hs w Hhs). reflexivity. }
    unfold get_ipfs_client.
    rewrite (bind_returns (getenv "PINATA_JWT") _ w w jwt eq_refl).
    rewrite (bind_returns (getenv "PINATA_API_KEY") _ w w key eq_refl).
    rewrite Hcred, (bind_returns (probe true) _ w _ _ Hprobe).
    match goal with
    | |- context [sent (snd (?k ?w1))] =>
        destruct (after_hosted_probe_sends
                    (if answers_ok w (auth_probe hs)
                     then Some (Hosted (IPFSClient.Pinata jwt key secret
                            (default "https://gateway.pinata.cloud"
                               (environ w !! "PINATA_GATEWAY"))))
                     else None) w1) as (rest & Hsent & _);
        exists rest
    end.
    rewrite Hsent. unfold after_request. cbn [sent]. rewrite <- app_assoc. reflexivity. }
  destruct Hrun as [rest Hrest]. exists rest. split; [exact Hrest|].
  unfold IPFSClient._get_headers in Hhs. split; [|split].
  - intros token Hjwt Htoken. rewrite Hjwt in Hhs.
    destruct token; [congruence|]. injection Hhs as <-. reflexivity.
  - intros k s Hno Hkey Hsecret Hk Hs. rewrite Hno, Hkey, Hsecret in Hhs.
    destruct k; [congruence|]. destruct s; [congruence|]. injection Hhs as <-. reflexivity.
  - intros Hno Hnosecret. rewrite Hno, Hnosecret, andb_false_r in Hhs.
    injection Hhs as <-. reflexivity.
Qed.

(** X15 with a token configured. *)
Lemma factory_probe_carries_the_preferred_credential_witness :
  truthy (environ token_world !! "PINATA_JWT") || truthy (environ token_world !! "PINATA_API_KEY")
  = true
  /\ exists hs rest,
       sent (snd (get_ipfs_client false token_world))
       = (sent token_world ++ auth_probe hs :: rest)%list
       /\ hs = [("Authorization", "Bearer token")].
Proof.
  split; [reflexivity|].
  destruct (factory_probe_carries_the_preferred_credential token_world eq_refl)
    as (hs & rest & Hsent & Htoken & _).
  exists hs, rest. split; [exact Hsent|].
  apply (Htoken "token"); [reflexivity|discriminate].
Defined.

(** ** The mock store *)

Section DigestLength.

Lemma round_length (st : list N * list N) (k : N) :
  List.length (fst st) = 8%nat -> List.length (fst (SHA256.round st k)) = 8%nat.
Proof.
  destruct st as [v ws]. cbn [fst]. intros Hv.
  do 9 (destruct v as [|? v]; try discriminate Hv). reflexivity.
Qed.

Lemma fold_left_keeps {X Y : Type} (f : X -> Y -> X) (P : X -> Prop) (l : list Y) (x : X) :
  (forall x y, P x -> P (f x y)) -> P x -> P (fold_left f l x).
Proof.
  intros Hf. revert x. induction l as [|y l IH]; intros x Hx; [exact Hx|].
  simpl. apply IH, Hf, Hx.
Qed.

Lemma rounds_length (ks : list N) (st : list N * list N) :
  List.length (fst st) = 8%nat -> List.length (fst (fold_left SHA256.round ks st)) = 8%nat.
Proof.
  apply (fold_left_keeps SHA256.round (fun st => List.length (fst st) = 8%nat)).
  exact round_length.
Qed.

Lemma compress_length (h block : list N) :
  List.length h = 8%nat -> List.length (SHA256.compress h block) = 8%nat.
Proof.
  intros Hh. unfold SHA256.compress.
  pose proof (rounds_length SHA256.K (h, block) Hh) as Hv.
  destruct (fold_left SHA256.round SHA256.K (h, block)) as [v ws]. cbn [fst] in Hv.
  rewrite length_map, length_combine, Hh, Hv. reflexivity.
Qed.

Lemma blocks_length (blocks : list (list N)) (h : list N) :
  List.length h = 8%nat -> List.length (fold_left SHA256.compress blocks h) = 8%nat.
Proof.
  apply (fold_left_keeps SHA256.compress (fun h => List.length h = 8%nat)).
  exact compress_length.
Qed.

Lemma be_bytes_length (n : nat) (x : N) : List.length (SHA256.be_bytes n x) = n.
Proof.
  revert x. induction n as [|n IH]; intros x; [reflexivity|].
  cbn [SHA256.be_bytes]. rewrite length_app, IH. simpl. lia.
Qed.

Lemma words_bytes_length (l : list N) :
  List.length (flat_map (SHA256.be_bytes 4) l) = (4 * List.length l)%nat.
Proof.
  induction l as [|x l IH]; [reflexivity|].
  cbn [flat_map]. rewrite length_app, be_bytes_length, IH. simpl. lia.
Qed.

Lemma digest_length (msg : list N) : List.length (SHA256.digest msg) = 32%nat.
Proof.
  unfold SHA256.digest. cbv zeta.
  rewrite words_bytes_length, blocks_length; reflexivity.
Qed.

Lemma hex_of_length (l : list N) : String.length (hex_of l) = (2 * List.length l)%nat.
Proof.
  induction l as [|b l IH]; [reflexivity|].
  cbn [hex_of String.length List.length]. rewrite IH. lia.
Qed.

Lemma str_take_length (n : nat) (s : string) :
  (n <= String.length s)%nat -> String.length (str_take n s) = n.
Proof.
  revert s. induction n as [|n IH]; intros [|c s] H; simpl in *; try reflexivity; try lia.
  rewrite IH by lia. reflexivity.
Qed.

End DigestLength.

(** X16. Every mock CID is [Qm] followed by exactly 44 lower-case
    hexadecimal digits, 46 characters in all.  So it is a single path
    component, it is not the name of the index file, and cleaning leaves it
    as it is. *)
Theorem mock_cid_shape (data : bytes) :
  exists h,
    MockIPFSClient._compute_hash data = "Qm" ++ h
    /\ String.length h = 44%nat
    /\ all_chars hexchar h = true
    /\ clean_cid (MockIPFSClient._compute_hash data) = MockIPFSClient._compute_hash data
    /\ ~ reserved_name (MockIPFSClient._compute_hash data).
Proof.
  exists (str_take 44 (sha256_hexdigest data)).
  split; [reflexivity|]. split; [|split; [|split]].
  - apply str_take_length. unfold sha256_hexdigest.
    rewrite hex_of_length, digest_length. lia.
  - apply all_chars_take, hex_of_hexchars.
  - apply clean_cid_compute_hash.
  - destruct (compute_hash_starts data) as [r ->].
    intros [H|[H|[H|H]]]; discriminate.
Qed.

Lemma dict_set_twice (k : string) (v v' : json) (d : dict) :
  dict_set k v' (dict_set k v d) = dict_set k v' d.
Proof.
  induction d as [|[k0 v0] d IH]; simpl.
  - rewrite String.eqb_refl. reflexivity.
  - destruct (String.eqb k k0) eqn:E; simpl.
    + rewrite String.eqb_refl. reflexivity.
    + rewrite E, IH. reflexivity.
Qed.

Lemma dict_set_keys (k : string) (v : json) (d : dict) :
  is_Some (dict_get k d) -> map fst (dict_set k v d) = map fst d.
Proof.
  induction d as [|[k0 v0] d IH]; simpl; intros [x Hx]; [discriminate|].
  destruct (String.eqb_spec k k0) as [->|Hne]; simpl; [reflexivity|].
  rewrite IH by eauto. reflexivity.
Qed.

Lemma stored_twice (self : MockIPFSClient.t) (cid : string) (data : bytes)
  (index index' : dict) (w : World) :
  stored self cid data index' (stored self cid data index w) = stored self cid data index' w.
Proof.
  unfold stored at 1. rewrite stored_the_dir. unfold stored, set_dirs. cbn [dirs blobs].
  rewrite !insert_insert_eq. reflexivity.
Qed.

(** X17. Uploading again a file that the mock store holds adds nothing:
    the directory keeps its files, the index keeps its keys in their order,
    and the one entry of the CID now records the name of the latest upload.
    With the same name the second upload changes nothing at all. *)
Theorem mock_upload_again_keeps_one_entry
  (self : MockIPFSClient.t) (w : World) (file_path : string) (name name' : option string)
  (data : bytes) :
  files w !! file_path = Some data ->
  exists cid self1 w1 self2 w2,
    MockIPFSClient.upload_file self file_path name w = (Returns (Some cid, self1), w1)
    /\ MockIPFSClient.upload_file self1 file_path name' w1 = (Returns (Some cid, self2), w2)
    /\ blobs (MockIPFSClient.the_dir (MockIPFSClient.storage_dir self) w2)
       = blobs (MockIPFSClient.the_dir (MockIPFSClient.storage_dir self) w1)
    /\ map fst (MockIPFSClient.metadata self2) = map fst (MockIPFSClient.metadata self1)
    /\ dict_get cid (MockIPFSClient.metadata self2)
       = Some (file_entry (or_else name' (path_name file_path)) data "file")
    /\ (or_else name' (path_name file_path) = or_else name (path_name file_path) ->
        self2 = self1 /\ w2 = w1).
Proof.
  intros Hfile.
  eexists _, _, _, _, _. split; [apply mock_upload_file_run, Hfile|].
  split; [apply mock_upload_file_run; rewrite stored_files; exact Hfile|].
  repeat match goal with
    | |- context [stored (registering ?s ?c ?e) ?a ?b ?i ?v] =>
        change (stored (registering s c e) a b i v) with (stored s a b i v)
    end.
  cbn [registering MockIPFSClient.storage_dir MockIPFSClient.metadata].
  rewrite stored_twice, !stored_the_dir. cbn [blobs].
  split; [reflexivity|]. split; [|split].
  - apply dict_set_keys. rewrite dict_get_set_eq. eauto.
  - apply dict_get_set_eq.
  - intros ->. unfold registering. cbn [MockIPFSClient.storage_dir MockIPFSClient.metadata].
    rewrite !dict_set_twice. split; reflexivity.
Qed.

(** X17 on a file of three bytes, uploaded under two names. *)
Lemma mock_upload_again_keeps_one_entry_witness :
  files example_world !! "weights.bin" = Some [x01; x02; x03]
  /\ exists cid self1 w1 self2 w2,
       MockIPFSClient.upload_file fresh_mock "weights.bin" None example_world
       = (Returns (Some cid, self1), w1)
       /\ MockIPFSClient.upload_file self1 "weights.bin" (Some "again") w1
          = (Returns (Some cid, self2), w2)
       /\ map fst (MockIPFSClient.metadata self2) = map fst (MockIPFSClient.metadata self1)
       /\ dict_get cid (MockIPFSClient.metadata self2)
          = Some (file_entry "again" [x01; x02; x03] "file").
Proof.
  split; [reflexivity|].
  destruct (mock_upload_again_keeps_one_entry fresh_mock example_world "weights.bin" None
              (Some "again") [x01; x02; x03] eq_refl)
    as (cid & self1 & w1 & self2 & w2 & H1 & H2 & _ & Hkeys & Hentry & _).
  exists cid, self1, w1, self2, w2. repeat split; assumption.
Defined.

(** X18. An upload to the mock store changes its own directory only, and in
    it the file and the index entry of the returned CID only: the files of
    the caller (the uploaded one included), the environment, the other
    directories and every other entry and file of the store stay as they
    were, and no request is sent. *)
Theorem mock_upload_touches_its_own_entry_only
  (self : MockIPFSClient.t) (w : World) (file_path : string) (name : option string)
  (doc : json) (jname : string) :
  (forall r self' w',
      MockIPFSClient.upload_file self file_path name w = (Returns (r, self'), w') ->
      files w' = files w /\ sent w' = sent w /\ environ w' = environ w
      /\ (forall dir, dir <> MockIPFSClient.storage_dir self -> dirs w' !! dir = dirs w !! dir)
      /\ (forall other, r <> Some other ->
            dict_get other (MockIPFSClient.metadata self')
            = dict_get other (MockIPFSClient.metadata self)
            /\ blobs (MockIPFSClient.the_dir (MockIPFSClient.storage_dir self) w') !! other
               = blobs (MockIPFSClient.the_dir (MockIPFSClient.storage_dir self) w) !! other))
  /\ (forall r self' w',
      MockIPFSClient.upload_json self doc jname w = (Returns (r, self'), w') ->
      files w' = files w /\ sent w' = sent w /\ environ w' = environ w
      /\ (forall dir, dir <> MockIPFSClient.storage_dir self -> dirs w' !! dir = dirs w !! dir)
      /\ (forall other, r <> Some other ->
            dict_get other (MockIPFSClient.metadata self')
            = dict_get other (MockIPFSClient.metadata self)
            /\ blobs (MockIPFSClient.the_dir (MockIPFSClient.storage_dir self) w') !! other
               = blobs (MockIPFSClient.the_dir (MockIPFSClient.storage_dir self) w) !! other)).
Proof.
  assert (Hframe : forall cid data entry,
    let w' := stored self cid data (dict_set cid entry (MockIPFSClient.metadata self)) w in
    files w' = files w /\ sent w' = sent w /\ environ w' = environ w
    /\ (forall dir, dir <> MockIPFSClient.storage_dir self -> dirs w' !! dir = dirs w !! dir)
    /\ (forall other, Some cid <> Some other ->
          dict_get other (MockIPFSClient.metadata (registering self cid entry))
          = dict_get other (MockIPFSClient.metadata self)
          /\ blobs (MockIPFSClient.the_dir (MockIPFSClient.storage_dir self) w') !! other
             = blobs (MockIPFSClient.the_dir (MockIPFSClient.storage_dir self) w) !! other)).
  { intros cid data entry w'. split; [reflexivity|]. split; [reflexivity|].
    split; [reflexivity|]. split.
    - intros dir Hdir. unfold w', stored, set_dirs. cbn [dirs].
      apply lookup_insert_ne. congruence.
    - intros other Hother. assert (cid <> other) by congruence.
      unfold w'. rewrite stored_the_dir. cbn [blobs registering MockIPFSClient.metadata].
      split; [apply dict_get_set_ne; assumption|apply lookup_insert_ne; assumption]. }
  split.
  - intros r self' w' Hrun. destruct (files w !! file_path) as [data|] eqn:Hfile.
    + rewrite (mock_upload_file_run self w file_path name data Hfile) in Hrun.
      injection Hrun as <- <- <-. apply Hframe.
    + destruct (upload_file_missing_run local_client self w file_path name Hfile) as [_ Hnone].
      rewrite Hnone in Hrun. injection Hrun as <- <- <-.
      repeat split; reflexivity.
  - intros r self' w' Hrun. rewrite mock_upload_json_run in Hrun.
    injection Hrun as <- <- <-. apply Hframe.
Qed.



(** X20. The mock's [download_json] has no handler: for a stored file that
    is not JSON text it raises what [json.load] raises, where the hosted
    client's [download_json], given the same bytes by the gateway, returns
    [None]. *)
Theorem download_json_of_what_is_not_json
  (mock : MockIPFSClient.t) (w : World) (file_path : string) (name : option string)
  (data : bytes) (e : exn)
  (self : IPFSClient.t) (w0 : World) (cid0 : string) (response : Response) :
  files w !! file_path = Some data ->
  json_of_bytes data = Raises e ->
  remote w0 (sent w0) (gateway_get self cid0 60) = Answer response ->
  json_of_bytes (content response) = Raises e ->
  (exists cid mock' w1,
      MockIPFSClient.upload_file mock file_path name w = (Returns (Some cid, mock'), w1)
      /\ MockIPFSClient.download_json mock' cid w1 = (Raises e, w1))
  /\ fst (IPFSClient.download_json self cid0 w0) = Returns None.
Proof.
  intros Hfile Hbad Hserved Hbad0. split.
  - eexists _, _, _. split; [apply mock_upload_file_run, Hfile|].
    unfold MockIPFSClient.download_json. monad_simpl.
    change (MockIPFSClient.storage_dir (registering mock _ _))
      with (MockIPFSClient.storage_dir mock).
    rewrite stored_the_dir, clean_cid_compute_hash, stat_compute_hash.
    cbn [blobs]. rewrite lookup_insert_eq. cbn [option_map]. rewrite Hbad. reflexivity.
  - unfold IPFSClient.download_json. fold (gateway_get self cid0 60).
    unfold try_except, bind, http_send. rewrite Hserved.
    destruct (status_code response =? 200)%Z; [|reflexivity].
    unfold lift. rewrite Hbad0. reflexivity.
Qed.

(** X20 on a file of three bytes that are not JSON. *)
Lemma download_json_of_what_is_not_json_witness :
  json_of_bytes [x01; x02; x03] = Raises JSONDecodeError
  /\ (exists cid mock' w1,
        MockIPFSClient.upload_file fresh_mock "weights.bin" None example_world
        = (Returns (Some cid, mock'), w1)
        /\ MockIPFSClient.download_json mock' cid w1 = (Raises JSONDecodeError, w1))
  /\ fst (IPFSClient.download_json pinata_client "QmX" serving_world) = Returns None.
Proof.
  assert (Hbad : json_of_bytes [x01; x02; x03] = Raises JSONDecodeError)
    by (vm_compute; reflexivity).
  split; [exact Hbad|].
  exact (download_json_of_what_is_not_json fresh_mock example_world "weights.bin" None
           [x01; x02; x03] JSONDecodeError pinata_client serving_world "QmX"
           {| status_code := 200; content := [x01; x02; x03] |}
           eq_refl Hbad eq_refl Hbad).
Defined.

(** ** The index file *)

Section JsonIndent.
Variable ind : option nat.

Lemma skip_ws_spaces (n : nat) (s : string) : skip_ws (spaces n ++ s) = skip_ws s.
Proof. induction n as [|n IH]; [reflexivity|]. exact IH. Qed.

Lemma skip_ws_nl (l : nat) (s : string) : skip_ws (nl_at ind l ++ s) = skip_ws s.
Proof.
  unfold nl_at. destruct ind as [n|]; [|reflexivity].
  rewrite str_app_assoc. change (newline ++ ?x) with (String (chr 10) x).
  change (skip_ws (String (chr 10) ?x)) with (skip_ws x). apply skip_ws_spaces.
Qed.

Lemma skip_ws_gap (lvl : nat) (s : string) : skip_ws (gap_at ind lvl ++ s) = skip_ws s.
Proof.
  unfold gap_at. pose proof (skip_ws_nl (S lvl) s) as H.
  destruct ind; [exact H|reflexivity].
Qed.

Lemma ends_number_nl (l : nat) (c : ascii) (s : string) :
  ends_number (String c s) = true -> ends_number (nl_at ind l ++ String c s) = true.
Proof. unfold nl_at. destruct ind; [reflexivity|tauto]. Qed.

Lemma dumps_list_at (lvl : nat) (x : json) (xs : list json) :
  dumps_at ind lvl (JList (x :: xs))
  = "[" ++ nl_at ind (S lvl) ++ dumps_at ind (S lvl) x ++ items_at ind lvl xs
    ++ nl_at ind lvl ++ "]".
Proof.
  cbn [dumps_at].
  match goal with
  | |- context [?f xs] =>
      is_fix f; assert (Hitems : forall l, f l = items_at ind lvl l)
  end.
  { induction l as [|y ys IH]; [reflexivity|]. cbn [items_at]. rewrite <- IH.
    unfold gap_at, nl_at. destruct ind; reflexivity. }
  rewrite Hitems. unfold nl_at. destruct ind; reflexivity.
Qed.

Lemma dumps_dict_at (lvl : nat) (k : string) (v : json) (kvs : list (string * json)) :
  dumps_at ind lvl (JDict ((k, v) :: kvs))
  = "{" ++ nl_at ind (S lvl) ++ quote k ++ ": " ++ dumps_at ind (S lvl) v
    ++ members_at ind lvl kvs ++ nl_at ind lvl ++ "}".
Proof.
  cbn [dumps_at].
  match goal with
  | |- context [?f kvs] =>
      is_fix f; assert (Hmembers : forall l, f l = members_at ind lvl l)
  end.
  { induction l as [|[k' v'] r IH]; [reflexivity|]. cbn [members_at]. rewrite <- IH.
    unfold gap_at, nl_at. destruct ind; reflexivity. }
  rewrite Hmembers. unfold nl_at. destruct ind; reflexivity.
Qed.

Lemma dumps_head_at (lvl : nat) (j : json) :
  exists c r, dumps_at ind lvl j = String c r /\ value_start c = true.
Proof.
  destruct j as [|[]|n|s|[|x xs]|[|[k v] kvs]];
    rewrite ?dumps_list_at, ?dumps_dict_at; try (eexists _, _; split; reflexivity).
  cbn [dumps_at]. destruct (Z_to_str_head n) as (c & r & -> & Hc).
  eauto using starts_number_value_start.
Qed.

Lemma skip_ws_dumps_at (lvl : nat) (j : json) (rest : string) :
  skip_ws (dumps_at ind lvl j ++ rest) = dumps_at ind lvl j ++ rest.
Proof.
  destruct (dumps_head_at lvl j) as (c & r & -> & Hc). apply skip_ws_value, Hc.
Qed.

Lemma parse_value_list_at (fuel : nat) (t : string) (c : ascii) (r : string) :
  skip_ws t = String c r ->
  value_start c = true ->
  parse_value (S fuel) (String "[" t)
  = match parse_elems fuel (String c r) with
    | Some (l, rest) => Some (JList l, rest)
    | None => None
    end.
Proof.
  intros Ht Hc.
  change (parse_value (S fuel) (String "[" t))
    with (match skip_ws t with
          | String "]" rest => Some (JList [], rest)
          | r' => match parse_elems fuel r' with
                  | Some (l, rest) => Some (JList l, rest)
                  | None => None
                  end
          end).
  rewrite Ht. clear Ht.
  destruct c as [[] [] [] [] [] [] [] []]; try discriminate Hc; reflexivity.
Qed.

Lemma parse_value_dict_at (fuel : nat) (t r : string) :
  skip_ws t = dquote ++ r ->
  parse_value (S fuel) (String "{" t)
  = match parse_members fuel [] (dquote ++ r) with
    | Some (d, rest) => Some (JDict d, rest)
    | None => None
    end.
Proof.
  intros Ht.
  change (parse_value (S fuel) (String "{" t))
    with (match skip_ws t with
          | String "}" rest => Some (JDict [], rest)
          | r' => match parse_members fuel [] r' with
                  | Some (d, rest) => Some (JDict d, rest)
                  | None => None
                  end
          end).
  rewrite Ht. reflexivity.
Qed.

Lemma ends_number_close (lvl : nat) (c : ascii) (rest : string) :
  c = "]"%char \/ c = "}"%char -> ends_number (nl_at ind lvl ++ String c rest) = true.
Proof. intros [-> | ->]; apply ends_number_nl; reflexivity. Qed.

Lemma skip_ws_close (lvl : nat) (c : ascii) (rest : string) :
  c = "]"%char \/ c = "}"%char -> skip_ws (nl_at ind lvl ++ String c rest) = String c rest.
Proof. intros H. rewrite skip_ws_nl. destruct H as [-> | ->]; reflexivity. Qed.

Lemma parse_elems_items_at (lvl : nat) (xs : list json) :
  Forall (parses_back_at ind) xs ->
  forall x fuel rest,
    parses_back_at ind x ->
    (list_sum (map (fun y => S (weight y)) (x :: xs)) <= fuel)%nat ->
    parse_elems fuel
      (dumps_at ind (S lvl) x ++ items_at ind lvl xs ++ nl_at ind lvl ++ String "]" rest)
    = Some (x :: xs, rest).
Proof.
  induction 1 as [|y ys Hy Hys IH]; intros x fuel rest Hx Hfuel;
    cbn [map list_sum fold_right] in Hfuel; (destruct fuel as [|f]; [lia|]); cbn [parse_elems].
  - cbn [items_at String.append].
    rewrite (Hx (S lvl) f) by (apply ends_number_close; auto) || lia.
    rewrite skip_ws_close by auto. reflexivity.
  - cbn [items_at]. rewrite !str_app_assoc. cbn [String.append].
    rewrite (Hx (S lvl) f) by (reflexivity || lia).
    rewrite (skip_ws_value ",") by reflexivity.
    rewrite skip_ws_gap, skip_ws_dumps_at.
    rewrite IH; [reflexivity|exact Hy|]. cbn [map list_sum fold_right]. lia.
Qed.

Lemma parse_members_text_at (lvl : nat) (kvs : list (string * json)) :
  Forall (fun kv => parses_back_at ind (snd kv)) kvs ->
  forall k v acc fuel rest,
    parses_back_at ind v ->
    (list_sum (map (fun kv => S (weight (snd kv))) ((k, v) :: kvs)) <= fuel)%nat ->
    parse_members fuel acc
      (quote k ++ ": " ++ dumps_at ind (S lvl) v ++ members_at ind lvl kvs
       ++ nl_at ind lvl ++ String "}" rest)
    = Some (fold_left set_member ((k, v) :: kvs) acc, rest).
Proof.
  induction 1 as [|[k' v'] r Hv' Hr IH]; intros k v acc fuel rest Hv Hfuel;
    cbn [map list_sum fold_right snd] in Hfuel; (destruct fuel as [|f]; [lia|]);
    rewrite quote_app;
    change (dquote ++ ?x) with (String (chr 34) x);
    cbn [parse_members]; change (nat_of_ascii (chr 34) =? 34)%nat with true; cbv iota;
    rewrite parse_chars_escape;
    cbn [String.append]; rewrite (skip_ws_value ":"), skip_ws_space, skip_ws_dumps_at
      by reflexivity.
  - cbn [members_at String.append].
    rewrite (Hv (S lvl) f) by (apply ends_number_close; auto) || lia.
    rewrite skip_ws_close by auto. reflexivity.
  - cbn [members_at]. rewrite !str_app_assoc. cbn [String.append].
    rewrite (Hv (S lvl) f) by (reflexivity || lia).
    rewrite (skip_ws_value ",") by reflexivity.
    rewrite skip_ws_gap.
    rewrite quote_app.
    change (dquote ++ ?x) with (String (chr 34) x) at 1.
    rewrite (skip_ws_value (chr 34)) by reflexivity.
    change (String (chr 34) ?x) with (dquote ++ x).
    rewrite <- quote_app.
    change (String ":" (String " " ?x)) with (": " ++ x).
    rewrite IH; [reflexivity|exact Hv'|]. cbn [map list_sum fold_right snd]. lia.
Qed.

Lemma parse_value_dumps_at (j : json) : json_wf j = true -> parses_back_at ind j.
Proof.
  induction j as [|b|n|s|l IH|d IH] using json_induction; intros Hwf lvl fuel rest Hfuel Hrest;
    (destruct fuel as [|f]; [cbn in Hfuel; lia|]).
  - reflexivity.
  - destruct b; reflexivity.
  - cbn [dumps_at]. destruct (Z_to_str_head n) as (c & r & Hs & Hc).
    pose proof (parse_number_Z n rest Hrest) as Hnum.
    rewrite Hs in Hnum |- *. cbn [String.append] in Hnum |- *.
    rewrite parse_value_number by exact Hc. exact Hnum.
  - apply parse_value_string.
  - destruct l as [|x xs]; [reflexivity|].
    rewrite dumps_list_at. cbn [String.append]. rewrite !str_app_assoc.
    destruct (dumps_head_at (S lvl) x) as (c & r & Hhead & Hc).
    rewrite (parse_value_list_at f _ c
               (r ++ items_at ind lvl xs ++ nl_at ind lvl ++ "]" ++ rest));
      [|rewrite skip_ws_nl, skip_ws_dumps_at, Hhead; reflexivity|exact Hc].
    change (String c (r ++ ?t)) with (String c r ++ t). rewrite <- Hhead.
    cbn [json_wf forallb] in Hwf. apply andb_true_iff in Hwf as [Hwx Hwxs].
    inversion IH as [|? ? Hpx Hpxs]; subst.
    change ("]" ++ rest) with (String "]" rest).
    rewrite parse_elems_items_at; [reflexivity| |exact (Hpx Hwx)|cbn [weight] in Hfuel; lia].
    clear -Hpxs Hwxs. induction Hpxs as [|y ys Hy _ IHys]; constructor.
    + cbn [forallb] in Hwxs. apply andb_true_iff in Hwxs as [Hwy _]. exact (Hy Hwy).
    + cbn [forallb] in Hwxs. apply andb_true_iff in Hwxs as [_ Hwys]. exact (IHys Hwys).
  - destruct d as [|[k v] kvs]; [reflexivity|].
    rewrite dumps_dict_at, !str_app_assoc. cbn [String.append].
    erewrite parse_value_dict_at;
      [|rewrite skip_ws_nl, quote_app; apply (skip_ws_value (chr 34)); reflexivity].
    rewrite <- quote_app.
    change (String ":" (String " " ?x)) with (": " ++ x).
    cbn [json_wf forallb snd] in Hwf. apply andb_true_iff in Hwf as [Hkeys Hwf].
    apply andb_true_iff in Hwf as [Hwv Hwkvs].
    inversion IH as [|? ? Hpv Hpkvs]; subst. cbn [snd] in Hpv.
    rewrite (parse_members_text_at lvl kvs); [| |exact (Hpv Hwv)|cbn [weight] in Hfuel; lia].
    + rewrite fold_set_member_distinct by exact Hkeys. reflexivity.
    + clear -Hpkvs Hwkvs. induction Hpkvs as [|[k' v'] r Hv' _ IHr]; constructor.
      * cbn [forallb snd] in Hwkvs. apply andb_true_iff in Hwkvs as [Hw _]. exact (Hv' Hw).
      * cbn [forallb] in Hwkvs. apply andb_true_iff in Hwkvs as [_ Hw]. exact (IHr Hw).
Qed.

Lemma weight_le_length_at (j : json) :
  forall lvl, (weight j <= String.length (dumps_at ind lvl j))%nat.
Proof.
  induction j as [|b|n|s|l IH|d IH] using json_induction; intros lvl.
  - cbn. lia.
  - destruct b; cbn; lia.
  - cbn [dumps_at weight]. destruct (Z_to_str_head n) as (c & r & -> & _). cbn. lia.
  - cbn [dumps_at weight]. unfold quote. cbn. lia.
  - destruct l as [|x xs]; [cbn; lia|].
    rewrite dumps_list_at. cbn [weight map list_sum fold_right]. inversion IH as [|? ? Hx Hxs]; subst.
    rewrite !str_length_app. cbn [String.length]. specialize (Hx (S lvl)).
    assert (list_sum (map (fun y => S (weight y)) xs) <= String.length (items_at ind lvl xs))%nat.
    { clear -Hxs. induction Hxs as [|y ys Hy _ IHys]; [cbn; lia|].
      cbn [map list_sum fold_right items_at]. rewrite !str_length_app. cbn [String.length].
      specialize (Hy (S lvl)). fold (list_sum (map (fun y => S (weight y)) ys)). lia. }
    fold (list_sum (map (fun y => S (weight y)) xs)). lia.
  - destruct d as [|[k v] kvs]; [cbn; lia|].
    rewrite dumps_dict_at. cbn [weight map list_sum fold_right snd].
    inversion IH as [|? ? Hv Hkvs]; subst. cbn [snd] in Hv.
    rewrite !str_length_app. cbn [String.length]. specialize (Hv (S lvl)).
    assert (list_sum (map (fun kv => S (weight (snd kv))) kvs)
            <= String.length (members_at ind lvl kvs))%nat.
    { clear -Hkvs. induction Hkvs as [|[k' v'] r Hv' _ IHr]; [cbn; lia|].
      cbn [map list_sum fold_right members_at snd]. rewrite !str_length_app.
      cbn [String.length]. cbn [snd] in Hv'. specialize (Hv' (S lvl)).
      fold (list_sum (map (fun kv => S (weight (snd kv))) r)). lia. }
    fold (list_sum (map (fun kv => S (weight (snd kv))) kvs)). lia.
Qed.

Lemma json_loads_dumps_at (j : json) :
  json_wf j = true -> json_loads (dumps_at ind 0 j) = Some j.
Proof.
  intros Hwf. unfold json_loads.
  rewrite <- (str_app_nil_r (dumps_at ind 0 j)) at 2.
  rewrite skip_ws_dumps_at.
  rewrite (parse_value_dumps_at j Hwf 0); [reflexivity| |reflexivity].
  pose proof (weight_le_length_at j 0). lia.
Qed.

End JsonIndent.

Lemma dict_set_has_key (a k : string) (v : json) (d : dict) :
  existsb (String.eqb a) (map fst (dict_set k v d))
  = String.eqb a k || existsb (String.eqb a) (map fst d).
Proof.
  induction d as [|[k0 v0] d IH]; cbn [dict_set map fst existsb].
  - reflexivity.
  - destruct (String.eqb_spec k k0) as [->|Hne]; cbn [map fst existsb].
    + destruct (String.eqb a k0); reflexivity.
    + rewrite IH. destruct (String.eqb a k0), (String.eqb a k); reflexivity.
Qed.

(** Setting a key keeps the keys of a dictionary distinct. *)
Lemma dict_set_wf (k : string) (v : json) (d : dict) :
  json_wf (JDict d) = true -> json_wf v = true -> json_wf (JDict (dict_set k v d)) = true.
Proof.
  cbn [json_wf]. intros Hd Hv. apply andb_true_iff in Hd as [Hkeys Hvals].
  apply andb_true_iff. split.
  - clear Hvals. induction d as [|[k0 v0] d IH]; [reflexivity|].
    cbn [map fst distinct] in Hkeys. apply andb_true_iff in Hkeys as [Hk0 Hd].
    cbn [dict_set]. destruct (String.eqb_spec k k0) as [->|Hne]; cbn [map fst distinct].
    + rewrite Hk0, Hd. reflexivity.
    + rewrite (IH Hd), dict_set_has_key, andb_true_r.
      apply negb_true_iff in Hk0. rewrite Hk0, orb_false_r.
      apply negb_true_iff. destruct (String.eqb_spec k0 k); congruence.
  - clear Hkeys. induction d as [|[k0 v0] d IH]; cbn [dict_set forallb snd].
    + rewrite Hv. reflexivity.
    + cbn [forallb snd] in Hvals. apply andb_true_iff in Hvals as [Hv0 Hd].
      destruct (String.eqb k k0); cbn [forallb snd].
      * rewrite Hv, Hd. reflexivity.
      * rewrite Hv0, (IH Hd). reflexivity.
Qed.

(** The store after an upload, seen by a client created on its directory. *)
Lemma restart_after_store (self : MockIPFSClient.t) (w : World) (cid : string) (data : bytes)
  (entry : json) :
  json_wf (JDict (MockIPFSClient.metadata self)) = true ->
  json_wf entry = true ->
  MockIPFSClient.path_str (MockIPFSClient.storage_dir self) = MockIPFSClient.storage_dir self ->
  let self' := registering self cid entry in
  let w' := stored self cid data (dict_set cid entry (MockIPFSClient.metadata self)) w in
  exists text,
    MockIPFSClient.stat (MockIPFSClient.the_dir (MockIPFSClient.storage_dir self) w')
      "metadata.json" = Some (MockIPFSClient.IsFile text)
    /\ json_of_bytes text = Returns (JDict (MockIPFSClient.metadata self'))
    /\ MockIPFSClient.__init__ (MockIPFSClient.storage_dir self) w' = (Returns self', w').
Proof.
  intros Hindex Hentry Hdir self' w'. eexists. split; [|split].
  - unfold w'. rewrite stored_the_dir. reflexivity.
  - unfold json_of_bytes. rewrite decode_encode. unfold json_dumps_indent2.
    rewrite json_loads_dumps_at; [reflexivity|].
    apply dict_set_wf; assumption.
  - unfold MockIPFSClient.__init__, MockIPFSClient._load_metadata. monad_simpl.
    rewrite Hdir. unfold self', registering. f_equal.
    + f_equal. f_equal. unfold MockIPFSClient.the_dir, set_dirs. cbn [dirs].
      rewrite lookup_insert_eq. unfold w', stored, set_dirs. cbn [dirs].
      rewrite lookup_insert_eq. reflexivity.
    + unfold w', stored, set_dirs. cbn [dirs environ files sent remote tmp_seq].
      rewrite lookup_insert_eq. cbn [from_option id]. rewrite insert_insert_eq. reflexivity.
Qed.

(** X21. The index outlives the client.  After an upload the file
    [metadata.json] holds text that [json.load] reads back as the index of
    the uploading client, and a client created on the same directory starts
    in the state of the uploading client, without changing anything. *)
Theorem mock_index_survives_a_restart
  (self : MockIPFSClient.t) (w : World) (file_path : string) (name : option string)
  (data : bytes) (doc : json) (jname : string) :
  files w !! file_path = Some data ->
  json_wf (JDict (MockIPFSClient.metadata self)) = true ->
  MockIPFSClient.path_str (MockIPFSClient.storage_dir self) = MockIPFSClient.storage_dir self ->
  (exists cid self' w' text,
      MockIPFSClient.upload_file self file_path name w = (Returns (Some cid, self'), w')
      /\ MockIPFSClient.stat (MockIPFSClient.the_dir (MockIPFSClient.storage_dir self) w')
           "metadata.json" = Some (MockIPFSClient.IsFile text)
      /\ json_of_bytes text = Returns (JDict (MockIPFSClient.metadata self'))
      /\ MockIPFSClient.__init__ (MockIPFSClient.storage_dir self) w' = (Returns self', w'))
  /\ (exists cid self' w' text,
      MockIPFSClient.upload_json self doc jname w = (Returns (Some cid, self'), w')
      /\ MockIPFSClient.stat (MockIPFSClient.the_dir (MockIPFSClient.storage_dir self) w')
           "metadata.json" = Some (MockIPFSClient.IsFile text)
      /\ json_of_bytes text = Returns (JDict (MockIPFSClient.metadata self'))
      /\ MockIPFSClient.__init__ (MockIPFSClient.storage_dir self) w' = (Returns self', w')).
Proof.
  intros Hfile Hindex Hdir. split.
  - destruct (restart_after_store self w (MockIPFSClient._compute_hash data) data
                (file_entry (or_else name (path_name file_path)) data "file")
                Hindex eq_refl Hdir) as (text & Htext).
    eexists _, _, _, text. split; [apply mock_upload_file_run, Hfile|exact Htext].
  - destruct (restart_after_store self w
                (MockIPFSClient._compute_hash (str_encode (json_dumps doc)))
                (str_encode (json_dumps doc))
                (file_entry jname (str_encode (json_dumps doc)) "json")
                Hindex eq_refl Hdir) as (text & Htext).
    eexists _, _, _, text. split; [apply mock_upload_json_run|exact Htext].
Qed.

(** X21 on a new store and a file of three bytes. *)
Lemma mock_index_survives_a_restart_witness :
  files example_world !! "weights.bin" = Some [x01; x02; x03]
  /\ json_wf (JDict (MockIPFSClient.metadata fresh_mock)) = true
  /\ exists cid self' w' text,
       MockIPFSClient.upload_file fresh_mock "weights.bin" None example_world
       = (Returns (Some cid, self'), w')
       /\ MockIPFSClient.stat (MockIPFSClient.the_dir "ipfs_mock" w') "metadata.json"
          = Some (MockIPFSClient.IsFile text)
       /\ json_of_bytes text = Returns (JDict (MockIPFSClient.metadata self'))
       /\ MockIPFSClient.__init__ "ipfs_mock" w' = (Returns self', w').
Proof.
  split; [reflexivity|]. split; [reflexivity|].
  exact (proj1 (mock_index_survives_a_restart fresh_mock example_world "weights.bin" None
                  [x01; x02; x03] JNull "data.json" eq_refl eq_refl eq_refl)).
Defined.
